(** * Fdcr-Dashboard: the KPI aggregation and the domain performance scores

    A shallow embedding of the computing parts of [src/app.py]:

    - [process_kpi_data] (lines 132-176): groups the project records at the
      domain, programme or project level, sums the budget and the four KPI
      counters of each group, and derives the cost columns;
    - the loop of [create_domain_performance_chart] (lines 512-551) that
      builds the list [domain_metrics] of weighted performance scores;
    - the frames behind the two budget pies ([create_domain_budget_pie],
      [create_programme_budget_pie]) and the figures [main] derives from
      the frame of records and from the KPI rows.

    Modelling choices.

    - A pandas [DataFrame] is the list of its rows, each row a record with
      the columns the code reads.  The frame always carries these columns
      (it is built from the records of the Cypher query, which returns all
      of them).
    - A numeric cell is a [num]: an exact rational, an infinity or NaN.
      Binary rounding is abstracted (every finite operation is exact) and
      the sign of zero is not tracked; the special values follow IEEE 754.
      A missing value ([None] from the record source) sits in a numeric
      column as NaN, which is how pandas stores it.
    - The dtype of a numeric column.  The first definitions read every
      numeric column as float64.  A column in which every cell is an
      integer is int64, and its sums wrap around: [Typed] and [TypedScore]
      repeat the aggregation and the scores with the dtypes made explicit,
      and a refinement theorem relates the two readings.  A
      column that holds nothing but [None] keeps Python objects:
      [numeric_column] says that a column holds a number in some record,
      [object_column] that it holds none, and the statements that depend
      on it say which they assume; [ProjectLevel] and [TypedScore] have
      the errors an object column leads to.
    - A key cell (domain, programme, project name) is an [option string];
      [None] is a null key.  Strings are byte strings (UTF-8), whose
      lexicographic order is the code point order Python sorts by.
    - Python exceptions are an [outcome]: [Returns v] or [Raises e]. *)

From Stdlib Require Import List String Ascii Bool Arith ZArith QArith Qround Lqa Lia.
From Stdlib Require Import Sorted Permutation OrderedTypeEx.
Import ListNotations.

Open Scope Q_scope.

(** ** Numbers *)

Inductive num : Type :=
| Fin (q : Q)
| Inf (neg : bool)
| NaN.

Definition Qlt_bool (a b : Q) : bool := negb (Qle_bool b a).

(** The same value, whatever fraction represents it. *)
Definition num_eq (a b : num) : Prop :=
  match a, b with
  | Fin p, Fin q => p == q
  | Inf s, Inf t => s = t
  | NaN, NaN => True
  | _, _ => False
  end.

Definition num_add (a b : num) : num :=
  match a, b with
  | NaN, _ | _, NaN => NaN
  | Fin p, Fin q => Fin (p + q)
  | Fin _, Inf s | Inf s, Fin _ => Inf s
  | Inf s, Inf t => if Bool.eqb s t then Inf s else NaN
  end.

Definition num_mul (a b : num) : num :=
  match a, b with
  | NaN, _ | _, NaN => NaN
  | Fin p, Fin q => Fin (p * q)
  | Fin p, Inf s | Inf s, Fin p =>
      if Qeq_bool p 0 then NaN else Inf (xorb s (Qlt_bool p 0))
  | Inf s, Inf t => Inf (xorb s t)
  end.

(** Float division as numpy performs it: a zero divisor gives an infinity
    or NaN, never an exception. *)
Definition num_div (a b : num) : num :=
  match a, b with
  | NaN, _ | _, NaN => NaN
  | Fin p, Fin q =>
      if Qeq_bool q 0
      then (if Qeq_bool p 0 then NaN else Inf (Qlt_bool p 0))
      else Fin (p / q)
  | Fin _, Inf _ => Fin 0
  | Inf s, Fin q => Inf (xorb s (Qlt_bool q 0))
  | Inf _, Inf _ => NaN
  end.

(** [x > 0]: false on NaN. *)
Definition num_gt0 (a : num) : bool :=
  match a with
  | Fin q => Qlt_bool 0 q
  | Inf neg => negb neg
  | NaN => false
  end.

(** [x == 1]. *)
Definition num_is_one (a : num) : bool :=
  match a with
  | Fin q => Qeq_bool q 1
  | _ => false
  end.

Definition num_is_zero (a : num) : bool :=
  match a with
  | Fin q => Qeq_bool q 0
  | _ => false
  end.

(** [Series.sum()] and [DataFrame.sum(axis=1)]: NaN cells are skipped
    ([skipna=True]), the empty sum is 0. *)
Definition nanadd (acc x : num) : num :=
  match x with
  | NaN => acc
  | _ => num_add acc x
  end.

Definition nansum (xs : list num) : num := fold_left nanadd xs (Fin 0).

(** ** Exceptions *)

Inductive exn : Type :=
| ZeroDivisionError
| ValueError
| TypeError.

Inductive outcome (A : Type) : Type :=
| Returns (a : A)
| Raises (e : exn).

Arguments Returns {A} a.
Arguments Raises {A} e.

Definition bind {A B : Type} (m : outcome A) (k : A -> outcome B) : outcome B :=
  match m with
  | Returns a => k a
  | Raises e => Raises e
  end.

Notation "x <- m ;; k" := (bind m (fun x => k))
  (at level 61, m at next level, right associativity).

Fixpoint mapM {A B : Type} (f : A -> outcome B) (l : list A) : outcome (list B) :=
  match l with
  | [] => Returns []
  | a :: l' => b <- f a ;; bs <- mapM f l' ;; Returns (b :: bs)
  end.

(** [a / b] on the Python floats of a row: a zero divisor raises. *)
Definition py_truediv (a b : num) : outcome num :=
  if num_is_zero b then Raises ZeroDivisionError else Returns (num_div a b).

(** ** The data frames *)

Module Project.
(** A row of the frame of project records. *)
Record t : Type := mk {
  domain : option string;
  programme : option string;
  project_name : option string;
  status : num;
  total_budget : num;
  journal_articles : num;
  conference_papers : num;
  book_chapters : num;
  technology_demonstrators : num
}.
End Project.

Inductive kpi : Type :=
| JournalArticles
| ConferencePapers
| BookChapters
| TechnologyDemonstrators.

Definition kpi_columns : list kpi :=
  [JournalArticles; ConferencePapers; BookChapters; TechnologyDemonstrators].

Definition project_kpi (k : kpi) (r : Project.t) : num :=
  match k with
  | JournalArticles => Project.journal_articles r
  | ConferencePapers => Project.conference_papers r
  | BookChapters => Project.book_chapters r
  | TechnologyDemonstrators => Project.technology_demonstrators r
  end.

Module Grouped.
(** A row of [grouped] before the cost columns are added.  The column
    [domain] exists at the programme level only. *)
Record t : Type := mk {
  domain : option string;
  name : option string;
  total_budget : num;
  journal_articles : num;
  conference_papers : num;
  book_chapters : num;
  technology_demonstrators : num
}.

Definition column (k : kpi) (g : t) : num :=
  match k with
  | JournalArticles => journal_articles g
  | ConferencePapers => conference_papers g
  | BookChapters => book_chapters g
  | TechnologyDemonstrators => technology_demonstrators g
  end.
End Grouped.

Module Kpi.
(** A row of the frame [process_kpi_data] returns. *)
Record t : Type := mk {
  base : Grouped.t;
  journal_articles_cost : num;
  conference_papers_cost : num;
  book_chapters_cost : num;
  technology_demonstrators_cost : num;
  total_kpis : num;
  cost_per_kpi : num
}.

Definition cost (k : kpi) (r : t) : num :=
  match k with
  | JournalArticles => journal_articles_cost r
  | ConferencePapers => conference_papers_cost r
  | BookChapters => book_chapters_cost r
  | TechnologyDemonstrators => technology_demonstrators_cost r
  end.

Definition name (r : t) : option string := Grouped.name (base r).
Definition domain (r : t) : option string := Grouped.domain (base r).
Definition total_budget (r : t) : num := Grouped.total_budget (base r).
Definition column (k : kpi) (r : t) : num := Grouped.column k (base r).
End Kpi.

Definition DataFrame : Type := list Project.t.

(** ** Group keys *)

Section SortedKeys.
Context {K : Type} (cmp : K -> K -> comparison).

Fixpoint insert_key (k : K) (ks : list K) : list K :=
  match ks with
  | [] => [k]
  | k' :: ks' =>
      match cmp k k' with
      | Lt => k :: ks
      | Eq => ks
      | Gt => k' :: insert_key k ks'
      end
  end.

(** The distinct keys in ascending order: [groupby] sorts the group keys
    ([sort=True] is its default). *)
Definition sorted_unique (ks : list K) : list K := fold_right insert_key [] ks.
End SortedKeys.

Definition pair_compare (a b : string * string) : comparison :=
  match String.compare (fst a) (fst b) with
  | Eq => String.compare (snd a) (snd b)
  | c => c
  end.

Definition key_is (k : string) (c : option string) : bool :=
  match c with
  | Some s => String.eqb s k
  | None => false
  end.

(** The non-null keys of a column: [groupby] drops the rows whose key is
    null ([dropna=True] is its default). *)
Definition domain_keys (df : DataFrame) : list string :=
  flat_map (fun r => match Project.domain r with
                     | Some d => [d]
                     | None => []
                     end) df.

Definition programme_keys (df : DataFrame) : list (string * string) :=
  flat_map (fun r => match Project.domain r, Project.programme r with
                     | Some d, Some p => [(d, p)]
                     | _, _ => []
                     end) df.

Definition in_domain (d : string) (r : Project.t) : bool :=
  key_is d (Project.domain r).

Definition in_programme (dp : string * string) (r : Project.t) : bool :=
  key_is (fst dp) (Project.domain r) && key_is (snd dp) (Project.programme r).

(** [.agg({... : 'sum'})] on the rows of one group. *)
Definition agg_sum (dom name : option string) (members : DataFrame) : Grouped.t :=
  {| Grouped.domain := dom;
     Grouped.name := name;
     Grouped.total_budget := nansum (map Project.total_budget members);
     Grouped.journal_articles := nansum (map Project.journal_articles members);
     Grouped.conference_papers := nansum (map Project.conference_papers members);
     Grouped.book_chapters := nansum (map Project.book_chapters members);
     Grouped.technology_demonstrators :=
       nansum (map Project.technology_demonstrators members) |}.

(** [df.groupby('domain').agg(...).reset_index()], [domain] renamed [name]. *)
Definition group_by_domain (df : DataFrame) : list Grouped.t :=
  map (fun d => agg_sum None (Some d) (filter (in_domain d) df))
      (sorted_unique String.compare (domain_keys df)).

(** [df.groupby(['domain', 'programme']).agg(...).reset_index()],
    [programme] renamed [name]. *)
Definition group_by_programme (df : DataFrame) : list Grouped.t :=
  map (fun dp => agg_sum (Some (fst dp)) (Some (snd dp)) (filter (in_programme dp) df))
      (sorted_unique pair_compare (programme_keys df)).

(** [df[['project_name', 'total_budget', ...]]], [project_name] renamed
    [name]: the rows pass through. *)
Definition project_columns (r : Project.t) : Grouped.t :=
  {| Grouped.domain := None;
     Grouped.name := Project.project_name r;
     Grouped.total_budget := Project.total_budget r;
     Grouped.journal_articles := Project.journal_articles r;
     Grouped.conference_papers := Project.conference_papers r;
     Grouped.book_chapters := Project.book_chapters r;
     Grouped.technology_demonstrators := Project.technology_demonstrators r |}.

Definition grouped (df : DataFrame) (level : string) : list Grouped.t :=
  if String.eqb level "domain" then group_by_domain df
  else if String.eqb level "programme" then group_by_programme df
  else map project_columns df.

(** ** The cost columns *)

(** [lambda x: x['total_budget'] / x[kpi] if x[kpi] > 0 else 0]. *)
Definition cost_of (budget count : num) : outcome num :=
  if num_gt0 count then py_truediv budget count else Returns (Fin 0).

(** The cost columns of one row.  The source adds them column by column
    over the whole frame; row by row gives the same frame. *)
Definition kpi_costs (g : Grouped.t) : outcome Kpi.t :=
  ja <- cost_of (Grouped.total_budget g) (Grouped.journal_articles g) ;;
  cp <- cost_of (Grouped.total_budget g) (Grouped.conference_papers g) ;;
  bc <- cost_of (Grouped.total_budget g) (Grouped.book_chapters g) ;;
  td <- cost_of (Grouped.total_budget g) (Grouped.technology_demonstrators g) ;;
  let total := nansum (map (fun k => Grouped.column k g) kpi_columns) in
  c <- cost_of (Grouped.total_budget g) total ;;
  Returns {| Kpi.base := g;
             Kpi.journal_articles_cost := ja;
             Kpi.conference_papers_cost := cp;
             Kpi.book_chapters_cost := bc;
             Kpi.technology_demonstrators_cost := td;
             Kpi.total_kpis := total;
             Kpi.cost_per_kpi := c |}.

Definition process_kpi_data (df : DataFrame) (level : string) : outcome (list Kpi.t) :=
  mapM kpi_costs (grouped df level).

(** ** The domain performance scores *)

Module Metric.
(** An entry of the list [domain_metrics]. *)
Record t : Type := mk {
  domain : option string;
  performance_score : num;
  budget_score : num;
  activity_score : num;
  output_score : num
}.
End Metric.

Definition key_eqb (a b : option string) : bool :=
  match a, b with
  | Some s, Some t => String.eqb s t
  | None, None => true
  | _, _ => false
  end.

(** [Series.unique()]: the distinct values in order of first appearance,
    a null key included. *)
Fixpoint unique (l : list (option string)) : list (option string) :=
  match l with
  | [] => []
  | x :: l' => x :: filter (fun y => negb (key_eqb x y)) (unique l')
  end.

(** [df['domain'] == domain]: a null cell equals nothing, a null [domain]
    selects no row. *)
Definition domain_mask (d : option string) (r : Project.t) : bool :=
  match d with
  | Some s => key_is s (Project.domain r)
  | None => false
  end.

Definition column_sum (f : Project.t -> num) (df : DataFrame) : num :=
  nansum (map f df).

Definition research_output_of (df : DataFrame) : num :=
  num_add (num_add (num_add (column_sum Project.journal_articles df)
                            (column_sum Project.conference_papers df))
                   (column_sum Project.book_chapters df))
          (column_sum Project.technology_demonstrators df).

Definition of_nat (n : nat) : num := Fin (inject_Z (Z.of_nat n)).

Definition budget_weight : num := Fin (3 # 10).
Definition activity_weight : num := Fin (3 # 10).
Definition output_weight : num := Fin (4 # 10).

Definition weighted_score (budget_score activity_score output_score : num) : num :=
  num_add (num_add (num_mul budget_score budget_weight)
                   (num_mul activity_score activity_weight))
          (num_mul output_score output_weight).

(** One turn of the loop over [df['domain'].unique()].  The two sums are
    numpy floats, whose quotient never raises; the two counts are Python
    integers, whose quotient raises on a zero divisor. *)
Definition domain_metric (df : DataFrame) (domain : option string) : outcome Metric.t :=
  let domain_data := filter (domain_mask domain) df in
  let total_budget := column_sum Project.total_budget domain_data in
  let active_projects :=
    List.length (filter (fun r => num_is_one (Project.status r)) domain_data) in
  let total_projects := List.length domain_data in
  let research_output := research_output_of domain_data in
  let budget_score :=
    num_mul (num_div total_budget (column_sum Project.total_budget df)) (Fin 100) in
  activity_score <-
    (if Nat.ltb 0 total_projects
     then (ratio <- py_truediv (of_nat active_projects) (of_nat total_projects) ;;
           Returns (num_mul ratio (Fin 100)))
     else Returns (Fin 0)) ;;
  let output_score :=
    if num_gt0 research_output
    then num_mul (num_div research_output (research_output_of df)) (Fin 100)
    else Fin 0 in
  Returns
    {| Metric.domain := domain;
       Metric.performance_score := weighted_score budget_score activity_score output_score;
       Metric.budget_score := budget_score;
       Metric.activity_score := activity_score;
       Metric.output_score := output_score |}.

Definition domain_metrics (df : DataFrame) : outcome (list Metric.t) :=
  mapM (domain_metric df) (unique (map Project.domain df)).

(** ** The example of the specification *)

Definition record_A : Project.t :=
  {| Project.domain := Some "AI"%string;
     Project.programme := Some "NLP"%string;
     Project.project_name := Some "A"%string;
     Project.status := Fin 1;
     Project.total_budget := Fin 100;
     Project.journal_articles := Fin 2;
     Project.conference_papers := Fin 0;
     Project.book_chapters := Fin 0;
     Project.technology_demonstrators := Fin 0 |}.

Definition record_B : Project.t :=
  {| Project.domain := Some "AI"%string;
     Project.programme := Some "NLP"%string;
     Project.project_name := Some "B"%string;
     Project.status := Fin 0;
     Project.total_budget := Fin 50;
     Project.journal_articles := Fin 0;
     Project.conference_papers := Fin 1;
     Project.book_chapters := Fin 0;
     Project.technology_demonstrators := Fin 0 |}.

Definition two_records : DataFrame := [record_A; record_B].

(** ** Definitions used by the statements *)

(** The value of the guarded quotient: [budget / count] on a count above
    0, and 0 otherwise. *)
Definition guarded_div (budget count : num) : num :=
  if num_gt0 count then num_div budget count else Fin 0.

(** The row [kpi_costs] returns when no division raises. *)
Definition with_costs (g : Grouped.t) : Kpi.t :=
  let total := nansum (map (fun k => Grouped.column k g) kpi_columns) in
  {| Kpi.base := g;
     Kpi.journal_articles_cost :=
       guarded_div (Grouped.total_budget g) (Grouped.journal_articles g);
     Kpi.conference_papers_cost :=
       guarded_div (Grouped.total_budget g) (Grouped.conference_papers g);
     Kpi.book_chapters_cost :=
       guarded_div (Grouped.total_budget g) (Grouped.book_chapters g);
     Kpi.technology_demonstrators_cost :=
       guarded_div (Grouped.total_budget g) (Grouped.technology_demonstrators g);
     Kpi.total_kpis := total;
     Kpi.cost_per_kpi := guarded_div (Grouped.total_budget g) total |}.

(** The entry [domain_metric] returns when no division raises. *)
Definition domain_metric_value (df : DataFrame) (domain : option string) : Metric.t :=
  let domain_data := filter (domain_mask domain) df in
  let total_budget := column_sum Project.total_budget domain_data in
  let active_projects :=
    List.length (filter (fun r => num_is_one (Project.status r)) domain_data) in
  let total_projects := List.length domain_data in
  let research_output := research_output_of domain_data in
  let budget_score :=
    num_mul (num_div total_budget (column_sum Project.total_budget df)) (Fin 100) in
  let activity_score :=
    if Nat.ltb 0 total_projects
    then num_mul (num_div (of_nat active_projects) (of_nat total_projects)) (Fin 100)
    else Fin 0 in
  let output_score :=
    if num_gt0 research_output
    then num_mul (num_div research_output (research_output_of df)) (Fin 100)
    else Fin 0 in
  {| Metric.domain := domain;
     Metric.performance_score := weighted_score budget_score activity_score output_score;
     Metric.budget_score := budget_score;
     Metric.activity_score := activity_score;
     Metric.output_score := output_score |}.

Definition num_le (a b : num) : Prop :=
  match a, b with
  | Fin p, Fin q => p <= q
  | _, _ => False
  end.

(** A finite value that is not negative. *)
Definition nonneg (a : num) : Prop :=
  match a with
  | Fin q => 0 <= q
  | _ => False
  end.

(** A score within the range 0 to 100. *)
Definition in_0_100 (a : num) : Prop :=
  match a with
  | Fin q => 0 <= q /\ q <= 100
  | _ => False
  end.

(** The strict order a comparison function decides. *)
Definition cmp_lt {K : Type} (cmp : K -> K -> comparison) (a b : K) : Prop :=
  cmp a b = Lt.

Definition string_lt : string -> string -> Prop := cmp_lt String.compare.
Definition pair_lt : string * string -> string * string -> Prop := cmp_lt pair_compare.

(** ** Further example frames *)

(** Two domains given in descending order. *)
Definition unsorted_domains : DataFrame :=
  [ Project.mk (Some "Space") (Some "Optics") (Some "S1") (Fin 1)
      (Fin 10) (Fin 1) (Fin 0) (Fin 0) (Fin 0);
    Project.mk (Some "AI") (Some "NLP") (Some "A1") (Fin 1)
      (Fin 20) (Fin 0) (Fin 1) (Fin 0) (Fin 0) ]%string.

(** The programme name "Sensors" in two domains. *)
Definition shared_programme_name : DataFrame :=
  [ Project.mk (Some "Space") (Some "Sensors") (Some "S1") (Fin 1)
      (Fin 10) (Fin 1) (Fin 0) (Fin 0) (Fin 0);
    Project.mk (Some "AI") (Some "Sensors") (Some "A1") (Fin 0)
      (Fin 20) (Fin 0) (Fin 1) (Fin 0) (Fin 0);
    Project.mk (Some "Space") (Some "Sensors") (Some "S2") (Fin 1)
      (Fin 5) (Fin 0) (Fin 0) (Fin 2) (Fin 0) ]%string.

(** One project that has no budget yet. *)
Definition unfunded : DataFrame :=
  [ Project.mk (Some "AI") (Some "NLP") (Some "A") (Fin 1)
      (Fin 0) (Fin 2) (Fin 0) (Fin 0) (Fin 0) ]%string.

(** One project whose domain is null. *)
Definition orphan : DataFrame :=
  [ Project.mk None (Some "NLP") (Some "A") (Fin 1)
      (Fin 5) (Fin 2) (Fin 0) (Fin 0) (Fin 0) ]%string.

(** One project whose budget is missing, next to one that has it. *)
Definition missing_budget : DataFrame :=
  [ Project.mk (Some "AI") (Some "NLP") (Some "A") (Fin 1)
      NaN (Fin 2) (Fin 0) (Fin 0) (Fin 0);
    Project.mk (Some "AI") (Some "NLP") (Some "B") (Fin 1)
      (Fin 50) NaN (Fin 1) (Fin 0) (Fin 0) ]%string.

(** The five sums of a row are those of the given member records. *)
Definition sums_of (members : DataFrame) (r : Kpi.t) : Prop :=
  Kpi.total_budget r = nansum (map Project.total_budget members) /\
  forall k, Kpi.column k r = nansum (map (project_kpi k) members).

Definition group_key (r : Kpi.t) : option string * option string :=
  (Kpi.domain r, Kpi.name r).

(** The value a cell adds to a sum that skips NaN. *)
Definition qval (x : num) : Q :=
  match x with
  | Fin q => q
  | _ => 0
  end.

Definition qsum (xs : list num) : Q := fold_right (fun x acc => qval x + acc) 0 xs.

(** A cell as the data model has it: a finite number, or missing. *)
Definition finite_or_missing (x : num) : Prop :=
  match x with
  | Inf _ => False
  | _ => True
  end.

Definition is_some {A : Type} (o : option A) : bool :=
  match o with
  | Some _ => true
  | None => false
  end.

(** The records a level puts into some group: those with a domain at the
    domain level, those with a domain and a programme at the programme
    level, all of them otherwise. *)
Definition aggregated (level : string) (r : Project.t) : bool :=
  if String.eqb level "domain" then is_some (Project.domain r)
  else if String.eqb level "programme"
       then is_some (Project.domain r) && is_some (Project.programme r)
       else true.

(** The records with a non-null domain. *)
Definition has_domain (r : Project.t) : bool := is_some (Project.domain r).

(** The sum, NaN skipped, of the column [f] over the rows of [l] that the
    key [k] selects. *)
Definition member_sum {K : Type} (f : Project.t -> num) (sel : K -> Project.t -> bool)
    (l : DataFrame) (k : K) : Q :=
  qsum (map f (filter (sel k) l)).

(** A missing cell read as 0. *)
Definition fillna (x : num) : num :=
  match x with
  | NaN => Fin 0
  | _ => x
  end.

(** The record with its missing counts read as 0. *)
Definition fill_kpis (r : Project.t) : Project.t :=
  {| Project.domain := Project.domain r;
     Project.programme := Project.programme r;
     Project.project_name := Project.project_name r;
     Project.status := Project.status r;
     Project.total_budget := Project.total_budget r;
     Project.journal_articles := fillna (Project.journal_articles r);
     Project.conference_papers := fillna (Project.conference_papers r);
     Project.book_chapters := fillna (Project.book_chapters r);
     Project.technology_demonstrators := fillna (Project.technology_demonstrators r) |}.

(** The record with its missing budget and counts read as 0. *)
Definition fill_numeric (r : Project.t) : Project.t :=
  {| Project.domain := Project.domain r;
     Project.programme := Project.programme r;
     Project.project_name := Project.project_name r;
     Project.status := Project.status r;
     Project.total_budget := fillna (Project.total_budget r);
     Project.journal_articles := fillna (Project.journal_articles r);
     Project.conference_papers := fillna (Project.conference_papers r);
     Project.book_chapters := fillna (Project.book_chapters r);
     Project.technology_demonstrators := fillna (Project.technology_demonstrators r) |}.

(** Two rows with the same keys and the same values in every column. *)
Definition Grouped_eq (g g' : Grouped.t) : Prop :=
  Grouped.domain g = Grouped.domain g' /\
  Grouped.name g = Grouped.name g' /\
  num_eq (Grouped.total_budget g) (Grouped.total_budget g') /\
  forall k, num_eq (Grouped.column k g) (Grouped.column k g').

Definition Kpi_eq (r r' : Kpi.t) : Prop :=
  Grouped_eq (Kpi.base r) (Kpi.base r') /\
  (forall k, num_eq (Kpi.cost k r) (Kpi.cost k r')) /\
  num_eq (Kpi.total_kpis r) (Kpi.total_kpis r') /\
  num_eq (Kpi.cost_per_kpi r) (Kpi.cost_per_kpi r').

(** Two rows with the same name, budget and derived columns; the four
    count columns are left out of the comparison. *)
Definition efficiency_eq (r r' : Kpi.t) : Prop :=
  Kpi.name r = Kpi.name r' /\
  num_eq (Kpi.total_budget r) (Kpi.total_budget r') /\
  (forall k, num_eq (Kpi.cost k r) (Kpi.cost k r')) /\
  num_eq (Kpi.total_kpis r) (Kpi.total_kpis r') /\
  num_eq (Kpi.cost_per_kpi r) (Kpi.cost_per_kpi r').

(** A cell that is missing or a finite number not below 0. *)
Definition nonneg_or_missing (x : num) : Prop :=
  match x with
  | Fin q => 0 <= q
  | Inf _ => False
  | NaN => True
  end.

(** A record whose budget and counts are not negative. *)
Definition record_nonneg (r : Project.t) : Prop :=
  nonneg_or_missing (Project.total_budget r) /\
  forall k, nonneg_or_missing (project_kpi k r).

(** Every record of a concrete frame is not negative. *)
Ltac records_nonneg :=
  repeat (constructor;
          [split; [vm_compute; discriminate
                  |let k := fresh "k" in
                   intro k; destruct k; vm_compute; discriminate]|]);
  constructor.

(** ** The budget pies *)

(** [df.groupby('domain')['total_budget'].sum().reset_index()] of
    [create_domain_budget_pie]: the labels and the values of the pie. *)
Definition domain_budget (df : DataFrame) : list (string * num) :=
  map (fun d => (d, column_sum Project.total_budget (filter (in_domain d) df)))
      (sorted_unique String.compare (domain_keys df)).

Definition programme_names (df : DataFrame) : list string :=
  flat_map (fun r => match Project.programme r with
                     | Some p => [p]
                     | None => []
                     end) df.

Definition has_programme_name (p : string) (r : Project.t) : bool :=
  key_is p (Project.programme r).

(** [df[df['domain'] == domain].groupby('programme')['total_budget'].sum()
    .reset_index()] of [create_programme_budget_pie]. *)
Definition programme_budget (df : DataFrame) (domain : option string)
    : list (string * num) :=
  let domain_rows := filter (domain_mask domain) df in
  map (fun p => (p, column_sum Project.total_budget
                      (filter (has_programme_name p) domain_rows)))
      (sorted_unique String.compare (programme_names domain_rows)).

(** ** The summary figures of [main] *)

(** [a < b] on floats: false when either side is NaN. *)
Definition num_ltb (a b : num) : bool :=
  match a, b with
  | Fin p, Fin q => Qlt_bool p q
  | Fin _, Inf neg => negb neg
  | Inf neg, Fin _ => neg
  | Inf s, Inf t => s && negb t
  | _, _ => false
  end.

(** [Series.idxmin()] read through [.loc]: the first row that carries the
    least value of the column, NaN cells skipped. *)
Fixpoint idxmin {A : Type} (f : A -> num) (rows : list A) : option A :=
  match rows with
  | [] => None
  | r :: rs =>
      match f r with
      | NaN => idxmin f rs
      | _ =>
          match idxmin f rs with
          | None => Some r
          | Some m => if num_ltb (f m) (f r) then Some m else Some r
          end
      end
  end.

(** [Series.nunique()]: the number of distinct values, nulls left out. *)
Definition nunique (col : list (option string)) : nat :=
  List.length (filter (@is_some string) (unique col)).

Module Main.
(** [filtered_df[filtered_df['domain'] == domain_filter]]. *)
Definition filtered_df (df : DataFrame) (domain_filter : option string) : DataFrame :=
  filter (domain_mask domain_filter) df.

(** The figures of the domain view (lines 684-693). *)
Definition domain_budget (domain_data : DataFrame) : num :=
  column_sum Project.total_budget domain_data.

Definition active_projects (domain_data : DataFrame) : nat :=
  List.length (filter (fun r => num_is_one (Project.status r)) domain_data).

Definition total_projects (domain_data : DataFrame) : nat := List.length domain_data.

Definition research_outputs (domain_data : DataFrame) : num :=
  research_output_of domain_data.

(** The KPI summary (lines 745-754); the sums are numpy floats, whose
    quotient never raises. *)
Definition total_budget (kpi_df : list Kpi.t) : num :=
  nansum (map Kpi.total_budget kpi_df).

Definition total_kpis (kpi_df : list Kpi.t) : num :=
  nansum (map Kpi.total_kpis kpi_df).

Definition avg_cost_per_kpi (kpi_df : list Kpi.t) : num :=
  if num_gt0 (total_kpis kpi_df)
  then num_div (total_budget kpi_df) (total_kpis kpi_df)
  else Fin 0.

Definition efficient_df (kpi_df : list Kpi.t) : list Kpi.t :=
  filter (fun r => num_gt0 (Kpi.cost_per_kpi r)) kpi_df.

(** [None] when [efficient_df] is empty: the row is then not looked up. *)
Definition most_efficient (kpi_df : list Kpi.t) : option Kpi.t :=
  idxmin Kpi.cost_per_kpi (efficient_df kpi_df).

(** The overview figures (lines 817-818). *)
Definition num_domains (df : DataFrame) : nat := nunique (map Project.domain df).

Definition total_programmes (df : DataFrame) : nat :=
  nunique (map Project.programme df).
End Main.

(** ** Definitions used by the further statements *)

(** A record all of whose numeric cells are finite or missing. *)
Definition record_finite (r : Project.t) : Prop :=
  finite_or_missing (Project.total_budget r) /\
  forall k, finite_or_missing (project_kpi k r).

(** Every cell and derived cell of a returned row is a finite number that
    is not negative. *)
Definition row_nonneg (r : Kpi.t) : Prop :=
  nonneg (Kpi.total_budget r) /\
  (forall k, nonneg (Kpi.column k r)) /\
  (forall k, nonneg (Kpi.cost k r)) /\
  nonneg (Kpi.total_kpis r) /\
  nonneg (Kpi.cost_per_kpi r).

(** The label, domain and budget of a programme row, as a pie shows them. *)
Definition programme_slice (r : Kpi.t) : option string * option string * num :=
  (Kpi.domain r, Kpi.name r, Kpi.total_budget r).

(** The sum of the four counts of the records, NaN skipped. *)
Definition output_total (df : DataFrame) : Q :=
  qsum (map Project.journal_articles df) + qsum (map Project.conference_papers df) +
  qsum (map Project.book_chapters df) + qsum (map Project.technology_demonstrators df).

(** Total budget over total output of the records, 0 without output. *)
Definition overall_cost (df : DataFrame) : num :=
  if Qlt_bool 0 (output_total df)
  then Fin (qsum (map Project.total_budget df) / output_total df)
  else Fin 0.

(** A count that is 0 or missing. *)
Definition no_count (x : num) : Prop := num_eq (fillna x) (Fin 0).

(** Two funded projects without output, one count of the first missing. *)
Definition no_outputs : DataFrame :=
  [ Project.mk (Some "AI") (Some "NLP") (Some "A") (Fin 1)
      (Fin 40) (Fin 0) NaN (Fin 0) (Fin 0);
    Project.mk (Some "AI") (Some "NLP") (Some "B") (Fin 1)
      (Fin 10) (Fin 0) (Fin 0) (Fin 0) (Fin 0) ]%string.

(** Two projects, neither with a budget: the budget column holds no
    number. *)
Definition no_budgets : DataFrame :=
  [ Project.mk (Some "AI") (Some "NLP") (Some "A") (Fin 1)
      NaN (Fin 2) (Fin 0) (Fin 0) (Fin 0);
    Project.mk (Some "Space") (Some "Sensors") (Some "S") (Fin 0)
      NaN (Fin 1) (Fin 0) (Fin 0) (Fin 0) ]%string.

(** ** Integer columns *)

(** The frames above are frames of float64 columns: the dtype pandas gives
    a numeric column in which some cell is a float or is missing.  A
    column in which every cell is an integer gets the dtype int64, and
    pandas and numpy add int64 values in int64: a sum that leaves the
    range wraps around.  [Typed] is [process_kpi_data] with the dtype of
    each numeric column made explicit.  An int64 cell is the [Fin] of an
    integer.  The values of a row reach the lambdas of lines 165 and 172
    as Python numbers, so the costs are computed as before. *)
Module Typed.

Inductive dtype : Type :=
| int64
| float64.

Definition int64_max : Z := 9223372036854775807.
Definition int64_min : Z := -9223372036854775808.

(** The int64 value that stands for an integer: two's complement. *)
Definition wrap (z : Z) : Z :=
  (z + 9223372036854775808) mod 18446744073709551616 - 9223372036854775808.

(** The integer an int64 cell holds. *)
Definition int_of (x : num) : Z :=
  match x with
  | Fin q => Qfloor q
  | _ => 0%Z
  end.

(** [Series.sum()] and [DataFrame.sum(axis=1)] by dtype. *)
Definition sum (dt : dtype) (xs : list num) : num :=
  match dt with
  | float64 => nansum xs
  | int64 => Fin (inject_Z (wrap (fold_left Z.add (map int_of xs) 0%Z)))
  end.

(** The dtypes of the five numeric columns of a frame. *)
Record dtypes : Type := mk_dtypes {
  total_budget : dtype;
  journal_articles : dtype;
  conference_papers : dtype;
  book_chapters : dtype;
  technology_demonstrators : dtype
}.

Definition kpi_dtype (k : kpi) (dt : dtypes) : dtype :=
  match k with
  | JournalArticles => journal_articles dt
  | ConferencePapers => conference_papers dt
  | BookChapters => book_chapters dt
  | TechnologyDemonstrators => technology_demonstrators dt
  end.

Definition float_dtypes : dtypes := mk_dtypes float64 float64 float64 float64 float64.
Definition int_dtypes : dtypes := mk_dtypes int64 int64 int64 int64 int64.

(** [.agg({... : 'sum'})] on the rows of one group: each sum has the dtype
    of its column. *)
Definition agg_sum (dt : dtypes) (dom name : option string) (members : DataFrame)
    : Grouped.t :=
  {| Grouped.domain := dom;
     Grouped.name := name;
     Grouped.total_budget := sum (total_budget dt) (map Project.total_budget members);
     Grouped.journal_articles :=
       sum (journal_articles dt) (map Project.journal_articles members);
     Grouped.conference_papers :=
       sum (conference_papers dt) (map Project.conference_papers members);
     Grouped.book_chapters := sum (book_chapters dt) (map Project.book_chapters members);
     Grouped.technology_demonstrators :=
       sum (technology_demonstrators dt) (map Project.technology_demonstrators members) |}.

Definition group_by_domain (dt : dtypes) (df : DataFrame) : list Grouped.t :=
  map (fun d => agg_sum dt None (Some d) (filter (in_domain d) df))
      (sorted_unique String.compare (domain_keys df)).

Definition group_by_programme (dt : dtypes) (df : DataFrame) : list Grouped.t :=
  map (fun dp => agg_sum dt (Some (fst dp)) (Some (snd dp)) (filter (in_programme dp) df))
      (sorted_unique pair_compare (programme_keys df)).

Definition grouped (dt : dtypes) (df : DataFrame) (level : string) : list Grouped.t :=
  if String.eqb level "domain" then group_by_domain dt df
  else if String.eqb level "programme" then group_by_programme dt df
  else map project_columns df.

(** The dtype in which [grouped[kpi_columns].sum(axis=1)] adds: int64 when
    the four columns are int64, float64 as soon as one of them is. *)
Definition kpi_block_dtype (dt : dtypes) : dtype :=
  match journal_articles dt, conference_papers dt,
        book_chapters dt, technology_demonstrators dt with
  | int64, int64, int64, int64 => int64
  | _, _, _, _ => float64
  end.

Definition kpi_costs (dt : dtypes) (g : Grouped.t) : outcome Kpi.t :=
  ja <- cost_of (Grouped.total_budget g) (Grouped.journal_articles g) ;;
  cp <- cost_of (Grouped.total_budget g) (Grouped.conference_papers g) ;;
  bc <- cost_of (Grouped.total_budget g) (Grouped.book_chapters g) ;;
  td <- cost_of (Grouped.total_budget g) (Grouped.technology_demonstrators g) ;;
  let total := sum (kpi_block_dtype dt) (map (fun k => Grouped.column k g) kpi_columns) in
  c <- cost_of (Grouped.total_budget g) total ;;
  Returns {| Kpi.base := g;
             Kpi.journal_articles_cost := ja;
             Kpi.conference_papers_cost := cp;
             Kpi.book_chapters_cost := bc;
             Kpi.technology_demonstrators_cost := td;
             Kpi.total_kpis := total;
             Kpi.cost_per_kpi := c |}.

Definition process_kpi_data (dt : dtypes) (df : DataFrame) (level : string)
    : outcome (list Kpi.t) :=
  mapM (kpi_costs dt) (grouped dt df level).

(** The row [kpi_costs] returns when no division raises. *)
Definition with_costs (dt : dtypes) (g : Grouped.t) : Kpi.t :=
  let total := sum (kpi_block_dtype dt) (map (fun k => Grouped.column k g) kpi_columns) in
  {| Kpi.base := g;
     Kpi.journal_articles_cost :=
       guarded_div (Grouped.total_budget g) (Grouped.journal_articles g);
     Kpi.conference_papers_cost :=
       guarded_div (Grouped.total_budget g) (Grouped.conference_papers g);
     Kpi.book_chapters_cost :=
       guarded_div (Grouped.total_budget g) (Grouped.book_chapters g);
     Kpi.technology_demonstrators_cost :=
       guarded_div (Grouped.total_budget g) (Grouped.technology_demonstrators g);
     Kpi.total_kpis := total;
     Kpi.cost_per_kpi := guarded_div (Grouped.total_budget g) total |}.

(** The figure "Average Cost per KPI" of [main] (lines 745-747): the two
    sums have the dtypes of the columns of the KPI frame. *)
Definition avg_cost_per_kpi (dt : dtypes) (kpi_df : list Kpi.t) : num :=
  let budget := sum (total_budget dt) (map Kpi.total_budget kpi_df) in
  let kpis := sum (kpi_block_dtype dt) (map Kpi.total_kpis kpi_df) in
  if num_gt0 kpis then num_div budget kpis else Fin 0.

(** A cell of an int64 column holds an integer of the int64 range. *)
Definition int64_cell (x : num) : Prop :=
  exists z, x = Fin (inject_Z z) /\ (int64_min <= z <= int64_max)%Z.

Definition cell_typed (dt : dtype) (x : num) : Prop :=
  match dt with
  | int64 => int64_cell x
  | float64 => True
  end.

(** The cells of the frame have the dtypes of their columns. *)
Definition well_typed (dt : dtypes) (df : DataFrame) : Prop :=
  Forall (fun r => cell_typed (total_budget dt) (Project.total_budget r) /\
                   forall k, cell_typed (kpi_dtype k dt) (project_kpi k r)) df.

End Typed.

(** A column whose field is None in every record is not converted to a
    numeric dtype; it stays an object column of None, and its sums are
    the Python int 0 and not numpy scalars. *)
Definition object_column (f : Project.t -> num) (df : DataFrame) : bool :=
  forallb (fun r => match f r with NaN => true | _ => false end) df.

(** The project level of [process_kpi_data] on a frame that may have
    object columns.  The rows are the records themselves, so the lambdas
    of lines 165 and 172 meet the None of an object column: [None > 0]
    and [None / x] raise TypeError.  The source fills the cost columns
    one column at a time; the guard keeps the division from a zero
    divisor, so TypeError is the one error that can arise and the order
    of evaluation does not change the outcome. *)
Module ProjectLevel.

(** [x['total_budget'] / x[kpi] if x[kpi] > 0 else 0], given whether the
    budget and the count belong to an object column. *)
Definition cost_of (budget_is_none count_is_none : bool) (budget count : num)
    : outcome num :=
  if count_is_none then Raises TypeError
  else if num_gt0 count
       then (if budget_is_none then Raises TypeError else py_truediv budget count)
       else Returns (Fin 0).

Definition kpi_costs (df : DataFrame) (g : Grouped.t) : outcome Kpi.t :=
  let budget_is_none := object_column Project.total_budget df in
  ja <- cost_of budget_is_none (object_column Project.journal_articles df)
          (Grouped.total_budget g) (Grouped.journal_articles g) ;;
  cp <- cost_of budget_is_none (object_column Project.conference_papers df)
          (Grouped.total_budget g) (Grouped.conference_papers g) ;;
  bc <- cost_of budget_is_none (object_column Project.book_chapters df)
          (Grouped.total_budget g) (Grouped.book_chapters g) ;;
  td <- cost_of budget_is_none (object_column Project.technology_demonstrators df)
          (Grouped.total_budget g) (Grouped.technology_demonstrators g) ;;
  let total := nansum (map (fun k => Grouped.column k g) kpi_columns) in
  c <- cost_of budget_is_none false (Grouped.total_budget g) total ;;
  Returns {| Kpi.base := g;
             Kpi.journal_articles_cost := ja;
             Kpi.conference_papers_cost := cp;
             Kpi.book_chapters_cost := bc;
             Kpi.technology_demonstrators_cost := td;
             Kpi.total_kpis := total;
             Kpi.cost_per_kpi := c |}.

(** The final branch of [process_kpi_data] and the cost columns. *)
Definition process_kpi_data (df : DataFrame) : outcome (list Kpi.t) :=
  mapM (kpi_costs df) (map project_columns df).

End ProjectLevel.

(** One project whose conference papers are missing: the column holds no
    number. *)
Definition absent_count : DataFrame :=
  [ Project.mk (Some "AI") (Some "NLP") (Some "A") (Fin 1)
      (Fin 40) (Fin 2) NaN (Fin 0) (Fin 0) ]%string.

(** The loop of [create_domain_performance_chart] with the dtype of each
    numeric column made explicit.  A column sum is a numpy scalar of the
    dtype of its column; the sum of two int64 scalars is an int64 scalar
    and wraps, any other sum is a float64 scalar; a quotient of numpy
    scalars is a float64 scalar and never raises.  The two budget sums
    of an object column are Python ints, and their quotient on line 532
    is the Python division, which raises on a zero divisor. *)
Module TypedScore.

(** A numpy scalar: its value and its dtype. *)
Definition scalar : Type := (num * Typed.dtype)%type.

Definition add (x y : scalar) : scalar :=
  match snd x, snd y with
  | Typed.int64, Typed.int64 =>
      (Fin (inject_Z (Typed.wrap (Typed.int_of (fst x) + Typed.int_of (fst y)))),
       Typed.int64)
  | _, _ => (num_add (fst x) (fst y), Typed.float64)
  end.

Definition column_sum (dt : Typed.dtype) (f : Project.t -> num) (df : DataFrame) : scalar :=
  (Typed.sum dt (map f df), dt).

Definition research_output_of (dt : Typed.dtypes) (df : DataFrame) : scalar :=
  add (add (add (column_sum (Typed.journal_articles dt) Project.journal_articles df)
                (column_sum (Typed.conference_papers dt) Project.conference_papers df))
           (column_sum (Typed.book_chapters dt) Project.book_chapters df))
      (column_sum (Typed.technology_demonstrators dt) Project.technology_demonstrators df).

Definition domain_metric (dt : Typed.dtypes) (df : DataFrame) (domain : option string)
    : outcome Metric.t :=
  let domain_data := filter (domain_mask domain) df in
  let total_budget :=
    fst (column_sum (Typed.total_budget dt) Project.total_budget domain_data) in
  let active_projects :=
    List.length (filter (fun r => num_is_one (Project.status r)) domain_data) in
  let total_projects := List.length domain_data in
  let research_output := fst (research_output_of dt domain_data) in
  let budget_total :=
    fst (column_sum (Typed.total_budget dt) Project.total_budget df) in
  budget_share <-
    (if object_column Project.total_budget df
     then py_truediv total_budget budget_total
     else Returns (num_div total_budget budget_total)) ;;
  let budget_score := num_mul budget_share (Fin 100) in
  activity_score <-
    (if Nat.ltb 0 total_projects
     then (ratio <- py_truediv (of_nat active_projects) (of_nat total_projects) ;;
           Returns (num_mul ratio (Fin 100)))
     else Returns (Fin 0)) ;;
  let output_score :=
    if num_gt0 research_output
    then num_mul (num_div research_output (fst (research_output_of dt df))) (Fin 100)
    else Fin 0 in
  Returns
    {| Metric.domain := domain;
       Metric.performance_score := weighted_score budget_score activity_score output_score;
       Metric.budget_score := budget_score;
       Metric.activity_score := activity_score;
       Metric.output_score := output_score |}.

Definition domain_metrics (dt : Typed.dtypes) (df : DataFrame) : outcome (list Metric.t) :=
  mapM (domain_metric dt df) (unique (map Project.domain df)).

(** The entry [domain_metric] returns when no division raises: the
    budget column is numeric. *)
Definition domain_metric_value (dt : Typed.dtypes) (df : DataFrame)
    (domain : option string) : Metric.t :=
  let domain_data := filter (domain_mask domain) df in
  let total_budget :=
    fst (column_sum (Typed.total_budget dt) Project.total_budget domain_data) in
  let active_projects :=
    List.length (filter (fun r => num_is_one (Project.status r)) domain_data) in
  let total_projects := List.length domain_data in
  let research_output := fst (research_output_of dt domain_data) in
  let budget_score :=
    num_mul (num_div total_budget
               (fst (column_sum (Typed.total_budget dt) Project.total_budget df)))
            (Fin 100) in
  let activity_score :=
    if Nat.ltb 0 total_projects
    then num_mul (num_div (of_nat active_projects) (of_nat total_projects)) (Fin 100)
    else Fin 0 in
  let output_score :=
    if num_gt0 research_output
    then num_mul (num_div research_output (fst (research_output_of dt df))) (Fin 100)
    else Fin 0 in
  {| Metric.domain := domain;
     Metric.performance_score := weighted_score budget_score activity_score output_score;
     Metric.budget_score := budget_score;
     Metric.activity_score := activity_score;
     Metric.output_score := output_score |}.

End TypedScore.

(** Two entries for the same domain with the same scores. *)
Definition Metric_eq (m m' : Metric.t) : Prop :=
  Metric.domain m = Metric.domain m' /\
  num_eq (Metric.performance_score m) (Metric.performance_score m') /\
  num_eq (Metric.budget_score m) (Metric.budget_score m') /\
  num_eq (Metric.activity_score m) (Metric.activity_score m') /\
  num_eq (Metric.output_score m) (Metric.output_score m').

(** One project whose four counts are integers that add up to 2^64 + 1. *)
Definition huge_counts : DataFrame :=
  [ Project.mk (Some "AI") (Some "NLP") (Some "A") (Fin 1)
      (Fin 6) (Fin 9223372036854775807) (Fin 9223372036854775807)
      (Fin 2) (Fin 1) ]%string.

(** The four counts of a row, added up as numbers. *)
Definition counts_total (r : Kpi.t) : Q :=
  qval (Kpi.column JournalArticles r) + qval (Kpi.column ConferencePapers r) +
  qval (Kpi.column BookChapters r) + qval (Kpi.column TechnologyDemonstrators r).

(** Each of the five numeric columns holds at least one number: pandas
    then gives the column a numeric dtype and holds a missing cell as NaN. *)
Definition numeric_column (f : Project.t -> num) (df : DataFrame) : Prop :=
  exists r, In r df /\ f r <> NaN.

Definition numeric_columns (df : DataFrame) : Prop :=
  numeric_column Project.total_budget df /\
  forall k, numeric_column (project_kpi k) df.

(** The budgets of the frame, and its counts, add up within the int64
    range. *)
Definition within_int64 (df : DataFrame) : Prop :=
  qsum (map Project.total_budget df) <= inject_Z Typed.int64_max /\
  output_total df <= inject_Z Typed.int64_max.

(** ** Numbers: basic facts *)

Lemma Qlt_bool_iff (a b : Q) : Qlt_bool a b = true <-> a < b.
Proof.
  unfold Qlt_bool. rewrite negb_true_iff.
  split; intro H.
  - apply Qnot_le_lt. intro L. apply Qle_bool_iff in L. congruence.
  - destruct (Qle_bool b a) eqn:E; [|reflexivity].
    apply Qle_bool_iff in E. exfalso. exact (Qlt_not_le _ _ H E).
Qed.

Lemma Qeq_bool_false (a b : Q) : Qeq_bool a b = false <-> ~ a == b.
Proof.
  split.
  - intros E H. apply Qeq_bool_iff in H. congruence.
  - intro H. destruct (Qeq_bool a b) eqn:E; [|reflexivity].
    apply Qeq_bool_iff in E. contradiction.
Qed.

Lemma num_eq_refl (a : num) : num_eq a a.
Proof. destruct a; simpl; auto. reflexivity. Qed.

Lemma num_eq_sym (a b : num) : num_eq a b -> num_eq b a.
Proof. destruct a, b; simpl; auto. intro H. symmetry. exact H. Qed.

Lemma num_eq_trans (a b c : num) : num_eq a b -> num_eq b c -> num_eq a c.
Proof.
  destruct a, b, c; simpl; try tauto; try congruence.
  intros H1 H2. rewrite H1. exact H2.
Qed.

Lemma num_gt0_not_zero (a : num) : num_gt0 a = true -> num_is_zero a = false.
Proof.
  destruct a as [q| |]; simpl; auto.
  intro H. apply Qlt_bool_iff in H. apply Qeq_bool_false.
  intro E. rewrite E in H. exact (Qlt_irrefl _ H).
Qed.

(** ** The cost columns never raise *)

Lemma cost_of_returns (budget count : num) :
  cost_of budget count = Returns (guarded_div budget count).
Proof.
  unfold cost_of, guarded_div, py_truediv.
  destruct (num_gt0 count) eqn:G; [|reflexivity].
  rewrite (num_gt0_not_zero _ G). reflexivity.
Qed.

Lemma kpi_costs_returns (g : Grouped.t) : kpi_costs g = Returns (with_costs g).
Proof.
  unfold kpi_costs. rewrite !cost_of_returns. reflexivity.
Qed.

Lemma mapM_returns {A B : Type} (f : A -> outcome B) (g : A -> B) (l : list A) :
  (forall a, f a = Returns (g a)) -> mapM f l = Returns (map g l).
Proof.
  intro H. induction l as [|a l IH]; simpl.
  - reflexivity.
  - rewrite H, IH. reflexivity.
Qed.

Lemma process_kpi_data_returns (df : DataFrame) (level : string) :
  process_kpi_data df level = Returns (map with_costs (grouped df level)).
Proof.
  unfold process_kpi_data. apply mapM_returns. exact kpi_costs_returns.
Qed.

Lemma of_nat_not_zero (n : nat) : Nat.ltb 0 n = true -> num_is_zero (of_nat n) = false.
Proof.
  intro H. apply Nat.ltb_lt in H. unfold of_nat. simpl.
  apply Qeq_bool_false. intro E.
  assert (L : 0 < inject_Z (Z.of_nat n)) by (rewrite <- (Zlt_Qlt 0); lia).
  rewrite E in L. exact (Qlt_irrefl _ L).
Qed.

Lemma domain_metric_returns (df : DataFrame) (d : option string) :
  domain_metric df d = Returns (domain_metric_value df d).
Proof.
  unfold domain_metric, domain_metric_value, py_truediv.
  destruct (Nat.ltb 0 (List.length (filter (domain_mask d) df))) eqn:E.
  - rewrite (of_nat_not_zero _ E). reflexivity.
  - reflexivity.
Qed.

Lemma domain_metrics_returns (df : DataFrame) :
  domain_metrics df =
  Returns (map (domain_metric_value df) (unique (map Project.domain df))).
Proof.
  unfold domain_metrics. apply mapM_returns. apply domain_metric_returns.
Qed.

Lemma with_costs_cost (k : kpi) (g : Grouped.t) :
  Kpi.cost k (with_costs g) = guarded_div (Grouped.total_budget g) (Grouped.column k g).
Proof. destruct k; reflexivity. Qed.

(** On a positive finite count the quotient is the rational one. *)
Lemma guarded_div_positive (p q : Q) :
  0 < q -> guarded_div (Fin p) (Fin q) = Fin (p / q).
Proof.
  intro H. unfold guarded_div. simpl.
  assert (G : Qlt_bool 0 q = true) by (apply Qlt_bool_iff; exact H).
  rewrite G.
  assert (Z : Qeq_bool q 0 = false).
  { apply Qeq_bool_false. intro E. rewrite E in H. exact (Qlt_irrefl _ H). }
  rewrite Z. reflexivity.
Qed.

(** C1: [process_kpi_data] always returns, and in every row it returns
    each of the four cost columns is [total_budget / m] when the row's
    count [m] is greater than 0 and 0 otherwise; [cost_per_kpi] is
    [total_budget / total_kpis] when [total_kpis] is greater than 0 and 0
    otherwise, in particular 0 when [total_kpis] is 0 whatever the budget;
    [total_kpis] is the sum of the four counts. *)
Theorem C1_cost_columns :
  forall (df : DataFrame) (level : string),
  exists rows,
    process_kpi_data df level = Returns rows /\
    Forall (fun r =>
      (forall k,
         Kpi.cost k r =
         if num_gt0 (Kpi.column k r)
         then num_div (Kpi.total_budget r) (Kpi.column k r)
         else Fin 0) /\
      Kpi.total_kpis r = nansum (map (fun k => Kpi.column k r) kpi_columns) /\
      Kpi.cost_per_kpi r =
        (if num_gt0 (Kpi.total_kpis r)
         then num_div (Kpi.total_budget r) (Kpi.total_kpis r)
         else Fin 0) /\
      (num_eq (Kpi.total_kpis r) (Fin 0) -> Kpi.cost_per_kpi r = Fin 0)) rows.
Proof.
  intros df level. exists (map with_costs (grouped df level)).
  split; [apply process_kpi_data_returns|].
  apply Forall_forall. intros r Hr.
  apply in_map_iff in Hr. destruct Hr as [g [<- _]].
  repeat split.
  - intro k. rewrite with_costs_cost. reflexivity.
  - simpl. unfold guarded_div.
    destruct (nansum _) as [q| |]; simpl; try contradiction.
    intro E.
    assert (G : Qlt_bool 0 q = false).
    { destruct (Qlt_bool 0 q) eqn:G; [|reflexivity].
      apply Qlt_bool_iff in G. rewrite E in G. exfalso. exact (Qlt_irrefl _ G). }
    rewrite G. reflexivity.
Qed.

(** ** Sorted group keys *)

Section SortedKeysFacts.
Context {K : Type} (cmp : K -> K -> comparison).
Hypothesis cmp_eq : forall a b, cmp a b = Eq <-> a = b.
Hypothesis cmp_antisym : forall a b, cmp a b = CompOpp (cmp b a).
Hypothesis cmp_trans : forall a b c, cmp a b = Lt -> cmp b c = Lt -> cmp a c = Lt.

Lemma insert_key_In (k : K) (ks : list K) (x : K) :
  In x (insert_key cmp k ks) <-> x = k \/ In x ks.
Proof.
  induction ks as [|a ks IH]; simpl.
  - intuition.
  - destruct (cmp k a) eqn:E; simpl.
    + apply cmp_eq in E. subst a. intuition.
    + intuition.
    + rewrite IH. intuition.
Qed.

Lemma sorted_unique_In (ks : list K) (x : K) :
  In x (sorted_unique cmp ks) <-> In x ks.
Proof.
  induction ks as [|a ks IH]; simpl.
  - tauto.
  - rewrite insert_key_In, IH. intuition.
Qed.

Lemma insert_key_sorted (k : K) (ks : list K) :
  StronglySorted (cmp_lt cmp) ks -> StronglySorted (cmp_lt cmp) (insert_key cmp k ks).
Proof.
  induction 1 as [|a ks Hs IH Ha]; simpl.
  - constructor; constructor.
  - destruct (cmp k a) eqn:E.
    + constructor; assumption.
    + constructor; [constructor; assumption|].
      constructor; [exact E|].
      apply Forall_forall. intros x Hx.
      rewrite Forall_forall in Ha.
      exact (cmp_trans _ _ _ E (Ha x Hx)).
    + constructor; [exact IH|].
      apply Forall_forall. intros x Hx.
      apply insert_key_In in Hx. destruct Hx as [->|Hx].
      * unfold cmp_lt. rewrite cmp_antisym, E. reflexivity.
      * rewrite Forall_forall in Ha. exact (Ha x Hx).
Qed.

Lemma sorted_unique_sorted (ks : list K) : StronglySorted (cmp_lt cmp) (sorted_unique cmp ks).
Proof.
  induction ks as [|a ks IH]; simpl.
  - constructor.
  - apply insert_key_sorted. exact IH.
Qed.

Lemma sorted_NoDup (ks : list K) : StronglySorted (cmp_lt cmp) ks -> NoDup ks.
Proof.
  induction 1 as [|a ks Hs IH Ha]; constructor; [|exact IH].
  intro Hin. rewrite Forall_forall in Ha. specialize (Ha a Hin).
  unfold cmp_lt in Ha.
  assert (E : cmp a a = Eq) by (apply cmp_eq; reflexivity).
  congruence.
Qed.

Lemma sorted_unique_NoDup (ks : list K) : NoDup (sorted_unique cmp ks).
Proof. apply sorted_NoDup, sorted_unique_sorted. Qed.

End SortedKeysFacts.

Lemma string_compare_eq (a b : string) : String.compare a b = Eq <-> a = b.
Proof. exact (String_as_OT.cmp_eq a b). Qed.

Lemma string_compare_antisym (a b : string) :
  String.compare a b = CompOpp (String.compare b a).
Proof. apply String.compare_antisym. Qed.

Lemma string_compare_trans (a b c : string) :
  String.compare a b = Lt -> String.compare b c = Lt -> String.compare a c = Lt.
Proof.
  intros H1 H2.
  apply String_as_OT.cmp_lt. apply String_as_OT.cmp_lt in H1, H2.
  exact (String_as_OT.lt_trans _ _ _ H1 H2).
Qed.

Lemma pair_compare_eq (a b : string * string) : pair_compare a b = Eq <-> a = b.
Proof.
  destruct a as [a1 a2], b as [b1 b2]. unfold pair_compare. simpl.
  split.
  - destruct (String.compare a1 b1) eqn:E; try discriminate.
    intro H. apply string_compare_eq in E, H. congruence.
  - intro H. injection H as -> ->.
    assert (E : String.compare b1 b1 = Eq) by (apply string_compare_eq; reflexivity).
    rewrite E. apply string_compare_eq. reflexivity.
Qed.

Lemma pair_compare_antisym (a b : string * string) :
  pair_compare a b = CompOpp (pair_compare b a).
Proof.
  unfold pair_compare.
  rewrite (string_compare_antisym (fst a) (fst b)).
  destruct (String.compare (fst b) (fst a)); simpl; auto.
  apply string_compare_antisym.
Qed.

Lemma pair_compare_trans (a b c : string * string) :
  pair_compare a b = Lt -> pair_compare b c = Lt -> pair_compare a c = Lt.
Proof.
  destruct a as [a1 a2], b as [b1 b2], c as [c1 c2]. unfold pair_compare. simpl.
  destruct (String.compare a1 b1) eqn:E1; try discriminate;
    destruct (String.compare b1 c1) eqn:E2; try discriminate; intros H1 H2.
  - apply string_compare_eq in E1, E2. subst.
    assert (E : String.compare c1 c1 = Eq) by (apply string_compare_eq; reflexivity).
    rewrite E. exact (string_compare_trans _ _ _ H1 H2).
  - apply string_compare_eq in E1. subst. rewrite E2. reflexivity.
  - apply string_compare_eq in E2. subst. rewrite E1. reflexivity.
  - rewrite (string_compare_trans _ _ _ E1 E2). reflexivity.
Qed.

Lemma key_is_iff (k : string) (c : option string) : key_is k c = true <-> c = Some k.
Proof.
  destruct c as [s|]; simpl.
  - rewrite String.eqb_eq. split; congruence.
  - split; discriminate.
Qed.

Lemma in_domain_iff (d : string) (r : Project.t) :
  in_domain d r = true <-> Project.domain r = Some d.
Proof. apply key_is_iff. Qed.

Lemma in_programme_iff (dp : string * string) (r : Project.t) :
  in_programme dp r = true <->
  Project.domain r = Some (fst dp) /\ Project.programme r = Some (snd dp).
Proof.
  unfold in_programme. rewrite andb_true_iff, !key_is_iff. tauto.
Qed.

Lemma domain_keys_In (df : DataFrame) (d : string) :
  In d (domain_keys df) <-> exists r, In r df /\ Project.domain r = Some d.
Proof.
  unfold domain_keys. rewrite in_flat_map. split.
  - intros [r [Hr Hd]]. exists r. split; [exact Hr|].
    destruct (Project.domain r) as [s|]; simpl in Hd; [|contradiction].
    destruct Hd as [->|[]]. reflexivity.
  - intros [r [Hr Hd]]. exists r. split; [exact Hr|].
    rewrite Hd. simpl. auto.
Qed.

Lemma programme_keys_In (df : DataFrame) (d p : string) :
  In (d, p) (programme_keys df) <->
  exists r, In r df /\ Project.domain r = Some d /\ Project.programme r = Some p.
Proof.
  unfold programme_keys. rewrite in_flat_map. split.
  - intros [r [Hr Hd]]. exists r. split; [exact Hr|].
    destruct (Project.domain r) as [s|]; simpl in Hd; [|contradiction].
    destruct (Project.programme r) as [t|]; simpl in Hd; [|contradiction].
    destruct Hd as [E|[]]. injection E as -> ->. auto.
  - intros [r [Hr [Hd Hp]]]. exists r. split; [exact Hr|].
    rewrite Hd, Hp. simpl. auto.
Qed.

Lemma grouped_domain (df : DataFrame) : grouped df "domain" = group_by_domain df.
Proof. reflexivity. Qed.

Lemma grouped_programme (df : DataFrame) :
  grouped df "programme" = group_by_programme df.
Proof. reflexivity. Qed.

Lemma grouped_other (df : DataFrame) (level : string) :
  level <> "domain"%string -> level <> "programme"%string ->
  grouped df level = map project_columns df.
Proof.
  intros H1 H2. unfold grouped.
  apply String.eqb_neq in H1, H2. rewrite H1, H2. reflexivity.
Qed.

(** ** Unknown levels *)

Lemma numeric_columns_two_records : numeric_columns two_records.
Proof.
  split.
  - exists record_A. split; [left; reflexivity|discriminate].
  - intro k. exists record_A. split; [left; reflexivity|].
    destruct k; discriminate.
Qed.

(** C6 (as the code has it): a level other than "domain" and "programme"
    is not rejected.  The call takes the final branch, so its outcome is
    that of the level "project"; on a frame whose numeric columns hold
    numbers it returns one row per input record, in the order of the
    records, each the projection of its record with [project_name] as
    [name]. *)
Theorem C6_other_level_is_project_level :
  forall (df : DataFrame) (level : string),
    level <> "domain"%string -> level <> "programme"%string ->
    process_kpi_data df level = process_kpi_data df "project" /\
    (numeric_columns df ->
     exists rows,
       process_kpi_data df level = Returns rows /\
       map Kpi.base rows = map project_columns df /\
       map Kpi.name rows = map Project.project_name df /\
       List.length rows = List.length df).
Proof.
  intros df level H1 H2. rewrite !process_kpi_data_returns.
  rewrite (grouped_other df level H1 H2).
  split; [reflexivity|].
  intros _. eexists. split; [reflexivity|].
  split; [|split].
  - rewrite map_map. simpl. rewrite map_id. reflexivity.
  - rewrite !map_map. reflexivity.
  - rewrite !length_map. reflexivity.
Qed.

Lemma C6_other_level_is_project_level_witness :
  "region"%string <> "domain"%string /\ "region"%string <> "programme"%string /\
  process_kpi_data two_records "region" = process_kpi_data two_records "project" /\
  exists rows,
    process_kpi_data two_records "region" = Returns rows /\
    map Kpi.name rows = map Project.project_name two_records.
Proof.
  assert (H1 : "region"%string <> "domain"%string) by discriminate.
  assert (H2 : "region"%string <> "programme"%string) by discriminate.
  split; [exact H1|]. split; [exact H2|].
  destruct (C6_other_level_is_project_level two_records "region" H1 H2)
    as [E H].
  split; [exact E|].
  destruct (H numeric_columns_two_records) as [rows [Hr [_ [Hn _]]]].
  exists rows. split; assumption.
Defined.

(** C6 fails as stated: at the level "region" the call returns a frame,
    one row per input record, and raises no error. *)
Lemma C6_counterexample :
  exists rows,
    process_kpi_data two_records "region" = Returns rows /\
    map Kpi.name rows = [Some "A"; Some "B"]%string /\
    forall e, process_kpi_data two_records "region" <> Raises e.
Proof.
  eexists. split; [reflexivity|]. split; [reflexivity|].
  intros e H. discriminate H.
Qed.

(** ** The example of the specification *)

(** C8: on the two-record example the domain level yields the single row
    AI with budget 150 and counts 2, 1, 0, 0; its [total_kpis] is 3, its
    [cost_per_kpi] 50, its four costs 75, 150, 0 and 0; the scores of the
    single domain are 100 (budget), 50 (activity), 100 (output) and 85
    (performance). *)
Theorem C8_example :
  (exists r,
     process_kpi_data two_records "domain" = Returns [r] /\
     Kpi.name r = Some "AI"%string /\
     num_eq (Kpi.total_budget r) (Fin 150) /\
     num_eq (Kpi.column JournalArticles r) (Fin 2) /\
     num_eq (Kpi.column ConferencePapers r) (Fin 1) /\
     num_eq (Kpi.column BookChapters r) (Fin 0) /\
     num_eq (Kpi.column TechnologyDemonstrators r) (Fin 0) /\
     num_eq (Kpi.total_kpis r) (Fin 3) /\
     num_eq (Kpi.cost_per_kpi r) (Fin 50) /\
     num_eq (Kpi.cost JournalArticles r) (Fin 75) /\
     num_eq (Kpi.cost ConferencePapers r) (Fin 150) /\
     num_eq (Kpi.cost BookChapters r) (Fin 0) /\
     num_eq (Kpi.cost TechnologyDemonstrators r) (Fin 0)) /\
  (exists m,
     domain_metrics two_records = Returns [m] /\
     Metric.domain m = Some "AI"%string /\
     num_eq (Metric.budget_score m) (Fin 100) /\
     num_eq (Metric.activity_score m) (Fin 50) /\
     num_eq (Metric.output_score m) (Fin 100) /\
     num_eq (Metric.performance_score m) (Fin 85)).
Proof.
  split.
  - eexists. split; [reflexivity|].
    repeat split; vm_compute; reflexivity.
  - eexists. split; [reflexivity|].
    repeat split; vm_compute; reflexivity.
Qed.

(** ** The order of the groups *)

Lemma names_group_by_domain (df : DataFrame) :
  map Kpi.name (map with_costs (group_by_domain df)) =
  map Some (sorted_unique String.compare (domain_keys df)).
Proof.
  unfold group_by_domain. rewrite !map_map. reflexivity.
Qed.

Lemma keys_group_by_programme (df : DataFrame) :
  map group_key (map with_costs (group_by_programme df)) =
  map (fun dp => (Some (fst dp), Some (snd dp)))
      (sorted_unique pair_compare (programme_keys df)).
Proof.
  unfold group_by_programme. rewrite !map_map. reflexivity.
Qed.

(** C5 (as the code has it): at the domain level the rows come in strictly
    ascending order of the domain name, one per distinct non-null domain;
    at the programme level in strictly ascending order of the pair
    (domain, programme), one per distinct pair without a null.  The order
    depends on the set of keys only, so it is the same at every call. *)
Theorem C5_groups_sorted_by_key :
  forall df : DataFrame,
    (exists rows ks,
       process_kpi_data df "domain" = Returns rows /\
       map Kpi.name rows = map Some ks /\
       StronglySorted string_lt ks /\
       forall d, In d ks <-> exists r, In r df /\ Project.domain r = Some d) /\
    (exists rows ks,
       process_kpi_data df "programme" = Returns rows /\
       map group_key rows =
         map (fun dp => (Some (fst dp), Some (snd dp))) ks /\
       StronglySorted pair_lt ks /\
       forall d p, In (d, p) ks <->
         exists r, In r df /\ Project.domain r = Some d /\ Project.programme r = Some p).
Proof.
  intro df. split.
  - exists (map with_costs (group_by_domain df)),
           (sorted_unique String.compare (domain_keys df)).
    split; [apply process_kpi_data_returns|].
    split; [apply names_group_by_domain|].
    split.
    + apply sorted_unique_sorted.
      * exact string_compare_eq.
      * exact string_compare_antisym.
      * exact string_compare_trans.
    + intro d. rewrite (sorted_unique_In _ string_compare_eq). apply domain_keys_In.
  - exists (map with_costs (group_by_programme df)),
           (sorted_unique pair_compare (programme_keys df)).
    split; [apply process_kpi_data_returns|].
    split; [apply keys_group_by_programme|].
    split.
    + apply sorted_unique_sorted.
      * exact pair_compare_eq.
      * exact pair_compare_antisym.
      * exact pair_compare_trans.
    + intros d p. rewrite (sorted_unique_In _ pair_compare_eq). apply programme_keys_In.
Qed.

(** C5 fails as stated: the domains are first met in the order Space, AI,
    and the rows come in the order AI, Space. *)
Lemma C5_counterexample :
  exists rows,
    process_kpi_data unsorted_domains "domain" = Returns rows /\
    unique (map Project.domain unsorted_domains) = [Some "Space"; Some "AI"]%string /\
    map Kpi.name rows = [Some "AI"; Some "Space"]%string /\
    map Kpi.name rows <> unique (map Project.domain unsorted_domains).
Proof.
  eexists. split; [reflexivity|]. split; [reflexivity|]. split; [reflexivity|].
  discriminate.
Qed.

(** ** Programme groups *)

Lemma agg_sum_sums_of (dom name : option string) (members : DataFrame) :
  sums_of members (with_costs (agg_sum dom name members)).
Proof.
  split; [reflexivity|]. intro k. destruct k; reflexivity.
Qed.

Lemma NoDup_map_injective {A B : Type} (f : A -> B) (l : list A) :
  (forall a b, f a = f b -> a = b) -> NoDup l -> NoDup (map f l).
Proof.
  intros Hf. induction 1 as [|a l Ha Hl IH]; simpl; constructor; [|exact IH].
  intro Hin. apply in_map_iff in Hin. destruct Hin as [b [E Hb]].
  apply Hf in E. subst b. contradiction.
Qed.

(** C7: at the programme level there is one row per distinct pair
    (domain, programme) met in the input, so one programme name in two
    domains gives two rows; the [name] of a row is the programme name
    alone; and the five sums of a row are taken over the records that
    have both its domain and its programme, the same sums the domain
    level takes over the records of a domain. *)
Theorem C7_programme_composite_key :
  forall df : DataFrame,
    (exists rows,
       process_kpi_data df "programme" = Returns rows /\
       NoDup (map group_key rows) /\
       (forall d p,
          In (Some d, Some p) (map group_key rows) <->
          exists x, In x df /\ Project.domain x = Some d /\ Project.programme x = Some p) /\
       Forall (fun r =>
         exists d p,
           Kpi.domain r = Some d /\ Kpi.name r = Some p /\
           sums_of (filter (in_programme (d, p)) df) r) rows) /\
    (exists rows,
       process_kpi_data df "domain" = Returns rows /\
       Forall (fun r =>
         exists d,
           Kpi.name r = Some d /\ sums_of (filter (in_domain d) df) r) rows).
Proof.
  intro df. split.
  - exists (map with_costs (group_by_programme df)).
    split; [apply process_kpi_data_returns|].
    rewrite keys_group_by_programme.
    split; [|split].
    + apply NoDup_map_injective.
      * intros [a1 a2] [b1 b2]. simpl. congruence.
      * apply sorted_unique_NoDup.
        -- exact pair_compare_eq.
        -- exact pair_compare_antisym.
        -- exact pair_compare_trans.
    + intros d p. rewrite <- programme_keys_In.
      rewrite <- (sorted_unique_In _ pair_compare_eq (programme_keys df) (d, p)).
      rewrite in_map_iff. split.
      * intros [[d' p'] [E H]]. simpl in E. injection E as -> ->. exact H.
      * intro H. exists (d, p). split; [reflexivity|exact H].
    + apply Forall_forall. intros r Hr.
      unfold group_by_programme in Hr. rewrite map_map in Hr.
      apply in_map_iff in Hr. destruct Hr as [[d p] [<- _]].
      exists d, p. split; [reflexivity|]. split; [reflexivity|].
      apply agg_sum_sums_of.
  - exists (map with_costs (group_by_domain df)).
    split; [apply process_kpi_data_returns|].
    apply Forall_forall. intros r Hr.
    unfold group_by_domain in Hr. rewrite map_map in Hr.
    apply in_map_iff in Hr. destruct Hr as [d [<- _]].
    exists d. split; [reflexivity|]. apply agg_sum_sums_of.
Qed.

(** The programme name "Sensors" of two domains gives two rows of that
    name, each with the sums of its own domain. *)
Example shared_programme_name_rows :
  exists r1 r2,
    process_kpi_data shared_programme_name "programme" = Returns [r1; r2] /\
    group_key r1 = (Some "AI", Some "Sensors")%string /\
    group_key r2 = (Some "Space", Some "Sensors")%string /\
    Kpi.total_budget r1 = Fin 20 /\ Kpi.total_budget r2 = Fin 15.
Proof.
  do 2 eexists. split; [reflexivity|]. repeat split.
Qed.

(** ** Sums that skip NaN *)

Lemma nansum_acc (xs : list num) :
  Forall finite_or_missing xs ->
  forall a, exists q, fold_left nanadd xs (Fin a) = Fin q /\ q == a + qsum xs.
Proof.
  induction 1 as [|x xs Hx Hxs IH]; intro a; simpl.
  - exists a. split; [reflexivity|]. ring.
  - destruct x as [p|s|]; simpl in *.
    + destruct (IH (a + p)) as [q [E Hq]]. exists q. split; [exact E|].
      rewrite Hq. ring.
    + contradiction.
    + destruct (IH a) as [q [E Hq]]. exists q. split; [exact E|].
      rewrite Hq. ring.
Qed.

Lemma nansum_qsum (xs : list num) :
  Forall finite_or_missing xs -> exists q, nansum xs = Fin q /\ q == qsum xs.
Proof.
  intro H. destruct (nansum_acc xs H 0) as [q [E Hq]].
  exists q. split; [exact E|]. rewrite Hq. ring.
Qed.

Lemma nansum_num_eq (xs : list num) :
  Forall finite_or_missing xs -> num_eq (nansum xs) (Fin (qsum xs)).
Proof.
  intro H. destruct (nansum_qsum xs H) as [q [-> Hq]]. exact Hq.
Qed.

Lemma qsum_app (xs ys : list num) : qsum (xs ++ ys) == qsum xs + qsum ys.
Proof.
  induction xs as [|x xs IH]; simpl.
  - ring.
  - rewrite IH. ring.
Qed.

Section GroupSums.
Context {K : Type} (f : Project.t -> num) (sel : K -> Project.t -> bool).
Hypothesis sel_unique : forall k k' r, sel k r = true -> sel k' r = true -> k = k'.

Lemma qsum_filter_key (l : DataFrame) (k : K) (ks : list K) :
  ~ In k ks ->
  qsum (map f (filter (fun r => existsb (fun k' => sel k' r) (k :: ks)) l)) ==
  member_sum f sel l k + qsum (map f (filter (fun r => existsb (fun k' => sel k' r) ks) l)).
Proof.
  intro Hk. unfold member_sum. induction l as [|r l IH]; simpl.
  - ring.
  - destruct (sel k r) eqn:Ek; simpl.
    + assert (Eks : existsb (fun k' => sel k' r) ks = false).
      { destruct (existsb (fun k' => sel k' r) ks) eqn:E; [|reflexivity].
        apply existsb_exists in E. destruct E as [k' [Hin Hs]].
        rewrite (sel_unique _ _ _ Ek Hs) in Hk. contradiction. }
      rewrite Eks. simpl. rewrite IH. ring.
    + destruct (existsb (fun k' => sel k' r) ks); simpl; rewrite IH; ring.
Qed.

Lemma group_sums_partition (l : DataFrame) (ks : list K) :
  NoDup ks ->
  fold_right (fun k acc => member_sum f sel l k + acc) 0 ks ==
  qsum (map f (filter (fun r => existsb (fun k => sel k r) ks) l)).
Proof.
  induction 1 as [|k ks Hk Hks IH].
  - simpl. induction l as [|r l IHl]; simpl; [reflexivity|exact IHl].
  - rewrite qsum_filter_key by exact Hk.
    simpl. rewrite IH. reflexivity.
Qed.

Lemma members_finite (l : DataFrame) (p : Project.t -> bool) :
  Forall (fun r => finite_or_missing (f r)) l ->
  Forall finite_or_missing (map f (filter p l)).
Proof.
  intro Hl. rewrite Forall_forall in Hl.
  apply Forall_forall. intros x Hx. apply in_map_iff in Hx.
  destruct Hx as [r [<- Hr]]. apply filter_In in Hr. apply Hl, Hr.
Qed.

Lemma group_sums_finite (l : DataFrame) (ks : list K) :
  Forall (fun r => finite_or_missing (f r)) l ->
  Forall finite_or_missing (map (fun k => nansum (map f (filter (sel k) l))) ks).
Proof.
  intro Hl. apply Forall_forall. intros x Hx. apply in_map_iff in Hx.
  destruct Hx as [k [<- _]].
  destruct (nansum_qsum _ (members_finite l (sel k) Hl)) as [q [-> _]].
  exact I.
Qed.

Lemma qsum_group_sums (l : DataFrame) (ks : list K) :
  Forall (fun r => finite_or_missing (f r)) l ->
  qsum (map (fun k => nansum (map f (filter (sel k) l))) ks) ==
  fold_right (fun k acc => member_sum f sel l k + acc) 0 ks.
Proof.
  intro Hl. induction ks as [|k ks IH]; simpl.
  - reflexivity.
  - rewrite IH. unfold member_sum.
    destruct (nansum_qsum _ (members_finite l (sel k) Hl)) as [q [-> Hq]].
    simpl. rewrite Hq. reflexivity.
Qed.

(** The sum of the group sums is the sum over the records of the groups. *)
Lemma nansum_group_sums (l : DataFrame) (ks : list K) :
  Forall (fun r => finite_or_missing (f r)) l ->
  NoDup ks ->
  num_eq (nansum (map (fun k => nansum (map f (filter (sel k) l))) ks))
         (nansum (map f (filter (fun r => existsb (fun k => sel k r) ks) l))).
Proof.
  intros Hl Hks.
  eapply num_eq_trans; [apply nansum_num_eq, group_sums_finite, Hl|].
  apply num_eq_sym.
  eapply num_eq_trans; [apply nansum_num_eq, members_finite, Hl|].
  simpl. rewrite (qsum_group_sums l ks Hl), group_sums_partition by exact Hks.
  reflexivity.
Qed.

End GroupSums.

(** ** The sum of the budgets *)

Lemma in_domain_unique (k k' : string) (r : Project.t) :
  in_domain k r = true -> in_domain k' r = true -> k = k'.
Proof. rewrite !in_domain_iff. congruence. Qed.

Lemma in_programme_unique (k k' : string * string) (r : Project.t) :
  in_programme k r = true -> in_programme k' r = true -> k = k'.
Proof.
  rewrite !in_programme_iff. destruct k, k'. simpl.
  intros [H1 H2] [H3 H4]. congruence.
Qed.

Lemma domain_groups_cover (df : DataFrame) (r : Project.t) :
  In r df ->
  existsb (fun k => in_domain k r) (sorted_unique String.compare (domain_keys df)) =
  is_some (Project.domain r).
Proof.
  intro Hr. destruct (Project.domain r) as [d|] eqn:Ed; simpl.
  - apply existsb_exists. exists d. split.
    + apply (sorted_unique_In _ string_compare_eq). apply domain_keys_In.
      exists r. auto.
    + apply in_domain_iff. exact Ed.
  - destruct (existsb _ _) eqn:E; [|reflexivity].
    apply existsb_exists in E. destruct E as [k [_ Hk]].
    apply in_domain_iff in Hk. congruence.
Qed.

Lemma programme_groups_cover (df : DataFrame) (r : Project.t) :
  In r df ->
  existsb (fun k => in_programme k r) (sorted_unique pair_compare (programme_keys df)) =
  is_some (Project.domain r) && is_some (Project.programme r).
Proof.
  intro Hr.
  destruct (Project.domain r) as [d|] eqn:Ed;
    destruct (Project.programme r) as [p|] eqn:Ep; simpl.
  - apply existsb_exists. exists (d, p). split.
    + apply (sorted_unique_In _ pair_compare_eq). apply programme_keys_In.
      exists r. auto.
    + apply in_programme_iff. auto.
  - destruct (existsb _ _) eqn:E; [|reflexivity].
    apply existsb_exists in E. destruct E as [k [_ Hk]].
    apply in_programme_iff in Hk. destruct Hk. congruence.
  - destruct (existsb _ _) eqn:E; [|reflexivity].
    apply existsb_exists in E. destruct E as [k [_ Hk]].
    apply in_programme_iff in Hk. destruct Hk. congruence.
  - destruct (existsb _ _) eqn:E; [|reflexivity].
    apply existsb_exists in E. destruct E as [k [_ Hk]].
    apply in_programme_iff in Hk. destruct Hk. congruence.
Qed.

Lemma filter_all {A : Type} (l : list A) : filter (fun _ => true) l = l.
Proof. induction l as [|a l IH]; simpl; congruence. Qed.

Lemma budget_of_with_costs (gs : list Grouped.t) :
  map Kpi.total_budget (map with_costs gs) = map Grouped.total_budget gs.
Proof. rewrite map_map. reflexivity. Qed.

(** C2 (as the code has it): with budgets that are finite or missing, the
    budgets of the returned rows add up to the budgets of the records the
    level puts into a group: the records with a non-null domain at the
    domain level, those with a non-null domain and a non-null programme at
    the programme level, and every record at the project level. *)
Theorem C2_budget_sum_by_level :
  forall (df : DataFrame) (level : string) (rows : list Kpi.t),
    Forall (fun r => finite_or_missing (Project.total_budget r)) df ->
    process_kpi_data df level = Returns rows ->
    num_eq (nansum (map Kpi.total_budget rows))
           (nansum (map Project.total_budget (filter (aggregated level) df))).
Proof.
  intros df level rows Hfin Hrows.
  rewrite process_kpi_data_returns in Hrows. injection Hrows as <-.
  rewrite budget_of_with_costs.
  unfold grouped, aggregated.
  destruct (String.eqb level "domain").
  - unfold group_by_domain. rewrite map_map. simpl.
    eapply num_eq_trans.
    + apply (nansum_group_sums Project.total_budget in_domain in_domain_unique).
      * exact Hfin.
      * apply sorted_unique_NoDup.
        -- exact string_compare_eq.
        -- exact string_compare_antisym.
        -- exact string_compare_trans.
    + rewrite (filter_ext_in _ _ df (domain_groups_cover df)). apply num_eq_refl.
  - destruct (String.eqb level "programme").
    + unfold group_by_programme. rewrite map_map. simpl.
      eapply num_eq_trans.
      * apply (nansum_group_sums Project.total_budget in_programme in_programme_unique).
        -- exact Hfin.
        -- apply sorted_unique_NoDup.
           ++ exact pair_compare_eq.
           ++ exact pair_compare_antisym.
           ++ exact pair_compare_trans.
      * rewrite (filter_ext_in _ _ df (programme_groups_cover df)). apply num_eq_refl.
    + rewrite map_map. simpl. rewrite filter_all. apply num_eq_refl.
Qed.

Lemma C2_budget_sum_by_level_witness :
  exists rows,
    process_kpi_data shared_programme_name "programme" = Returns rows /\
    num_eq (nansum (map Kpi.total_budget rows))
           (nansum (map Project.total_budget
                        (filter (aggregated "programme") shared_programme_name))).
Proof.
  eexists. split; [reflexivity|].
  apply (C2_budget_sum_by_level shared_programme_name "programme").
  - repeat constructor.
  - reflexivity.
Defined.

(** C2 fails as stated: at the project level the row of a record whose
    domain is null keeps its budget, so the rows add up to 5 while the
    records with a non-null domain add up to 0. *)
Lemma C2_counterexample :
  exists rows,
    process_kpi_data orphan "project" = Returns rows /\
    nansum (map Kpi.total_budget rows) = Fin 5 /\
    nansum (map Project.total_budget (filter has_domain orphan)) = Fin 0 /\
    ~ num_eq (nansum (map Kpi.total_budget rows))
             (nansum (map Project.total_budget (filter has_domain orphan))).
Proof.
  eexists. split; [reflexivity|]. split; [reflexivity|]. split; [reflexivity|].
  vm_compute. intro H. discriminate H.
Qed.

(** ** The cost per KPI against the cost per metric *)

Lemma Qdiv_le_denominator (b c t : Q) :
  0 <= b -> 0 < c -> c <= t -> b / t <= b / c.
Proof.
  intros Hb Hc Hct.
  assert (Ht : 0 < t) by (eapply Qlt_le_trans; eassumption).
  apply Qle_shift_div_r; [exact Ht|].
  assert (Hx : 0 <= b / c).
  { apply Qle_shift_div_l; [exact Hc|]. rewrite Qmult_0_l. exact Hb. }
  assert (E : b == b / c * c).
  { field. intro Z. rewrite Z in Hc. exact (Qlt_irrefl _ Hc). }
  rewrite E at 1.
  rewrite (Qmult_comm (b / c) c), (Qmult_comm (b / c) t).
  apply Qmult_le_compat_r; assumption.
Qed.

Lemma column_of_agg_sum (k : kpi) (dom name : option string) (l : DataFrame) :
  Grouped.column k (agg_sum dom name l) = nansum (map (project_kpi k) l).
Proof. destruct k; reflexivity. Qed.

Lemma column_of_project_columns (k : kpi) (r : Project.t) :
  Grouped.column k (project_columns r) = project_kpi k r.
Proof. destruct k; reflexivity. Qed.

Lemma cost_per_kpi_bound (b c t : Q) :
  0 <= b -> 0 < c -> c <= t ->
  num_le (guarded_div (Fin b) (Fin t)) (guarded_div (Fin b) (Fin c)).
Proof.
  intros Hb Hc Hct.
  assert (Ht : 0 < t) by (eapply Qlt_le_trans; eassumption).
  rewrite !guarded_div_positive by assumption.
  simpl. apply Qdiv_le_denominator; assumption.
Qed.

(** *** Frames with integer columns *)

Lemma typed_kpi_costs_returns (dt : Typed.dtypes) (g : Grouped.t) :
  Typed.kpi_costs dt g = Returns (Typed.with_costs dt g).
Proof.
  unfold Typed.kpi_costs. rewrite !cost_of_returns. reflexivity.
Qed.

Lemma typed_process_kpi_data_returns (dt : Typed.dtypes) (df : DataFrame) (level : string) :
  Typed.process_kpi_data dt df level =
  Returns (map (Typed.with_costs dt) (Typed.grouped dt df level)).
Proof.
  unfold Typed.process_kpi_data. apply mapM_returns. apply typed_kpi_costs_returns.
Qed.

(** With float64 columns throughout, the typed frame is the frame of
    [process_kpi_data]. *)
Lemma typed_float_columns (df : DataFrame) (level : string) :
  Typed.process_kpi_data Typed.float_dtypes df level = process_kpi_data df level.
Proof. reflexivity. Qed.

Lemma typed_with_costs_cost (dt : Typed.dtypes) (k : kpi) (g : Grouped.t) :
  Kpi.cost k (Typed.with_costs dt g) =
  guarded_div (Grouped.total_budget g) (Grouped.column k g).
Proof. destruct k; reflexivity. Qed.

Lemma wrap_in_range (z : Z) :
  (Typed.int64_min <= z <= Typed.int64_max)%Z -> Typed.wrap z = z.
Proof.
  unfold Typed.int64_min, Typed.int64_max, Typed.wrap. intro H.
  rewrite Z.mod_small by lia. lia.
Qed.

Lemma wrap_range (z : Z) :
  (Typed.int64_min <= Typed.wrap z <= Typed.int64_max)%Z.
Proof.
  unfold Typed.int64_min, Typed.int64_max, Typed.wrap.
  pose proof (Z.mod_pos_bound (z + 9223372036854775808) 18446744073709551616).
  lia.
Qed.

Lemma int_of_integer (z : Z) : Typed.int_of (Fin (inject_Z z)) = z.
Proof. simpl. apply Qfloor_Z. Qed.

Lemma kpi_block_int64 (dt : Typed.dtypes) :
  Typed.kpi_block_dtype dt = Typed.int64 ->
  forall k, Typed.kpi_dtype k dt = Typed.int64.
Proof.
  unfold Typed.kpi_block_dtype. intros H k.
  destruct (Typed.journal_articles dt) eqn:E1; try discriminate.
  destruct (Typed.conference_papers dt) eqn:E2; try discriminate.
  destruct (Typed.book_chapters dt) eqn:E3; try discriminate.
  destruct (Typed.technology_demonstrators dt) eqn:E4; try discriminate.
  destruct k; simpl; assumption.
Qed.

Lemma typed_sum_cell (dt : Typed.dtype) (xs : list num) :
  dt = Typed.int64 -> Typed.int64_cell (Typed.sum dt xs).
Proof.
  intros ->. simpl. eexists. split; [reflexivity|]. apply wrap_range.
Qed.

Lemma typed_column_of_agg_sum (dt : Typed.dtypes) (k : kpi)
    (dom name : option string) (l : DataFrame) :
  Grouped.column k (Typed.agg_sum dt dom name l) =
  Typed.sum (Typed.kpi_dtype k dt) (map (project_kpi k) l).
Proof. destruct k; reflexivity. Qed.

(** In an int64 column of [grouped] every cell is an int64 integer. *)
Lemma typed_grouped_cells (dt : Typed.dtypes) (df : DataFrame) (level : string)
    (g : Grouped.t) (k : kpi) :
  Typed.well_typed dt df ->
  In g (Typed.grouped dt df level) ->
  Typed.kpi_dtype k dt = Typed.int64 ->
  Typed.int64_cell (Grouped.column k g).
Proof.
  intros Hwt Hg Hk. unfold Typed.grouped in Hg.
  destruct (String.eqb level "domain").
  - unfold Typed.group_by_domain in Hg. apply in_map_iff in Hg.
    destruct Hg as [d [<- _]]. rewrite typed_column_of_agg_sum.
    apply typed_sum_cell. exact Hk.
  - destruct (String.eqb level "programme").
    + unfold Typed.group_by_programme in Hg. apply in_map_iff in Hg.
      destruct Hg as [dp [<- _]]. rewrite typed_column_of_agg_sum.
      apply typed_sum_cell. exact Hk.
    + apply in_map_iff in Hg. destruct Hg as [r [<- Hr]].
      rewrite column_of_project_columns.
      unfold Typed.well_typed in Hwt. rewrite Forall_forall in Hwt.
      destruct (Hwt r Hr) as [_ H]. specialize (H k). rewrite Hk in H. exact H.
Qed.

Lemma int64_sum_of_four (z1 z2 z3 z4 : Z) :
  (0 <= z1)%Z -> (0 <= z2)%Z -> (0 <= z3)%Z -> (0 <= z4)%Z ->
  inject_Z z1 + inject_Z z2 + inject_Z z3 + inject_Z z4 <= inject_Z Typed.int64_max ->
  Typed.sum Typed.int64
    [Fin (inject_Z z1); Fin (inject_Z z2); Fin (inject_Z z3); Fin (inject_Z z4)] =
  Fin (inject_Z (z1 + z2 + z3 + z4)).
Proof.
  intros H1 H2 H3 H4 H.
  unfold Typed.sum. cbn [map fold_left]. rewrite !int_of_integer.
  rewrite <- !inject_Z_plus in H. rewrite <- Zle_Qle in H.
  rewrite wrap_in_range; [reflexivity|].
  unfold Typed.int64_min, Typed.int64_max in *. lia.
Qed.

(** C10 (as the code has it): in a returned row whose budget and four
    counts are finite and not negative, [cost_per_kpi] is at most the
    cost of every metric whose count is greater than 0, provided that the
    four counts, when all four count columns are int64 columns, add up to
    at most 2^63 - 1, so that [total_kpis] does not wrap. *)
Theorem C10_cost_per_kpi_lower_bound :
  forall (dt : Typed.dtypes) (df : DataFrame) (level : string)
         (rows : list Kpi.t) (r : Kpi.t) (k : kpi),
    Typed.well_typed dt df ->
    Typed.process_kpi_data dt df level = Returns rows ->
    In r rows ->
    nonneg (Kpi.total_budget r) ->
    (forall k', nonneg (Kpi.column k' r)) ->
    num_gt0 (Kpi.column k r) = true ->
    (Typed.kpi_block_dtype dt = Typed.int64 ->
     counts_total r <= inject_Z Typed.int64_max) ->
    num_le (Kpi.cost_per_kpi r) (Kpi.cost k r).
Proof.
  intros dt df level rows r k Hwt Hrows Hr Hb Hc Hk Hsum.
  rewrite typed_process_kpi_data_returns in Hrows. injection Hrows as <-.
  apply in_map_iff in Hr. destruct Hr as [g [<- Hg]].
  rewrite typed_with_costs_cost.
  unfold counts_total, Kpi.total_budget, Kpi.column in *. cbn [Typed.with_costs Kpi.base Kpi.cost_per_kpi] in *.
  pose proof (Hc JournalArticles) as H1. pose proof (Hc ConferencePapers) as H2.
  pose proof (Hc BookChapters) as H3. pose proof (Hc TechnologyDemonstrators) as H4.
  assert (Hcells : Typed.kpi_block_dtype dt = Typed.int64 ->
            forall k', Typed.int64_cell (Grouped.column k' g)).
  { intros B k'. apply (typed_grouped_cells dt df level); try assumption.
    apply kpi_block_int64. exact B. }
  cbn [Grouped.column kpi_columns map] in *.
  destruct (Grouped.total_budget g) as [b| |]; try contradiction.
  destruct (Grouped.journal_articles g) as [c1| |] eqn:E1; try contradiction.
  destruct (Grouped.conference_papers g) as [c2| |] eqn:E2; try contradiction.
  destruct (Grouped.book_chapters g) as [c3| |] eqn:E3; try contradiction.
  destruct (Grouped.technology_demonstrators g) as [c4| |] eqn:E4; try contradiction.
  cbn [nonneg qval] in *.
  assert (Ht : exists t, Typed.sum (Typed.kpi_block_dtype dt)
                           [Fin c1; Fin c2; Fin c3; Fin c4] = Fin t /\
                         t == c1 + c2 + c3 + c4).
  { destruct (Typed.kpi_block_dtype dt) eqn:B.
    - specialize (Hsum eq_refl).
      destruct (Hcells eq_refl JournalArticles) as [z1 [F1 _]].
      destruct (Hcells eq_refl ConferencePapers) as [z2 [F2 _]].
      destruct (Hcells eq_refl BookChapters) as [z3 [F3 _]].
      destruct (Hcells eq_refl TechnologyDemonstrators) as [z4 [F4 _]].
      cbn [Grouped.column] in F1, F2, F3, F4.
      rewrite E1 in F1. rewrite E2 in F2. rewrite E3 in F3. rewrite E4 in F4.
      injection F1 as ->. injection F2 as ->. injection F3 as ->. injection F4 as ->.
      rewrite <- (Zle_Qle 0) in H1, H2, H3, H4.
      rewrite (int64_sum_of_four z1 z2 z3 z4 H1 H2 H3 H4 Hsum).
      eexists. split; [reflexivity|]. rewrite !inject_Z_plus. reflexivity.
    - unfold Typed.sum, nansum. simpl. eexists. split; [reflexivity|]. ring. }
  destruct Ht as [t [Et Ht]]. rewrite Et.
  assert (Hkc : exists c, Grouped.column k g = Fin c /\ 0 < c /\ c <= t).
  { destruct k; cbn [Grouped.column] in *; rewrite ?E1, ?E2, ?E3, ?E4 in *;
      eexists; (split; [reflexivity|]); simpl in Hk; apply Qlt_bool_iff in Hk;
      (split; [exact Hk|]); rewrite Ht; lra. }
  destruct Hkc as [c [Ec [Hc0 Hct]]]. rewrite Ec.
  apply cost_per_kpi_bound; assumption.
Qed.

Lemma C10_cost_per_kpi_lower_bound_witness :
  exists r,
    Typed.process_kpi_data Typed.int_dtypes two_records "domain" = Returns [r] /\
    num_le (Kpi.cost_per_kpi r) (Kpi.cost JournalArticles r).
Proof.
  eexists. split; [reflexivity|].
  eapply (C10_cost_per_kpi_lower_bound Typed.int_dtypes two_records "domain"
            _ _ JournalArticles).
  - repeat constructor; try (intro k; destruct k);
      simpl; (eexists; split; [reflexivity|]);
      unfold Typed.int64_min, Typed.int64_max; lia.
  - reflexivity.
  - left. reflexivity.
  - vm_compute. discriminate.
  - intro k'. destruct k'; vm_compute; discriminate.
  - reflexivity.
  - intros _. vm_compute. discriminate.
Defined.

(** C10 fails as stated: the four counts of the row are integers that add
    up to 2^64 + 1, so [total_kpis] wraps around to 1; the budget and the
    counts are not negative, and [cost_per_kpi] is 6 where the cost of the
    book chapters is 3. *)
Lemma C10_counterexample :
  exists r,
    Typed.well_typed Typed.int_dtypes huge_counts /\
    Typed.process_kpi_data Typed.int_dtypes huge_counts "project" = Returns [r] /\
    nonneg (Kpi.total_budget r) /\
    (forall k, nonneg (Kpi.column k r)) /\
    num_gt0 (Kpi.column BookChapters r) = true /\
    Kpi.total_kpis r = Fin 1 /\
    num_eq (Kpi.cost_per_kpi r) (Fin 6) /\
    num_eq (Kpi.cost BookChapters r) (Fin 3) /\
    ~ num_le (Kpi.cost_per_kpi r) (Kpi.cost BookChapters r).
Proof.
  eexists. split; [|split; [reflexivity|]].
  - repeat constructor; try (intro k; destruct k);
      simpl; (eexists; split; [reflexivity|]);
      unfold Typed.int64_min, Typed.int64_max; lia.
  - split; [vm_compute; discriminate|].
    split; [intro k; destruct k; vm_compute; discriminate|].
    split; [reflexivity|]. split; [reflexivity|].
    split; [vm_compute; reflexivity|]. split; [vm_compute; reflexivity|].
    vm_compute. intro H. apply H. reflexivity.
Qed.

(** ** Missing cells *)

Lemma Qeq_bool_compat (p p' q : Q) : p == p' -> Qeq_bool p q = Qeq_bool p' q.
Proof.
  intro E. destruct (Qeq_bool p q) eqn:H1; symmetry.
  - apply Qeq_bool_iff. apply Qeq_bool_iff in H1. rewrite <- E. exact H1.
  - apply Qeq_bool_false. apply Qeq_bool_false in H1. rewrite <- E. exact H1.
Qed.

Lemma Qlt_bool_compat (p p' q q' : Q) :
  p == p' -> q == q' -> Qlt_bool p q = Qlt_bool p' q'.
Proof.
  intros Ep Eq. destruct (Qlt_bool p q) eqn:H1; symmetry.
  - apply Qlt_bool_iff. apply Qlt_bool_iff in H1. rewrite <- Ep, <- Eq. exact H1.
  - destruct (Qlt_bool p' q') eqn:H2; [|reflexivity].
    apply Qlt_bool_iff in H2. rewrite <- Ep, <- Eq in H2.
    apply Qlt_bool_iff in H2. congruence.
Qed.

Lemma num_add_compat (a a' b b' : num) :
  num_eq a a' -> num_eq b b' -> num_eq (num_add a b) (num_add a' b').
Proof.
  destruct a, a', b, b'; simpl; try tauto; try congruence.
  - intros H1 H2. rewrite H1, H2. reflexivity.
  - intros -> ->. destruct (Bool.eqb neg0 neg2); simpl; auto.
Qed.

Lemma num_div_compat (a a' b b' : num) :
  num_eq a a' -> num_eq b b' -> num_eq (num_div a b) (num_div a' b').
Proof.
  destruct a as [p| |], a' as [p'| |], b as [q| |], b' as [q'| |];
    simpl; try tauto; try congruence.
  - intros Hp Hq.
    rewrite (Qeq_bool_compat q q' 0 Hq), (Qeq_bool_compat p p' 0 Hp).
    rewrite (Qlt_bool_compat p p' 0 0 Hp (Qeq_refl 0)).
    destruct (Qeq_bool q' 0) eqn:Z.
    + destruct (Qeq_bool p' 0); simpl; auto.
    + simpl. rewrite Hp, Hq. reflexivity.
  - intros -> Hq. rewrite (Qlt_bool_compat q q' 0 0 Hq (Qeq_refl 0)). reflexivity.
Qed.

Lemma num_gt0_compat (a a' : num) : num_eq a a' -> num_gt0 a = num_gt0 a'.
Proof.
  destruct a, a'; simpl; try tauto; try congruence.
  intro H. apply Qlt_bool_compat; [reflexivity|exact H].
Qed.

Lemma guarded_div_compat (a a' b b' : num) :
  num_eq a a' -> num_eq b b' -> num_eq (guarded_div a b) (guarded_div a' b').
Proof.
  intros Ha Hb. unfold guarded_div. rewrite (num_gt0_compat b b' Hb).
  destruct (num_gt0 b'); [apply num_div_compat; assumption|apply num_eq_refl].
Qed.

Lemma guarded_div_fillna (a m : num) : guarded_div a (fillna m) = guarded_div a m.
Proof. destruct m; reflexivity. Qed.

Lemma nanadd_compat (a a' x x' : num) :
  num_eq a a' -> num_eq (fillna x) (fillna x') ->
  num_eq (nanadd a x) (nanadd a' x').
Proof.
  intros Ha Hx.
  assert (L : forall b y, num_eq (nanadd b y) (num_add b (fillna y))).
  { intros b y. destruct y; simpl; try apply num_eq_refl.
    destruct b; simpl; auto. ring. }
  eapply num_eq_trans; [apply L|].
  eapply num_eq_trans; [|apply num_eq_sym, L].
  apply num_add_compat; assumption.
Qed.

Lemma fold_nanadd_compat (xs xs' : list num) :
  Forall2 (fun x x' => num_eq (fillna x) (fillna x')) xs xs' ->
  forall a a', num_eq a a' ->
  num_eq (fold_left nanadd xs a) (fold_left nanadd xs' a').
Proof.
  induction 1 as [|x x' xs xs' Hx Hxs IH]; intros a a' Ha; simpl.
  - exact Ha.
  - apply IH. apply nanadd_compat; assumption.
Qed.

Lemma nansum_compat (xs xs' : list num) :
  Forall2 (fun x x' => num_eq (fillna x) (fillna x')) xs xs' ->
  num_eq (nansum xs) (nansum xs').
Proof.
  intro H. apply fold_nanadd_compat; [exact H|apply num_eq_refl].
Qed.

Lemma fillna_idem (x : num) : num_eq (fillna x) (fillna (fillna x)).
Proof. destruct x; simpl; reflexivity. Qed.

Lemma Forall2_map_same {A B C : Type} (R : B -> C -> Prop) (f : A -> B) (g : A -> C)
    (l : list A) :
  (forall a, R (f a) (g a)) -> Forall2 R (map f l) (map g l).
Proof.
  intro H. induction l as [|a l IH]; simpl; constructor; auto.
Qed.

(** A sum over the filled records is the sum over the records. *)
Lemma nansum_filled (f : Project.t -> num) (fill : Project.t -> Project.t)
    (l : DataFrame) :
  (forall r, num_eq (fillna (f r)) (fillna (f (fill r)))) ->
  num_eq (nansum (map f l)) (nansum (map f (map fill l))).
Proof.
  intro H. apply nansum_compat. rewrite map_map.
  apply Forall2_map_same. exact H.
Qed.

Lemma fillna_compat (x x' : num) : num_eq x x' -> num_eq (fillna x) (fillna x').
Proof. destruct x, x'; simpl; try tauto. intros _. reflexivity. Qed.

Lemma total_kpis_compat (g g' : Grouped.t) :
  (forall k, num_eq (fillna (Grouped.column k g)) (fillna (Grouped.column k g'))) ->
  num_eq (Kpi.total_kpis (with_costs g)) (Kpi.total_kpis (with_costs g')).
Proof.
  intro H. simpl. apply nansum_compat. unfold kpi_columns. simpl.
  repeat constructor.
  - exact (H JournalArticles).
  - exact (H ConferencePapers).
  - exact (H BookChapters).
  - exact (H TechnologyDemonstrators).
Qed.

Lemma with_costs_compat (g g' : Grouped.t) :
  Grouped_eq g g' -> Kpi_eq (with_costs g) (with_costs g').
Proof.
  intros [Hd [Hn [Hb Hc]]].
  assert (Ht : num_eq (Kpi.total_kpis (with_costs g)) (Kpi.total_kpis (with_costs g'))).
  { apply total_kpis_compat. intro k. apply fillna_compat, Hc. }
  split; [|split; [|split]].
  - repeat split; assumption.
  - intro k. rewrite !with_costs_cost. apply guarded_div_compat; [exact Hb|apply Hc].
  - exact Ht.
  - simpl. apply guarded_div_compat; [exact Hb|exact Ht].
Qed.

Lemma filter_map_stable {A : Type} (p : A -> bool) (f : A -> A) (l : list A) :
  (forall a, p (f a) = p a) -> filter p (map f l) = map f (filter p l).
Proof.
  intro H. induction l as [|a l IH]; simpl.
  - reflexivity.
  - rewrite H. destruct (p a); simpl; congruence.
Qed.

Lemma domain_keys_fill_numeric (df : DataFrame) :
  domain_keys (map fill_numeric df) = domain_keys df.
Proof.
  unfold domain_keys. induction df as [|r df IH]; simpl; congruence.
Qed.

Lemma programme_keys_fill_numeric (df : DataFrame) :
  programme_keys (map fill_numeric df) = programme_keys df.
Proof.
  unfold programme_keys. induction df as [|r df IH]; simpl; congruence.
Qed.

Lemma agg_sum_fill_numeric (dom name : option string) (l : DataFrame) :
  Grouped_eq (agg_sum dom name l) (agg_sum dom name (map fill_numeric l)).
Proof.
  split; [reflexivity|]. split; [reflexivity|]. split.
  - simpl. apply nansum_filled. intro r. apply fillna_idem.
  - intro k. destruct k; simpl; apply nansum_filled; intro r; apply fillna_idem.
Qed.

Lemma project_row_fill_kpis (r : Project.t) :
  efficiency_eq (with_costs (project_columns r))
                (with_costs (project_columns (fill_kpis r))).
Proof.
  assert (Ht : num_eq (Kpi.total_kpis (with_costs (project_columns r)))
                      (Kpi.total_kpis (with_costs (project_columns (fill_kpis r))))).
  { apply total_kpis_compat. intro k. destruct k; simpl; apply fillna_idem. }
  split; [reflexivity|]. split; [apply num_eq_refl|]. split; [|split].
  - intro k. rewrite !with_costs_cost.
    destruct k; simpl; rewrite guarded_div_fillna; apply num_eq_refl.
  - exact Ht.
  - simpl. apply guarded_div_compat; [apply num_eq_refl|exact Ht].
Qed.

Lemma numeric_columns_missing_budget : numeric_columns missing_budget.
Proof.
  split.
  - eexists. split; [right; left; reflexivity|discriminate].
  - intro k. eexists. split; [left; reflexivity|].
    destruct k; discriminate.
Qed.

Lemma int_of_fillna (x y : num) :
  num_eq (fillna x) (fillna y) -> Typed.int_of x = Typed.int_of y.
Proof.
  assert (Z : forall q, q == 0 -> Qfloor q = 0%Z).
  { intros q Hq. rewrite (Qfloor_comp _ _ Hq). reflexivity. }
  destruct x as [p| |], y as [q| |]; cbn [fillna num_eq Typed.int_of];
    try tauto; try reflexivity.
  - apply Qfloor_comp.
  - apply Z.
  - intro H. symmetry. apply Z. symmetry. exact H.
Qed.

Lemma typed_sum_filled (dt : Typed.dtype) (xs ys : list num) :
  Forall2 (fun x y => num_eq (fillna x) (fillna y)) xs ys ->
  num_eq (Typed.sum dt xs) (Typed.sum dt ys).
Proof.
  intro H. destruct dt; simpl.
  - assert (E : map Typed.int_of xs = map Typed.int_of ys).
    { induction H as [|x y xs ys Hxy H IH]; simpl; [reflexivity|].
      rewrite (int_of_fillna x y Hxy), IH. reflexivity. }
    rewrite E. reflexivity.
  - apply nansum_compat. exact H.
Qed.

Lemma typed_total_kpis_filled (dt : Typed.dtypes) (g g' : Grouped.t) :
  (forall k, num_eq (fillna (Grouped.column k g)) (fillna (Grouped.column k g'))) ->
  num_eq (Kpi.total_kpis (Typed.with_costs dt g))
         (Kpi.total_kpis (Typed.with_costs dt g')).
Proof.
  intro H. cbn [Typed.with_costs Kpi.total_kpis]. apply typed_sum_filled.
  unfold kpi_columns. cbn [map].
  repeat constructor.
  - exact (H JournalArticles).
  - exact (H ConferencePapers).
  - exact (H BookChapters).
  - exact (H TechnologyDemonstrators).
Qed.

Lemma typed_with_costs_compat (dt : Typed.dtypes) (g g' : Grouped.t) :
  Grouped_eq g g' -> Kpi_eq (Typed.with_costs dt g) (Typed.with_costs dt g').
Proof.
  intros [Hd [Hn [Hb Hc]]].
  assert (Ht : num_eq (Kpi.total_kpis (Typed.with_costs dt g))
                      (Kpi.total_kpis (Typed.with_costs dt g'))).
  { apply typed_total_kpis_filled. intro k. apply fillna_compat, Hc. }
  split; [|split; [|split]].
  - repeat split; assumption.
  - intro k. rewrite !typed_with_costs_cost.
    apply guarded_div_compat; [exact Hb|apply Hc].
  - exact Ht.
  - cbn [Typed.with_costs Kpi.cost_per_kpi Kpi.total_kpis] in *.
    apply guarded_div_compat; [exact Hb|exact Ht].
Qed.

Lemma typed_agg_sum_fill_numeric (dt : Typed.dtypes) (dom name : option string)
    (l : DataFrame) :
  Grouped_eq (Typed.agg_sum dt dom name l) (Typed.agg_sum dt dom name (map fill_numeric l)).
Proof.
  assert (S : forall (d : Typed.dtype) (f : Project.t -> num),
            (forall r, num_eq (fillna (f r)) (fillna (f (fill_numeric r)))) ->
            num_eq (Typed.sum d (map f l)) (Typed.sum d (map f (map fill_numeric l)))).
  { intros d f Hf. apply typed_sum_filled. rewrite map_map.
    apply Forall2_map_same. exact Hf. }
  split; [reflexivity|]. split; [reflexivity|]. split.
  - apply S. intro r. apply fillna_idem.
  - intro k. destruct k; apply S; intro r; apply fillna_idem.
Qed.

Lemma typed_project_row_fill_kpis (dt : Typed.dtypes) (r : Project.t) :
  efficiency_eq (Typed.with_costs dt (project_columns r))
                (Typed.with_costs dt (project_columns (fill_kpis r))).
Proof.
  assert (Ht : num_eq (Kpi.total_kpis (Typed.with_costs dt (project_columns r)))
                      (Kpi.total_kpis (Typed.with_costs dt (project_columns (fill_kpis r))))).
  { apply typed_total_kpis_filled. intro k. destruct k; simpl; apply fillna_idem. }
  split; [reflexivity|]. split; [apply num_eq_refl|]. split; [|split].
  - intro k. rewrite !typed_with_costs_cost.
    destruct k; simpl; rewrite guarded_div_fillna; apply num_eq_refl.
  - exact Ht.
  - cbn [Typed.with_costs Kpi.cost_per_kpi Kpi.total_kpis] in *.
    apply guarded_div_compat; [apply num_eq_refl|exact Ht].
Qed.

(** On a frame whose numeric columns hold numbers, whatever their dtypes,
    a missing cell counts as 0 at the domain and the programme level: the
    rows are those of the frame whose missing cells are filled with 0.
    At the project level a missing count is read as 0 by the cost
    columns, [total_kpis] and [cost_per_kpi]: they are those of the frame
    whose missing counts are filled with 0. *)
Theorem missing_cells_count_as_zero :
  forall (dt : Typed.dtypes) (df : DataFrame),
    Typed.well_typed dt df ->
    numeric_columns df ->
    (exists rows rows',
       Typed.process_kpi_data dt df "domain" = Returns rows /\
       Typed.process_kpi_data dt (map fill_numeric df) "domain" = Returns rows' /\
       Forall2 Kpi_eq rows rows') /\
    (exists rows rows',
       Typed.process_kpi_data dt df "programme" = Returns rows /\
       Typed.process_kpi_data dt (map fill_numeric df) "programme" = Returns rows' /\
       Forall2 Kpi_eq rows rows') /\
    (exists rows rows',
       Typed.process_kpi_data dt df "project" = Returns rows /\
       Typed.process_kpi_data dt (map fill_kpis df) "project" = Returns rows' /\
       Forall2 efficiency_eq rows rows').
Proof.
  intros dt df _ _. split; [|split].
  - do 2 eexists. rewrite !typed_process_kpi_data_returns.
    split; [reflexivity|]. split; [reflexivity|].
    change (Typed.grouped dt df "domain") with (Typed.group_by_domain dt df).
    change (Typed.grouped dt (map fill_numeric df) "domain")
      with (Typed.group_by_domain dt (map fill_numeric df)).
    unfold Typed.group_by_domain.
    rewrite domain_keys_fill_numeric, !map_map.
    apply Forall2_map_same. intro d.
    apply typed_with_costs_compat.
    rewrite (filter_map_stable (in_domain d) fill_numeric df) by reflexivity.
    apply typed_agg_sum_fill_numeric.
  - do 2 eexists. rewrite !typed_process_kpi_data_returns.
    split; [reflexivity|]. split; [reflexivity|].
    change (Typed.grouped dt df "programme") with (Typed.group_by_programme dt df).
    change (Typed.grouped dt (map fill_numeric df) "programme")
      with (Typed.group_by_programme dt (map fill_numeric df)).
    unfold Typed.group_by_programme.
    rewrite programme_keys_fill_numeric, !map_map.
    apply Forall2_map_same. intro dp.
    apply typed_with_costs_compat.
    rewrite (filter_map_stable (in_programme dp) fill_numeric df) by reflexivity.
    apply typed_agg_sum_fill_numeric.
  - do 2 eexists. rewrite !typed_process_kpi_data_returns.
    split; [reflexivity|]. split; [reflexivity|].
    change (Typed.grouped dt df "project") with (map project_columns df).
    change (Typed.grouped dt (map fill_kpis df) "project")
      with (map project_columns (map fill_kpis df)).
    rewrite !map_map.
    apply Forall2_map_same. exact (typed_project_row_fill_kpis dt).
Qed.

Lemma missing_cells_count_as_zero_witness :
  exists rows rows',
    process_kpi_data missing_budget "domain" = Returns rows /\
    process_kpi_data (map fill_numeric missing_budget) "domain" = Returns rows' /\
    Forall2 Kpi_eq rows rows'.
Proof.
  assert (Hwt : Typed.well_typed Typed.float_dtypes missing_budget).
  { apply Forall_forall. intros r _.
    split; [exact I|intro k; destruct k; exact I]. }
  exact (proj1 (missing_cells_count_as_zero Typed.float_dtypes missing_budget
                  Hwt numeric_columns_missing_budget)).
Defined.

(** C9: the frame has a record whose budget is missing.  At the project
    level its row keeps the missing budget, and the cost of its journal
    articles and its [cost_per_kpi] are NaN, where reading the budget as 0
    gives a budget of 0 and costs of 0.  The domain level, on the same
    frame, does read it as 0: the budget of the group is that of the
    other record.  And on a frame in which a count is missing in every
    record the project level raises TypeError. *)
Theorem C9_project_level_keeps_missing_budget :
  (exists r1 r2,
     process_kpi_data missing_budget "project" = Returns [r1; r2] /\
     Kpi.total_budget r1 = NaN /\
     Kpi.cost JournalArticles r1 = NaN /\
     Kpi.cost_per_kpi r1 = NaN) /\
  (exists r1 r2,
     process_kpi_data (map fill_numeric missing_budget) "project" = Returns [r1; r2] /\
     num_eq (Kpi.total_budget r1) (Fin 0) /\
     num_eq (Kpi.cost JournalArticles r1) (Fin 0) /\
     num_eq (Kpi.cost_per_kpi r1) (Fin 0)) /\
  (exists r,
     process_kpi_data missing_budget "domain" = Returns [r] /\
     num_eq (Kpi.total_budget r) (Fin 50) /\
     num_eq (Kpi.cost JournalArticles r) (Fin 25) /\
     num_eq (Kpi.cost_per_kpi r) (Fin (50 # 3))) /\
  ProjectLevel.process_kpi_data absent_count = Raises TypeError.
Proof.
  split; [|split; [|split]].
  - do 2 eexists. split; [reflexivity|]. repeat split.
  - do 2 eexists. split; [reflexivity|].
    repeat split; vm_compute; reflexivity.
  - eexists. split; [reflexivity|].
    repeat split; vm_compute; reflexivity.
  - reflexivity.
Qed.

(** ** The scores *)

Lemma nonneg_or_missing_finite (x : num) : nonneg_or_missing x -> finite_or_missing x.
Proof. destruct x; simpl; auto. Qed.

Lemma nonneg_or_missing_qval (x : num) : nonneg_or_missing x -> 0 <= qval x.
Proof. destruct x; simpl; auto; intros; apply Qle_refl. Qed.

Section ColumnSums.
Context (f : Project.t -> num).

Lemma qsum_nonneg (l : DataFrame) :
  Forall (fun r => nonneg_or_missing (f r)) l -> 0 <= qsum (map f l).
Proof.
  induction 1 as [|r l Hr Hl IH]; simpl.
  - apply Qle_refl.
  - apply nonneg_or_missing_qval in Hr. lra.
Qed.

Lemma qsum_filter_le (p : Project.t -> bool) (l : DataFrame) :
  Forall (fun r => nonneg_or_missing (f r)) l ->
  0 <= qsum (map f (filter p l)) /\ qsum (map f (filter p l)) <= qsum (map f l).
Proof.
  induction 1 as [|r l Hr Hl IH]; simpl.
  - split; apply Qle_refl.
  - apply nonneg_or_missing_qval in Hr.
    destruct (p r); simpl; lra.
Qed.

Lemma column_sum_value (l : DataFrame) :
  Forall (fun r => nonneg_or_missing (f r)) l ->
  exists q, column_sum f l = Fin q /\ q == qsum (map f l).
Proof.
  intro H. apply nansum_qsum.
  apply Forall_forall. intros x Hx. apply in_map_iff in Hx.
  destruct Hx as [r [<- Hr]]. rewrite Forall_forall in H.
  apply nonneg_or_missing_finite, H, Hr.
Qed.

Lemma Forall_filter_keep (P : Project.t -> Prop) (p : Project.t -> bool) (l : DataFrame) :
  Forall P l -> Forall P (filter p l).
Proof.
  intro H. rewrite Forall_forall in *. intros r Hr.
  apply filter_In in Hr. apply H, Hr.
Qed.

(** The sum of a column over a part of the frame, against the whole. *)
Lemma column_sum_part (p : Project.t -> bool) (l : DataFrame) :
  Forall (fun r => nonneg_or_missing (f r)) l ->
  exists a t,
    column_sum f (filter p l) = Fin a /\ column_sum f l = Fin t /\
    0 <= a /\ a <= t.
Proof.
  intro H.
  destruct (column_sum_value l H) as [t [Et Ht]].
  destruct (column_sum_value (filter p l) (Forall_filter_keep _ p l H)) as [a [Ea Ha]].
  exists a, t. split; [exact Ea|]. split; [exact Et|].
  destruct (qsum_filter_le p l H) as [H1 H2].
  rewrite Ha, Ht. split; assumption.
Qed.

End ColumnSums.

Lemma ratio_in_range (a t : Q) :
  0 <= a -> a <= t -> 0 < t -> 0 <= a / t * 100 /\ a / t * 100 <= 100.
Proof.
  intros Ha Hat Ht.
  assert (H0 : 0 <= a / t).
  { apply Qle_shift_div_l; [exact Ht|]. rewrite Qmult_0_l. exact Ha. }
  assert (H1 : a / t <= 1).
  { apply Qle_shift_div_r; [exact Ht|]. rewrite Qmult_1_l. exact Hat. }
  split; lra.
Qed.

Lemma percent_in_range (a t : Q) :
  0 <= a -> a <= t -> 0 < t ->
  in_0_100 (num_mul (num_div (Fin a) (Fin t)) (Fin 100)).
Proof.
  intros Ha Hat Ht. simpl.
  assert (Z : Qeq_bool t 0 = false).
  { apply Qeq_bool_false. intro E. rewrite E in Ht. exact (Qlt_irrefl _ Ht). }
  rewrite Z. simpl. apply ratio_in_range; assumption.
Qed.

(** The weighted combination of three scores within 0 to 100 is within 0
    to 100: the weights 0.3, 0.3 and 0.4 are not negative and add up to 1. *)
Lemma weighted_score_in_range (b a o : num) :
  in_0_100 b -> in_0_100 a -> in_0_100 o -> in_0_100 (weighted_score b a o).
Proof.
  destruct b as [b| |], a as [a| |], o as [o| |]; simpl; try tauto.
  intros [Hb0 Hb1] [Ha0 Ha1] [Ho0 Ho1]. split; lra.
Qed.

Lemma record_nonneg_budget (l : DataFrame) :
  Forall record_nonneg l ->
  Forall (fun r => nonneg_or_missing (Project.total_budget r)) l.
Proof. apply Forall_impl. intros r [H _]. exact H. Qed.

Lemma record_nonneg_kpi (k : kpi) (l : DataFrame) :
  Forall record_nonneg l ->
  Forall (fun r => nonneg_or_missing (project_kpi k r)) l.
Proof. apply Forall_impl. intros r [_ H]. apply H. Qed.

Lemma research_output_part (p : Project.t -> bool) (l : DataFrame) :
  Forall record_nonneg l ->
  exists o t,
    research_output_of (filter p l) = Fin o /\ research_output_of l = Fin t /\
    0 <= o /\ o <= t.
Proof.
  intro H. unfold research_output_of.
  destruct (column_sum_part Project.journal_articles p l (record_nonneg_kpi JournalArticles l H))
    as [a1 [t1 [-> [-> [H1 G1]]]]].
  destruct (column_sum_part Project.conference_papers p l (record_nonneg_kpi ConferencePapers l H))
    as [a2 [t2 [-> [-> [H2 G2]]]]].
  destruct (column_sum_part Project.book_chapters p l (record_nonneg_kpi BookChapters l H))
    as [a3 [t3 [-> [-> [H3 G3]]]]].
  destruct (column_sum_part Project.technology_demonstrators p l (record_nonneg_kpi TechnologyDemonstrators l H))
    as [a4 [t4 [-> [-> [H4 G4]]]]].
  simpl. do 2 eexists. split; [reflexivity|]. split; [reflexivity|].
  split; lra.
Qed.

Lemma activity_in_range (active total : nat) :
  (active <= total)%nat ->
  in_0_100 (if Nat.ltb 0 total
            then num_mul (num_div (of_nat active) (of_nat total)) (Fin 100)
            else Fin 0).
Proof.
  intro H. destruct (Nat.ltb 0 total) eqn:E.
  - apply Nat.ltb_lt in E. unfold of_nat. apply percent_in_range.
    + rewrite <- (Zle_Qle 0). lia.
    + rewrite <- Zle_Qle. lia.
    + rewrite <- (Zlt_Qlt 0). lia.
  - simpl. split; lra.
Qed.

(** On float64 columns: with records that are not negative and a positive
    total budget, the three component scores and the performance score of
    every domain lie within 0 to 100. *)
Lemma scores_in_range_float :
  forall (df : DataFrame) (ms : list Metric.t) (m : Metric.t),
    Forall record_nonneg df ->
    num_gt0 (column_sum Project.total_budget df) = true ->
    domain_metrics df = Returns ms ->
    In m ms ->
    in_0_100 (Metric.budget_score m) /\
    in_0_100 (Metric.activity_score m) /\
    in_0_100 (Metric.output_score m) /\
    in_0_100 (Metric.performance_score m).
Proof.
  intros df ms m Hdf Hpos Hms Hm.
  rewrite domain_metrics_returns in Hms. injection Hms as <-.
  apply in_map_iff in Hm. destruct Hm as [d [<- _]].
  assert (Hb : in_0_100 (Metric.budget_score (domain_metric_value df d))).
  { simpl.
    destruct (column_sum_part _ (domain_mask d) df (record_nonneg_budget df Hdf))
      as [a [t [-> [Et [Ha Hat]]]]].
    rewrite Et in Hpos |- *. simpl in Hpos. apply Qlt_bool_iff in Hpos.
    apply percent_in_range; assumption. }
  assert (Ha : in_0_100 (Metric.activity_score (domain_metric_value df d))).
  { simpl. apply activity_in_range. apply filter_length_le. }
  assert (Ho : in_0_100 (Metric.output_score (domain_metric_value df d))).
  { simpl.
    destruct (research_output_part (domain_mask d) df Hdf)
      as [o [t [-> [-> [H0 Hot]]]]].
    simpl. destruct (Qlt_bool 0 o) eqn:E.
    - apply Qlt_bool_iff in E. apply percent_in_range; try assumption.
      eapply Qlt_le_trans; eassumption.
    - simpl. split; lra. }
  split; [exact Hb|]. split; [exact Ha|]. split; [exact Ho|].
  exact (weighted_score_in_range _ _ _ Hb Ha Ho).
Qed.

(** With a total budget of 0 no budget score is 0: the quotient by the
    total is NaN or an infinity, and so is the score. *)
Lemma budget_score_zero_total (df : DataFrame) (ms : list Metric.t) (m : Metric.t) :
  num_eq (column_sum Project.total_budget df) (Fin 0) ->
  domain_metrics df = Returns ms ->
  In m ms ->
  forall q, Metric.budget_score m <> Fin q.
Proof.
  intros Hz Hms Hm q.
  rewrite domain_metrics_returns in Hms. injection Hms as <-.
  apply in_map_iff in Hm. destruct Hm as [d [<- _]]. simpl.
  destruct (column_sum Project.total_budget df) as [t| |]; simpl in Hz; try contradiction.
  assert (Z : Qeq_bool t 0 = true) by (apply Qeq_bool_iff; exact Hz).
  destruct (column_sum Project.total_budget (filter (domain_mask d) df)) as [a|s|];
    simpl; rewrite ?Z.
  - destruct (Qeq_bool a 0); simpl; discriminate.
  - discriminate.
  - discriminate.
Qed.

(** C4: on a frame whose total budget is 0 the budget score of its domain
    is NaN, not 0: the quotient by the total is taken without a guard. *)
Theorem C4_budget_score_unguarded :
  column_sum Project.total_budget unfunded = Fin 0 /\
  exists m,
    domain_metrics unfunded = Returns [m] /\
    Metric.budget_score m = NaN /\
    ~ num_eq (Metric.budget_score m) (Fin 0).
Proof.
  split; [reflexivity|].
  eexists. split; [reflexivity|]. split; [reflexivity|].
  simpl. tauto.
Qed.

(** C3: the frame of one project with budget 0 is not empty and not
    negative, and the performance score of its domain is NaN, which is not
    within 0 to 100. *)
Theorem C3_unfunded_score_out_of_range :
  unfunded <> [] /\
  Forall record_nonneg unfunded /\
  exists m,
    domain_metrics unfunded = Returns [m] /\
    Metric.performance_score m = NaN /\
    ~ in_0_100 (Metric.performance_score m).
Proof.
  split; [discriminate|]. split.
  - records_nonneg.
  - eexists. split; [reflexivity|]. split; [reflexivity|].
    simpl. tauto.
Qed.

(** ** Sorted keys are determined by their members *)

Section SortedKeysUnique.
Context {K : Type} (cmp : K -> K -> comparison).
Hypothesis cmp_eq : forall a b, cmp a b = Eq <-> a = b.
Hypothesis cmp_trans : forall a b c, cmp a b = Lt -> cmp b c = Lt -> cmp a c = Lt.

Lemma cmp_lt_irrefl (a : K) : ~ cmp_lt cmp a a.
Proof.
  unfold cmp_lt. intro H.
  assert (E : cmp a a = Eq) by (apply cmp_eq; reflexivity).
  congruence.
Qed.

Lemma sorted_same_members (l1 : list K) :
  forall l2,
    StronglySorted (cmp_lt cmp) l1 -> StronglySorted (cmp_lt cmp) l2 ->
    (forall x, In x l1 <-> In x l2) -> l1 = l2.
Proof.
  induction l1 as [|a l1 IH]; intros l2 H1 H2 Hm.
  - destruct l2 as [|b l2]; [reflexivity|].
    exfalso. apply (proj2 (Hm b)). left. reflexivity.
  - destruct l2 as [|b l2].
    { exfalso. apply (proj1 (Hm a)). left. reflexivity. }
    inversion H1 as [|? ? S1 F1]; subst. inversion H2 as [|? ? S2 F2]; subst.
    rewrite Forall_forall in F1, F2.
    assert (E : a = b).
    { destruct (proj1 (Hm a) (or_introl eq_refl)) as [E|Ha]; [symmetry; exact E|].
      destruct (proj2 (Hm b) (or_introl eq_refl)) as [E|Hb]; [exact E|].
      exfalso. apply (cmp_lt_irrefl a).
      exact (cmp_trans _ _ _ (F1 b Hb) (F2 a Ha)). }
    subst b. f_equal. apply IH; try assumption.
    intro x. split; intro Hx.
    + destruct (proj1 (Hm x) (or_intror Hx)) as [E|Hx']; [|exact Hx'].
      subst x. exfalso. exact (cmp_lt_irrefl a (F1 a Hx)).
    + destruct (proj2 (Hm x) (or_intror Hx)) as [E|Hx']; [|exact Hx'].
      subst x. exfalso. exact (cmp_lt_irrefl a (F2 a Hx)).
Qed.

End SortedKeysUnique.

Lemma string_keys_sorted (ks : list string) :
  StronglySorted string_lt (sorted_unique String.compare ks).
Proof.
  apply sorted_unique_sorted.
  - exact string_compare_eq.
  - exact string_compare_antisym.
  - exact string_compare_trans.
Qed.

Lemma pair_keys_sorted (ks : list (string * string)) :
  StronglySorted pair_lt (sorted_unique pair_compare ks).
Proof.
  apply sorted_unique_sorted.
  - exact pair_compare_eq.
  - exact pair_compare_antisym.
  - exact pair_compare_trans.
Qed.

Lemma string_keys_same_members (l1 l2 : list string) :
  (forall x, In x l1 <-> In x l2) ->
  sorted_unique String.compare l1 = sorted_unique String.compare l2.
Proof.
  intro H.
  apply (sorted_same_members String.compare string_compare_eq string_compare_trans).
  - apply string_keys_sorted.
  - apply string_keys_sorted.
  - intro x. rewrite !(sorted_unique_In _ string_compare_eq). apply H.
Qed.

Lemma pair_keys_same_members (l1 l2 : list (string * string)) :
  (forall x, In x l1 <-> In x l2) ->
  sorted_unique pair_compare l1 = sorted_unique pair_compare l2.
Proof.
  intro H.
  apply (sorted_same_members pair_compare pair_compare_eq pair_compare_trans).
  - apply pair_keys_sorted.
  - apply pair_keys_sorted.
  - intro x. rewrite !(sorted_unique_In _ pair_compare_eq). apply H.
Qed.

(** ** Distinct values in order of first appearance *)

Lemma key_eqb_eq (a b : option string) : key_eqb a b = true <-> a = b.
Proof.
  destruct a as [s|], b as [t|]; simpl.
  - rewrite String.eqb_eq. split; congruence.
  - split; discriminate.
  - split; discriminate.
  - tauto.
Qed.

Lemma unique_In (l : list (option string)) (x : option string) :
  In x (unique l) <-> In x l.
Proof.
  induction l as [|a l IH]; simpl; [tauto|].
  rewrite filter_In, IH. split.
  - intros [H|[H _]]; auto.
  - intros [H|H]; [left; exact H|].
    destruct (key_eqb a x) eqn:E.
    + left. apply key_eqb_eq. exact E.
    + right. split; [exact H|]. reflexivity.
Qed.

Lemma unique_NoDup (l : list (option string)) : NoDup (unique l).
Proof.
  induction l as [|a l IH]; simpl; constructor.
  - intro H. apply filter_In in H. destruct H as [_ H].
    assert (E : key_eqb a a = true) by (apply key_eqb_eq; reflexivity).
    rewrite E in H. discriminate.
  - apply NoDup_filter. exact IH.
Qed.

Lemma domain_keys_column (df : DataFrame) (d : string) :
  In d (domain_keys df) <-> In (Some d) (map Project.domain df).
Proof.
  rewrite domain_keys_In, in_map_iff. split.
  - intros [r [H1 H2]]. exists r. auto.
  - intros [r [H1 H2]]. exists r. auto.
Qed.

Lemma programme_names_In (df : DataFrame) (p : string) :
  In p (programme_names df) <-> exists r, In r df /\ Project.programme r = Some p.
Proof.
  unfold programme_names. rewrite in_flat_map. split.
  - intros [r [Hr Hp]]. exists r. split; [exact Hr|].
    destruct (Project.programme r) as [s|]; simpl in Hp; [|contradiction].
    destruct Hp as [->|[]]. reflexivity.
  - intros [r [Hr Hp]]. exists r. split; [exact Hr|].
    rewrite Hp. simpl. auto.
Qed.

Lemma present_values_In (l : list (option string)) (x : option string) :
  In x (filter (@is_some string) (unique l)) <-> exists s, x = Some s /\ In x l.
Proof.
  rewrite filter_In, unique_In. split.
  - intros [H1 H2]. destruct x as [s|]; [|discriminate]. exists s. auto.
  - intros [s [-> H]]. auto.
Qed.

Lemma some_injective (a b : string) : Some a = Some b -> a = b.
Proof. congruence. Qed.

(** ** Counting domains and programmes *)

Lemma domain_rows_length (df : DataFrame) :
  List.length (map with_costs (group_by_domain df)) =
  List.length (sorted_unique String.compare (domain_keys df)).
Proof. unfold group_by_domain. rewrite !length_map. reflexivity. Qed.

Lemma distinct_domains_length (df : DataFrame) :
  List.length (sorted_unique String.compare (domain_keys df)) =
  nunique (map Project.domain df).
Proof.
  unfold nunique.
  rewrite <- (length_map (@Some string)).
  apply Permutation_length. apply NoDup_Permutation.
  - apply NoDup_map_injective; [exact some_injective|].
    apply sorted_unique_NoDup.
    + exact string_compare_eq.
    + exact string_compare_antisym.
    + exact string_compare_trans.
  - apply NoDup_filter, unique_NoDup.
  - intro x. rewrite present_values_In, in_map_iff. split.
    + intros [d [<- Hd]]. exists d. split; [reflexivity|].
      apply domain_keys_column.
      apply (sorted_unique_In _ string_compare_eq). exact Hd.
    + intros [d [-> Hd]]. exists d. split; [reflexivity|].
      apply (sorted_unique_In _ string_compare_eq).
      apply domain_keys_column. exact Hd.
Qed.

(** The figure "Number of Domains" of the overview is the number of rows
    of the domain level and the number of slices of the domain pie. *)
Theorem num_domains_counts_domain_rows :
  forall df : DataFrame,
  exists rows,
    process_kpi_data df "domain" = Returns rows /\
    List.length rows = Main.num_domains df /\
    List.length (domain_budget df) = Main.num_domains df.
Proof.
  intro df. exists (map with_costs (group_by_domain df)).
  split; [apply process_kpi_data_returns|]. unfold Main.num_domains. split.
  - rewrite domain_rows_length. apply distinct_domains_length.
  - unfold domain_budget. rewrite length_map. apply distinct_domains_length.
Qed.

(** When every record has a domain, the figure "Total Programmes" of the
    overview, which counts distinct programme names, is at most the number
    of rows of the programme level, which counts distinct pairs of domain
    and programme. *)
Theorem total_programmes_at_most_programme_rows :
  forall df : DataFrame,
    Forall (fun r => has_domain r = true) df ->
    exists rows,
      process_kpi_data df "programme" = Returns rows /\
      (Main.total_programmes df <= List.length rows)%nat.
Proof.
  intros df Hdom. exists (map with_costs (group_by_programme df)).
  split; [apply process_kpi_data_returns|].
  unfold group_by_programme, Main.total_programmes, nunique.
  rewrite !length_map.
  rewrite <- (length_map (fun dp : string * string => Some (snd dp))).
  apply NoDup_incl_length; [apply NoDup_filter, unique_NoDup|].
  intros x Hx. apply present_values_In in Hx. destruct Hx as [p [-> Hp]].
  apply in_map_iff in Hp. destruct Hp as [r [Hp Hr]].
  rewrite Forall_forall in Hdom. specialize (Hdom r Hr).
  unfold has_domain in Hdom.
  destruct (Project.domain r) as [d|] eqn:Ed; [|discriminate].
  apply in_map_iff. exists (d, p). split; [reflexivity|].
  apply (sorted_unique_In _ pair_compare_eq). apply programme_keys_In.
  exists r. auto.
Qed.

Lemma total_programmes_at_most_programme_rows_witness :
  exists rows,
    process_kpi_data shared_programme_name "programme" = Returns rows /\
    (Main.total_programmes shared_programme_name <= List.length rows)%nat /\
    Main.total_programmes shared_programme_name = 1%nat /\
    List.length rows = 2%nat.
Proof.
  destruct (total_programmes_at_most_programme_rows shared_programme_name)
    as [rows [Hrows Hle]].
  - repeat constructor.
  - exists rows. split; [exact Hrows|]. split; [exact Hle|].
    split; [reflexivity|].
    assert (E : process_kpi_data shared_programme_name "programme" =
                Returns (map with_costs (group_by_programme shared_programme_name)))
      by apply process_kpi_data_returns.
    rewrite E in Hrows. injection Hrows as <-. reflexivity.
Defined.

(** ** The entries of the scores *)





(** ** The domain view of [main] *)

Lemma filter_filter {A : Type} (p q : A -> bool) (l : list A) :
  filter q (filter p l) = filter (fun x => p x && q x) l.
Proof.
  induction l as [|a l IH]; simpl; [reflexivity|].
  destruct (p a); simpl; [|exact IH].
  destruct (q a); simpl; congruence.
Qed.

Lemma filter_twice {A : Type} (p : A -> bool) (l : list A) :
  filter p (filter p l) = filter p l.
Proof.
  rewrite filter_filter. apply filter_ext. intro a. destruct (p a); reflexivity.
Qed.

Lemma filtered_domain_keys (df : DataFrame) (d x : string) :
  Main.filtered_df df (Some d) <> [] ->
  In x (domain_keys (Main.filtered_df df (Some d))) <-> In x [d].
Proof.
  intro Hne. unfold Main.filtered_df in *. rewrite domain_keys_In. simpl. split.
  - intros [r [Hr Hx]]. apply filter_In in Hr. destruct Hr as [_ Hr].
    simpl in Hr. apply key_is_iff in Hr. left. congruence.
  - intros [<-|[]].
    destruct (filter (domain_mask (Some d)) df) as [|r l] eqn:E; [contradiction|].
    exists r. split; [left; reflexivity|].
    assert (Hr : In r (filter (domain_mask (Some d)) df)) by (rewrite E; left; reflexivity).
    apply filter_In in Hr. destruct Hr as [_ Hr]. simpl in Hr.
    apply key_is_iff. exact Hr.
Qed.

(** After the selection of a domain that has records, the domain level
    yields exactly one row; it bears the name of the domain and its budget
    is the figure "Domain Budget" of the domain view. *)
Theorem domain_view_single_row :
  forall (df : DataFrame) (d : string),
    Main.filtered_df df (Some d) <> [] ->
    exists r,
      process_kpi_data (Main.filtered_df df (Some d)) "domain" = Returns [r] /\
      Kpi.name r = Some d /\
      Kpi.total_budget r = Main.domain_budget (Main.filtered_df df (Some d)).
Proof.
  intros df d Hne.
  rewrite process_kpi_data_returns, grouped_domain. unfold group_by_domain.
  rewrite (string_keys_same_members _ [d] (fun x => filtered_domain_keys df d x Hne)).
  simpl. eexists. split; [reflexivity|]. split; [reflexivity|].
  unfold Kpi.total_budget, Main.domain_budget, column_sum, Main.filtered_df. simpl.
  change (in_domain d) with (domain_mask (Some d)).
  rewrite filter_twice. reflexivity.
Qed.

Lemma domain_view_single_row_witness :
  exists r,
    process_kpi_data (Main.filtered_df shared_programme_name (Some "Space"%string))
                     "domain" = Returns [r] /\
    Kpi.name r = Some "Space"%string /\
    Kpi.total_budget r =
      Main.domain_budget (Main.filtered_df shared_programme_name (Some "Space"%string)).
Proof.
  apply (domain_view_single_row shared_programme_name "Space"). discriminate.
Defined.

(** ** The budget pies *)

Lemma filter_map_comm {A B : Type} (p : B -> bool) (f : A -> B) (l : list A) :
  filter p (map f l) = map f (filter (fun a => p (f a)) l).
Proof.
  induction l as [|a l IH]; simpl; [reflexivity|].
  destruct (p (f a)); simpl; congruence.
Qed.

Lemma StronglySorted_filter {A : Type} (R : A -> A -> Prop) (p : A -> bool) (l : list A) :
  StronglySorted R l -> StronglySorted R (filter p l).
Proof.
  induction 1 as [|a l Hs IH Ha]; simpl; [constructor|].
  destruct (p a); [|exact IH].
  constructor; [exact IH|].
  rewrite Forall_forall in *. intros x Hx. apply filter_In in Hx. apply Ha, Hx.
Qed.

Lemma programmes_of_domain_sorted (d : string) (ks : list (string * string)) :
  StronglySorted pair_lt ks ->
  (forall dp, In dp ks -> fst dp = d) ->
  StronglySorted string_lt (map snd ks).
Proof.
  induction 1 as [|a ks Hs IH Ha]; intro Hd; simpl; constructor.
  - apply IH. intros dp H. apply Hd. right. exact H.
  - rewrite Forall_forall in *. intros x Hx.
    apply in_map_iff in Hx. destruct Hx as [dp [<- Hdp]].
    specialize (Ha dp Hdp). unfold pair_lt, cmp_lt, pair_compare in Ha.
    rewrite (Hd a (or_introl eq_refl)), (Hd dp (or_intror Hdp)) in Ha.
    assert (E : String.compare d d = Eq) by (apply string_compare_eq; reflexivity).
    rewrite E in Ha. exact Ha.
Qed.

Lemma programmes_of_domain (df : DataFrame) (d : string) :
  sorted_unique String.compare (programme_names (filter (domain_mask (Some d)) df)) =
  map snd (filter (fun dp => String.eqb (fst dp) d)
                  (sorted_unique pair_compare (programme_keys df))).
Proof.
  apply (sorted_same_members String.compare string_compare_eq string_compare_trans).
  - apply string_keys_sorted.
  - apply (programmes_of_domain_sorted d).
    + apply StronglySorted_filter, pair_keys_sorted.
    + intros dp H. apply filter_In in H. apply String.eqb_eq, H.
  - intro p. rewrite (sorted_unique_In _ string_compare_eq), programme_names_In.
    rewrite in_map_iff. split.
    + intros [r [Hr Hp]]. apply filter_In in Hr. destruct Hr as [Hr Hd].
      simpl in Hd. apply key_is_iff in Hd.
      exists (d, p). split; [reflexivity|]. apply filter_In. split.
      * apply (sorted_unique_In _ pair_compare_eq). apply programme_keys_In.
        exists r. auto.
      * apply String.eqb_refl.
    + intros [[d' p'] [E H]]. simpl in E. subst p'.
      apply filter_In in H. destruct H as [H Hd]. simpl in Hd.
      apply String.eqb_eq in Hd. subst d'.
      apply (proj1 (sorted_unique_In _ pair_compare_eq _ _)) in H.
      apply (proj1 (programme_keys_In _ _ _)) in H. destruct H as [r [Hr [Hd Hp]]].
      exists r. split; [|exact Hp]. apply filter_In. split; [exact Hr|].
      simpl. apply key_is_iff. exact Hd.
Qed.

(** The pie of the programmes of a domain shows the rows the programme
    level has for that domain: the same programmes in the same order with
    the same budgets. *)
Theorem programme_pie_matches_programme_rows :
  forall (df : DataFrame) (d : string),
  exists rows,
    process_kpi_data df "programme" = Returns rows /\
    map (fun s => (Some d, Some (fst s), snd s)) (programme_budget df (Some d)) =
    map programme_slice (filter (fun r => key_is d (Kpi.domain r)) rows).
Proof.
  intros df d. exists (map with_costs (group_by_programme df)).
  split; [apply process_kpi_data_returns|].
  unfold group_by_programme, programme_budget.
  rewrite (map_map _ with_costs), filter_map_comm, !map_map.
  change (fun a : string * string =>
            key_is d (Kpi.domain (with_costs
              (agg_sum (Some (fst a)) (Some (snd a)) (filter (in_programme a) df)))))
    with (fun dp : string * string => String.eqb (fst dp) d).
  rewrite programmes_of_domain, map_map.
  apply map_ext_in. intros [d' p] H. simpl.
  apply filter_In in H. destruct H as [_ H]. simpl in H.
  apply String.eqb_eq in H. subst d'.
  unfold programme_slice, Kpi.domain, Kpi.name, Kpi.total_budget, column_sum. simpl.
  rewrite filter_filter. reflexivity.
Qed.

Lemma has_programme_name_unique (k k' : string) (r : Project.t) :
  has_programme_name k r = true -> has_programme_name k' r = true -> k = k'.
Proof. unfold has_programme_name. rewrite !key_is_iff. congruence. Qed.

Lemma string_keys_NoDup (ks : list string) : NoDup (sorted_unique String.compare ks).
Proof.
  apply sorted_unique_NoDup.
  - exact string_compare_eq.
  - exact string_compare_antisym.
  - exact string_compare_trans.
Qed.

Lemma Forall_filter_rows {A : Type} (P : A -> Prop) (p : A -> bool) (l : list A) :
  Forall P l -> Forall P (filter p l).
Proof.
  intro H. rewrite Forall_forall in *. intros r Hr.
  apply filter_In in Hr. apply H, Hr.
Qed.

(** The domain pie has one slice per distinct non-null domain of the
    records, the labels in strictly ascending order; the value of a slice
    is the budget sum of the records of its domain; and with budgets that
    are finite or missing the slices add up to the budget of the records
    that have a domain. *)
Theorem domain_pie_total :
  forall df : DataFrame,
    Forall (fun r => finite_or_missing (Project.total_budget r)) df ->
    StronglySorted string_lt (map fst (domain_budget df)) /\
    (forall d, In d (map fst (domain_budget df)) <->
               exists r, In r df /\ Project.domain r = Some d) /\
    (forall d v, In (d, v) (domain_budget df) <->
                 (exists r, In r df /\ Project.domain r = Some d) /\
                 v = column_sum Project.total_budget
                       (filter (domain_mask (Some d)) df)) /\
    num_eq (nansum (map snd (domain_budget df)))
           (column_sum Project.total_budget (filter has_domain df)).
Proof.
  intros df Hfin.
  assert (Hl : map fst (domain_budget df) =
               sorted_unique String.compare (domain_keys df)).
  { unfold domain_budget. rewrite map_map. simpl. apply map_id. }
  split; [|split; [|split]].
  - rewrite Hl. apply string_keys_sorted.
  - intro d. rewrite Hl, (sorted_unique_In _ string_compare_eq).
    apply domain_keys_In.
  - intros d v. unfold domain_budget. rewrite in_map_iff. split.
    + intros [d' [E H]]. injection E as -> <-. split; [|reflexivity].
      apply (proj1 (sorted_unique_In _ string_compare_eq _ _)) in H.
      apply domain_keys_In. exact H.
    + intros [H ->]. exists d. split; [reflexivity|].
      apply (sorted_unique_In _ string_compare_eq). apply domain_keys_In. exact H.
  - unfold domain_budget. rewrite !map_map. simpl.
    eapply num_eq_trans.
    + apply (nansum_group_sums Project.total_budget in_domain in_domain_unique).
      * exact Hfin.
      * apply string_keys_NoDup.
    + unfold column_sum, has_domain.
      rewrite (filter_ext_in _ _ df (domain_groups_cover df)). apply num_eq_refl.
Qed.

Lemma domain_pie_total_witness :
  map fst (domain_budget shared_programme_name) = ["AI"; "Space"]%string /\
  Forall2 num_eq (map snd (domain_budget shared_programme_name)) [Fin 20; Fin 15] /\
  num_eq (nansum (map snd (domain_budget shared_programme_name)))
         (column_sum Project.total_budget (filter has_domain shared_programme_name)).
Proof.
  split; [reflexivity|].
  split; [repeat constructor|].
  apply (domain_pie_total shared_programme_name). repeat constructor.
Defined.

(** When every record of a domain has a programme and the budgets are
    finite or missing, the slices of the programme pie of that domain add
    up to the slice the domain has in the domain pie. *)
Theorem programme_pie_adds_up_to_domain_slice :
  forall (df : DataFrame) (d : string) (v : num),
    Forall (fun r => finite_or_missing (Project.total_budget r)) df ->
    (forall r, In r df -> Project.domain r = Some d -> Project.programme r <> None) ->
    In (d, v) (domain_budget df) ->
    num_eq (nansum (map snd (programme_budget df (Some d)))) v.
Proof.
  intros df d v Hfin Hprog Hv.
  unfold domain_budget in Hv. apply in_map_iff in Hv.
  destruct Hv as [d' [E _]]. injection E as -> <-.
  unfold programme_budget. rewrite map_map. simpl.
  set (l := filter (domain_mask (Some d)) df).
  eapply num_eq_trans.
  - apply (nansum_group_sums Project.total_budget has_programme_name
             has_programme_name_unique).
    + apply Forall_filter_rows. exact Hfin.
    + apply string_keys_NoDup.
  - assert (Hall : forall r, In r l ->
              existsb (fun k => has_programme_name k r)
                      (sorted_unique String.compare (programme_names l)) = true).
    { intros r Hr. pose proof Hr as Hr'. unfold l in Hr'.
      apply filter_In in Hr'. destruct Hr' as [Hdf Hd].
      simpl in Hd. apply key_is_iff in Hd.
      destruct (Project.programme r) as [p|] eqn:Ep.
      - apply existsb_exists. exists p. split.
        + apply (sorted_unique_In _ string_compare_eq). apply programme_names_In.
          exists r. auto.
        + unfold has_programme_name. rewrite Ep. simpl. apply String.eqb_refl.
      - exfalso. exact (Hprog r Hdf Hd Ep). }
    rewrite (filter_ext_in _ (fun _ => true) l Hall), filter_all.
    apply num_eq_refl.
Qed.

Lemma programme_pie_adds_up_to_domain_slice_witness :
  exists v,
    In ("Space"%string, v) (domain_budget shared_programme_name) /\
    num_eq (nansum (map snd (programme_budget shared_programme_name (Some "Space"%string)))) v.
Proof.
  eexists. split; [right; left; reflexivity|].
  apply (programme_pie_adds_up_to_domain_slice shared_programme_name "Space").
  - repeat constructor.
  - intros r [<-|[<-|[<-|[]]]] _; discriminate.
  - right. left. reflexivity.
Defined.

(** ** What the rows of the KPI frame keep *)

Lemma column_sum_nonneg (f : Project.t -> num) (l : DataFrame) :
  Forall (fun r => nonneg_or_missing (f r)) l ->
  exists q, nansum (map f l) = Fin q /\ 0 <= q.
Proof.
  intro H. destruct (column_sum_value f l H) as [q [E Hq]].
  exists q. split; [exact E|]. rewrite Hq. apply qsum_nonneg. exact H.
Qed.

Lemma guarded_div_nonneg (b c : Q) :
  0 <= b -> 0 <= c -> nonneg (guarded_div (Fin b) (Fin c)).
Proof.
  intros Hb Hc. unfold guarded_div. simpl.
  destruct (Qlt_bool 0 c) eqn:E; simpl; [|apply Qle_refl].
  apply Qlt_bool_iff in E.
  assert (Z : Qeq_bool c 0 = false).
  { apply Qeq_bool_false. intro Z. rewrite Z in E. exact (Qlt_irrefl _ E). }
  rewrite Z. simpl.
  apply Qle_shift_div_l; [exact E|]. rewrite Qmult_0_l. exact Hb.
Qed.

Lemma agg_sum_nonneg (dom name : option string) (l : DataFrame) :
  Forall record_nonneg l -> row_nonneg (with_costs (agg_sum dom name l)).
Proof.
  intro H.
  destruct (column_sum_nonneg Project.total_budget l (record_nonneg_budget l H))
    as [b [Eb Hb]].
  destruct (column_sum_nonneg Project.journal_articles l
              (record_nonneg_kpi JournalArticles l H)) as [c1 [E1 H1]].
  destruct (column_sum_nonneg Project.conference_papers l
              (record_nonneg_kpi ConferencePapers l H)) as [c2 [E2 H2]].
  destruct (column_sum_nonneg Project.book_chapters l
              (record_nonneg_kpi BookChapters l H)) as [c3 [E3 H3]].
  destruct (column_sum_nonneg Project.technology_demonstrators l
              (record_nonneg_kpi TechnologyDemonstrators l H)) as [c4 [E4 H4]].
  unfold row_nonneg, Kpi.total_budget, Kpi.column.
  split; [|split; [|split; [|split]]].
  - simpl. rewrite Eb. exact Hb.
  - intro k. destruct k; simpl; rewrite ?E1, ?E2, ?E3, ?E4; assumption.
  - intro k. rewrite with_costs_cost.
    destruct k; simpl; rewrite Eb, ?E1, ?E2, ?E3, ?E4;
      apply guarded_div_nonneg; assumption.
  - simpl. rewrite E1, E2, E3, E4. unfold nansum. simpl. lra.
  - simpl. rewrite Eb, E1, E2, E3, E4. unfold nansum. simpl.
    apply guarded_div_nonneg; [exact Hb|lra].
Qed.

(** ** The order of the records *)

Lemma qsum_filter_perm (f : Project.t -> num) (p : Project.t -> bool) (l l' : DataFrame) :
  Permutation l l' ->
  qsum (map f (filter p l)) == qsum (map f (filter p l')).
Proof.
  induction 1 as [|x l l' Hp IH|x y l|l l' l'' H1 IH1 H2 IH2]; simpl.
  - reflexivity.
  - destruct (p x); simpl; rewrite IH; reflexivity.
  - destruct (p x), (p y); simpl; ring.
  - rewrite IH1. exact IH2.
Qed.

Lemma record_finite_budget (l : DataFrame) :
  Forall record_finite l ->
  Forall (fun r => finite_or_missing (Project.total_budget r)) l.
Proof. apply Forall_impl. intros r [H _]. exact H. Qed.

Lemma record_finite_kpi (k : kpi) (l : DataFrame) :
  Forall record_finite l ->
  Forall (fun r => finite_or_missing (project_kpi k r)) l.
Proof. apply Forall_impl. intros r [_ H]. apply H. Qed.

Lemma nansum_filter_perm (f : Project.t -> num) (p : Project.t -> bool) (l l' : DataFrame) :
  Forall (fun r => finite_or_missing (f r)) l ->
  Permutation l l' ->
  num_eq (nansum (map f (filter p l))) (nansum (map f (filter p l'))).
Proof.
  intros Hl Hp.
  assert (Hl' : Forall (fun r => finite_or_missing (f r)) l')
    by (eapply Permutation_Forall; eassumption).
  eapply num_eq_trans; [apply nansum_num_eq, members_finite, Hl|].
  apply num_eq_sym.
  eapply num_eq_trans; [apply nansum_num_eq, members_finite, Hl'|].
  simpl. symmetry. apply qsum_filter_perm. exact Hp.
Qed.

Lemma agg_sum_perm (dom name : option string) (p : Project.t -> bool) (l l' : DataFrame) :
  Forall record_finite l ->
  Permutation l l' ->
  Grouped_eq (agg_sum dom name (filter p l)) (agg_sum dom name (filter p l')).
Proof.
  intros Hl Hp. split; [reflexivity|]. split; [reflexivity|]. split.
  - simpl. apply nansum_filter_perm; [apply record_finite_budget, Hl|exact Hp].
  - intro k. destruct k; simpl; apply nansum_filter_perm; try exact Hp.
    + exact (record_finite_kpi JournalArticles l Hl).
    + exact (record_finite_kpi ConferencePapers l Hl).
    + exact (record_finite_kpi BookChapters l Hl).
    + exact (record_finite_kpi TechnologyDemonstrators l Hl).
Qed.

Lemma domain_keys_perm (l l' : DataFrame) :
  Permutation l l' ->
  sorted_unique String.compare (domain_keys l) =
  sorted_unique String.compare (domain_keys l').
Proof.
  intro Hp. apply string_keys_same_members. intro x.
  rewrite !domain_keys_In. split; intros [r [Hr Hd]]; exists r; split; auto.
  - eapply Permutation_in; eassumption.
  - eapply Permutation_in; [apply Permutation_sym|]; eassumption.
Qed.

Lemma programme_keys_perm (l l' : DataFrame) :
  Permutation l l' ->
  sorted_unique pair_compare (programme_keys l) =
  sorted_unique pair_compare (programme_keys l').
Proof.
  intro Hp. apply pair_keys_same_members. intros [d p].
  rewrite !programme_keys_In. split; intros [r [Hr Hd]]; exists r; split; auto.
  - eapply Permutation_in; eassumption.
  - eapply Permutation_in; [apply Permutation_sym|]; eassumption.
Qed.

(** At the domain and the programme level the rows do not depend on the
    order of the records: with cells that are finite or missing, the same
    records in another order give the same rows in the same order. *)
Theorem rollups_independent_of_record_order :
  forall (df df' : DataFrame) (level : string),
    Permutation df df' ->
    Forall record_finite df ->
    level = "domain"%string \/ level = "programme"%string ->
    exists rows rows',
      process_kpi_data df level = Returns rows /\
      process_kpi_data df' level = Returns rows' /\
      Forall2 Kpi_eq rows rows'.
Proof.
  intros df df' level Hp Hfin Hlevel.
  do 2 eexists. rewrite !process_kpi_data_returns.
  split; [reflexivity|]. split; [reflexivity|].
  destruct Hlevel as [-> | ->].
  - rewrite !grouped_domain. unfold group_by_domain.
    rewrite <- (domain_keys_perm df df' Hp), !map_map.
    apply Forall2_map_same. intro d.
    apply with_costs_compat, agg_sum_perm; assumption.
  - rewrite !grouped_programme. unfold group_by_programme.
    rewrite <- (programme_keys_perm df df' Hp), !map_map.
    apply Forall2_map_same. intro dp.
    apply with_costs_compat, agg_sum_perm; assumption.
Qed.

Lemma rollups_independent_of_record_order_witness :
  exists rows rows',
    process_kpi_data unsorted_domains "domain" = Returns rows /\
    process_kpi_data (rev unsorted_domains) "domain" = Returns rows' /\
    Forall2 Kpi_eq rows rows'.
Proof.
  apply (rollups_independent_of_record_order unsorted_domains (rev unsorted_domains)).
  - apply Permutation_rev.
  - repeat (constructor;
            [split; [exact I|let k := fresh "k" in intro k; destruct k; exact I]|]).
    constructor.
  - left. reflexivity.
Defined.

(** ** The most efficient row *)

Lemma Qlt_bool_false (a b : Q) : Qlt_bool a b = false <-> b <= a.
Proof.
  split; intro H.
  - apply Qnot_lt_le. intro L. apply Qlt_bool_iff in L. congruence.
  - destruct (Qlt_bool a b) eqn:E; [|reflexivity].
    apply Qlt_bool_iff in E. exfalso. exact (Qlt_not_le _ _ E H).
Qed.

Lemma num_ltb_irrefl (a : num) : num_ltb a a = false.
Proof.
  destruct a as [p|s|]; simpl.
  - apply Qlt_bool_false. apply Qle_refl.
  - destruct s; reflexivity.
  - reflexivity.
Qed.

Lemma num_ltb_asym (a b : num) : num_ltb a b = true -> num_ltb b a = false.
Proof.
  destruct a as [p|s|], b as [q|t|]; simpl; try discriminate.
  - intro H. apply Qlt_bool_iff in H. apply Qlt_bool_false. apply Qlt_le_weak, H.
  - destruct t; simpl; congruence.
  - destruct s; simpl; congruence.
  - destruct s, t; simpl; congruence.
Qed.

(** Among values that are not NaN, "not below" is transitive. *)
Lemma num_ltb_false_trans (a b c : num) :
  b <> NaN ->
  num_ltb a b = false -> num_ltb b c = false -> num_ltb a c = false.
Proof.
  destruct a as [p|s|], b as [q|t|], c as [r|u|]; intro Hb;
    repeat match goal with x : bool |- _ => destruct x end;
    simpl; try reflexivity; try congruence.
  rewrite !Qlt_bool_false. intros H1 H2. eapply Qle_trans; eassumption.
Qed.

Lemma idxmin_none {A : Type} (f : A -> num) (rows : list A) :
  idxmin f rows = None <-> forall r, In r rows -> f r = NaN.
Proof.
  induction rows as [|r rs IH]; simpl.
  - split; [intros _ r []|reflexivity].
  - destruct (f r) as [p|s|] eqn:E.
    + split.
      * destruct (idxmin f rs) as [m|]; [|discriminate].
        destruct (num_ltb (f m) (Fin p)); discriminate.
      * intro H. specialize (H r (or_introl eq_refl)). congruence.
    + split.
      * destruct (idxmin f rs) as [m|]; [|discriminate].
        destruct (num_ltb (f m) (Inf s)); discriminate.
      * intro H. specialize (H r (or_introl eq_refl)). congruence.
    + rewrite IH. split.
      * intros H r' [<-|H']; [exact E|apply H, H'].
      * intros H r' H'. apply H. right. exact H'.
Qed.

Lemma idxmin_least {A : Type} (f : A -> num) (rows : list A) (m : A) :
  idxmin f rows = Some m ->
  In m rows /\ f m <> NaN /\
  forall r, In r rows -> f r <> NaN -> num_ltb (f r) (f m) = false.
Proof.
  revert m. induction rows as [|r rs IH]; simpl; intros m Hm; [discriminate|].
  assert (Skip : f r = NaN -> idxmin f rs = Some m ->
            In m (r :: rs) /\ f m <> NaN /\
            forall r', In r' (r :: rs) -> f r' <> NaN -> num_ltb (f r') (f m) = false).
  { intros E H. destruct (IH m H) as [H1 [H2 H3]].
    split; [right; exact H1|]. split; [exact H2|].
    intros r' [<-|H'] Hn; [contradiction|apply H3; assumption]. }
  assert (Keep : f r <> NaN ->
            match idxmin f rs with
            | None => Some r
            | Some m0 => if num_ltb (f m0) (f r) then Some m0 else Some r
            end = Some m ->
            In m (r :: rs) /\ f m <> NaN /\
            forall r', In r' (r :: rs) -> f r' <> NaN -> num_ltb (f r') (f m) = false).
  { intros Hr H. destruct (idxmin f rs) as [m0|] eqn:E0.
    - destruct (IH m0 eq_refl) as [H1 [H2 H3]].
      destruct (num_ltb (f m0) (f r)) eqn:L; injection H as <-.
      + split; [right; exact H1|]. split; [exact H2|].
        intros r' [<-|H'] Hn; [apply num_ltb_asym, L|apply H3; assumption].
      + split; [left; reflexivity|]. split; [exact Hr|].
        intros r' [<-|H'] Hn; [apply num_ltb_irrefl|].
        apply (num_ltb_false_trans _ (f m0)); [exact H2|apply H3; assumption|exact L].
    - injection H as <-.
      split; [left; reflexivity|]. split; [exact Hr|].
      intros r' [<-|H'] Hn; [apply num_ltb_irrefl|].
      exfalso. apply Hn. exact (proj1 (idxmin_none f rs) E0 r' H'). }
  destruct (f r) as [p|s|] eqn:E.
  - apply Keep; [discriminate|exact Hm].
  - apply Keep; [discriminate|exact Hm].
  - apply Skip; [reflexivity|exact Hm].
Qed.

Lemma num_gt0_not_nan (a : num) : num_gt0 a = true -> a <> NaN.
Proof. destruct a; simpl; congruence. Qed.

(** No row is named most efficient exactly when no row has a
    [cost_per_kpi] above 0. *)
Theorem most_efficient_none :
  forall kpi_df : list Kpi.t,
    Main.most_efficient kpi_df = None <->
    forall r, In r kpi_df -> num_gt0 (Kpi.cost_per_kpi r) = false.
Proof.
  intro kpi_df. unfold Main.most_efficient, Main.efficient_df.
  rewrite idxmin_none. split.
  - intros H r Hr. destruct (num_gt0 (Kpi.cost_per_kpi r)) eqn:E; [|reflexivity].
    exfalso. apply (num_gt0_not_nan _ E). apply H. apply filter_In. auto.
  - intros H r Hr. apply filter_In in Hr. destruct Hr as [Hr E].
    rewrite (H r Hr) in E. discriminate.
Qed.

(** The row named most efficient is a row of the frame with a
    [cost_per_kpi] above 0, and no row with a [cost_per_kpi] above 0 has
    a lower one: a cost of 0 never wins. *)
Theorem most_efficient_least_positive :
  forall (kpi_df : list Kpi.t) (m : Kpi.t),
    Main.most_efficient kpi_df = Some m ->
    In m kpi_df /\
    num_gt0 (Kpi.cost_per_kpi m) = true /\
    forall r, In r kpi_df -> num_gt0 (Kpi.cost_per_kpi r) = true ->
      num_ltb (Kpi.cost_per_kpi r) (Kpi.cost_per_kpi m) = false.
Proof.
  intros kpi_df m Hm. unfold Main.most_efficient, Main.efficient_df in Hm.
  destruct (idxmin_least _ _ _ Hm) as [H1 [_ H3]].
  apply filter_In in H1. destruct H1 as [H1 H2].
  split; [exact H1|]. split; [exact H2|].
  intros r Hr Hpos. apply H3.
  - apply filter_In. auto.
  - apply num_gt0_not_nan. exact Hpos.
Qed.

Lemma most_efficient_least_positive_witness :
  exists rows m,
    process_kpi_data shared_programme_name "programme" = Returns rows /\
    Main.most_efficient rows = Some m /\
    In m rows /\
    Kpi.domain m = Some "Space"%string /\
    num_gt0 (Kpi.cost_per_kpi m) = true.
Proof.
  do 2 eexists. split; [reflexivity|].
  assert (H : Main.most_efficient
                (map with_costs (grouped shared_programme_name "programme")) =
              Some (with_costs (agg_sum (Some "Space"%string) (Some "Sensors"%string)
                      (filter (in_programme ("Space", "Sensors")%string)
                              shared_programme_name))))
    by reflexivity.
  split; [exact H|].
  destruct (most_efficient_least_positive _ _ H) as [H1 [H2 _]].
  split; [exact H1|]. split; [reflexivity|exact H2].
Defined.

Lemma guarded_div_gt0 (b t : num) :
  num_gt0 (guarded_div b t) = true -> num_gt0 t = true /\ num_gt0 b = true.
Proof.
  unfold guarded_div. destruct (num_gt0 t) eqn:Ht; [|discriminate].
  intro H. split; [reflexivity|].
  destruct b as [p|s|], t as [q|u|]; simpl in *; try discriminate.
  - apply Qlt_bool_iff in Ht.
    assert (Z : Qeq_bool q 0 = false).
    { apply Qeq_bool_false. intro Z. rewrite Z in Ht. exact (Qlt_irrefl _ Ht). }
    rewrite Z in H. simpl in H. apply Qlt_bool_iff in H. apply Qlt_bool_iff.
    assert (E : p == p / q * q).
    { field. intro Z'. rewrite Z' in Ht. exact (Qlt_irrefl _ Ht). }
    rewrite E. apply Qmult_lt_0_compat; assumption.
  - apply Qlt_bool_iff in Ht.
    assert (L : Qlt_bool q 0 = false) by (apply Qlt_bool_false, Qlt_le_weak, Ht).
    rewrite L in H. destruct s; simpl in *; congruence.
Qed.

(** The row named most efficient among the rows of [process_kpi_data]
    has a budget above 0 and at least one output: an entity without
    output, or without budget, is never named. *)
Theorem most_efficient_has_budget_and_output :
  forall (df : DataFrame) (level : string) (rows : list Kpi.t) (m : Kpi.t),
    process_kpi_data df level = Returns rows ->
    Main.most_efficient rows = Some m ->
    num_gt0 (Kpi.total_budget m) = true /\ num_gt0 (Kpi.total_kpis m) = true.
Proof.
  intros df level rows m Hrows Hm.
  rewrite process_kpi_data_returns in Hrows. injection Hrows as <-.
  unfold Main.most_efficient, Main.efficient_df in Hm.
  destruct (idxmin_least _ _ _ Hm) as [H1 _].
  apply filter_In in H1. destruct H1 as [H1 H2].
  apply in_map_iff in H1. destruct H1 as [g [<- _]].
  simpl in H2. apply guarded_div_gt0 in H2. destruct H2 as [Ht Hb].
  split; [exact Hb|exact Ht].
Qed.

Lemma most_efficient_has_budget_and_output_witness :
  exists rows m,
    process_kpi_data shared_programme_name "programme" = Returns rows /\
    Main.most_efficient rows = Some m /\
    num_gt0 (Kpi.total_budget m) = true /\ num_gt0 (Kpi.total_kpis m) = true.
Proof.
  do 2 eexists. split; [reflexivity|].
  assert (H : Main.most_efficient
                (map with_costs (grouped shared_programme_name "programme")) =
              Some (with_costs (agg_sum (Some "Space"%string) (Some "Sensors"%string)
                      (filter (in_programme ("Space", "Sensors")%string)
                              shared_programme_name))))
    by reflexivity.
  split; [exact H|].
  exact (most_efficient_has_budget_and_output shared_programme_name "programme" _ _
           (process_kpi_data_returns _ _) H).
Defined.

(** ** The average cost per KPI *)

Section GroupedColumn.
Context (f : Project.t -> num) (g : Grouped.t -> num).
Hypothesis g_agg : forall dom name l, g (agg_sum dom name l) = nansum (map f l).
Hypothesis g_project : forall r, g (project_columns r) = f r.

(** The sum of a column of [grouped] is the sum of the column over the
    records the level puts into a group. *)
Lemma grouped_column_sum (df : DataFrame) (level : string) :
  Forall (fun r => finite_or_missing (f r)) df ->
  num_eq (nansum (map g (grouped df level)))
         (nansum (map f (filter (aggregated level) df))).
Proof.
  intro Hfin. unfold grouped, aggregated.
  destruct (String.eqb level "domain").
  - unfold group_by_domain. rewrite map_map.
    rewrite (map_ext _ (fun d => nansum (map f (filter (in_domain d) df))))
      by (intro d; apply g_agg).
    eapply num_eq_trans.
    + apply (nansum_group_sums f in_domain in_domain_unique); [exact Hfin|].
      apply string_keys_NoDup.
    + rewrite (filter_ext_in _ _ df (domain_groups_cover df)). apply num_eq_refl.
  - destruct (String.eqb level "programme").
    + unfold group_by_programme. rewrite map_map.
      rewrite (map_ext _ (fun dp => nansum (map f (filter (in_programme dp) df))))
        by (intro dp; apply g_agg).
      eapply num_eq_trans.
      * apply (nansum_group_sums f in_programme in_programme_unique); [exact Hfin|].
        apply sorted_unique_NoDup.
        -- exact pair_compare_eq.
        -- exact pair_compare_antisym.
        -- exact pair_compare_trans.
      * rewrite (filter_ext_in _ _ df (programme_groups_cover df)). apply num_eq_refl.
    + rewrite map_map, filter_all.
      rewrite (map_ext _ f) by exact g_project. apply num_eq_refl.
Qed.

Lemma grouped_column_finite (df : DataFrame) (level : string) :
  Forall (fun r => finite_or_missing (f r)) df ->
  Forall finite_or_missing (map g (grouped df level)).
Proof.
  intro Hfin.
  assert (Hagg : forall dom name (p : Project.t -> bool),
            finite_or_missing (g (agg_sum dom name (filter p df)))).
  { intros dom name p. rewrite g_agg.
    destruct (nansum_qsum _ (members_finite f df p Hfin)) as [q [-> _]]. exact I. }
  apply Forall_forall. intros x Hx. apply in_map_iff in Hx.
  destruct Hx as [gr [<- Hg]]. unfold grouped in Hg.
  destruct (String.eqb level "domain").
  - unfold group_by_domain in Hg. apply in_map_iff in Hg.
    destruct Hg as [d [<- _]]. apply Hagg.
  - destruct (String.eqb level "programme").
    + unfold group_by_programme in Hg. apply in_map_iff in Hg.
      destruct Hg as [dp [<- _]]. apply Hagg.
    + apply in_map_iff in Hg. destruct Hg as [r [<- Hr]].
      rewrite g_project. rewrite Forall_forall in Hfin. apply Hfin, Hr.
Qed.

Lemma grouped_column_qsum (df : DataFrame) (level : string) :
  Forall (fun r => finite_or_missing (f r)) df ->
  qsum (map g (grouped df level)) == qsum (map f (filter (aggregated level) df)).
Proof.
  intro Hfin.
  pose proof (grouped_column_sum df level Hfin) as H.
  pose proof (nansum_num_eq _ (grouped_column_finite df level Hfin)) as H1.
  pose proof (nansum_num_eq _ (members_finite f df (aggregated level) Hfin)) as H2.
  pose proof (num_eq_trans _ _ _ (num_eq_sym _ _ H1) (num_eq_trans _ _ _ H H2)) as E.
  exact E.
Qed.

End GroupedColumn.

Lemma total_kpis_value (gr : Grouped.t) :
  (forall k, finite_or_missing (Grouped.column k gr)) ->
  exists t,
    Kpi.total_kpis (with_costs gr) = Fin t /\
    t == qval (Grouped.journal_articles gr) + qval (Grouped.conference_papers gr) +
         qval (Grouped.book_chapters gr) + qval (Grouped.technology_demonstrators gr).
Proof.
  intro H. simpl.
  assert (Hf : Forall finite_or_missing
                 (map (fun k => Grouped.column k gr) kpi_columns)).
  { apply Forall_forall. intros x Hx. apply in_map_iff in Hx.
    destruct Hx as [k [<- _]]. apply H. }
  destruct (nansum_qsum _ Hf) as [t [E Ht]].
  exists t. split; [exact E|]. rewrite Ht. simpl. ring.
Qed.

Lemma total_kpis_qsum (gs : list Grouped.t) :
  Forall (fun gr => forall k, finite_or_missing (Grouped.column k gr)) gs ->
  Forall finite_or_missing (map Kpi.total_kpis (map with_costs gs)) /\
  qsum (map Kpi.total_kpis (map with_costs gs)) ==
  qsum (map Grouped.journal_articles gs) + qsum (map Grouped.conference_papers gs) +
  qsum (map Grouped.book_chapters gs) + qsum (map Grouped.technology_demonstrators gs).
Proof.
  induction 1 as [|gr gs Hg Hgs [IH1 IH2]].
  - split; [constructor|]. simpl. ring.
  - destruct (total_kpis_value gr Hg) as [t [E Ht]].
    split.
    + cbn [map]. constructor; [rewrite E; exact I|exact IH1].
    + cbn [map qsum fold_right]. fold (qsum (map Kpi.total_kpis (map with_costs gs))).
      fold (qsum (map Grouped.journal_articles gs)).
      fold (qsum (map Grouped.conference_papers gs)).
      fold (qsum (map Grouped.book_chapters gs)).
      fold (qsum (map Grouped.technology_demonstrators gs)).
      rewrite E, IH2. cbn [qval]. rewrite Ht. ring.
Qed.

Lemma grouped_cells_finite (df : DataFrame) (level : string) :
  Forall record_finite df ->
  Forall (fun gr => forall k, finite_or_missing (Grouped.column k gr)) (grouped df level).
Proof.
  intro Hfin. apply Forall_forall. intros gr Hgr k.
  pose proof (grouped_column_finite (project_kpi k) (Grouped.column k)
                (column_of_agg_sum k) (column_of_project_columns k) df level
                (record_finite_kpi k df Hfin)) as H.
  rewrite Forall_forall in H. apply H. apply in_map. exact Hgr.
Qed.

Lemma overall_cost_guarded (b t : Q) :
  num_eq (guarded_div (Fin b) (Fin t)) (if Qlt_bool 0 t then Fin (b / t) else Fin 0).
Proof.
  destruct (Qlt_bool 0 t) eqn:E.
  - apply Qlt_bool_iff in E. rewrite (guarded_div_positive b t E). apply num_eq_refl.
  - unfold guarded_div. simpl. rewrite E. apply num_eq_refl.
Qed.

Lemma avg_cost_per_kpi_value (df : DataFrame) (level : string) :
  Forall record_finite df ->
  num_eq (Main.avg_cost_per_kpi (map with_costs (grouped df level)))
         (overall_cost (filter (aggregated level) df)).
Proof.
  intro Hfin.
  destruct (total_kpis_qsum _ (grouped_cells_finite df level Hfin)) as [Hf Hq].
  assert (Hk : num_eq (Main.total_kpis (map with_costs (grouped df level)))
                      (Fin (output_total (filter (aggregated level) df)))).
  { eapply num_eq_trans; [apply nansum_num_eq, Hf|]. simpl. rewrite Hq.
    unfold output_total.
    rewrite (grouped_column_qsum Project.journal_articles Grouped.journal_articles
               (fun _ _ _ => eq_refl) (fun _ => eq_refl) df level
               (record_finite_kpi JournalArticles df Hfin)).
    rewrite (grouped_column_qsum Project.conference_papers Grouped.conference_papers
               (fun _ _ _ => eq_refl) (fun _ => eq_refl) df level
               (record_finite_kpi ConferencePapers df Hfin)).
    rewrite (grouped_column_qsum Project.book_chapters Grouped.book_chapters
               (fun _ _ _ => eq_refl) (fun _ => eq_refl) df level
               (record_finite_kpi BookChapters df Hfin)).
    rewrite (grouped_column_qsum Project.technology_demonstrators
               Grouped.technology_demonstrators
               (fun _ _ _ => eq_refl) (fun _ => eq_refl) df level
               (record_finite_kpi TechnologyDemonstrators df Hfin)).
    reflexivity. }
  assert (Hb : num_eq (Main.total_budget (map with_costs (grouped df level)))
                      (Fin (qsum (map Project.total_budget
                                      (filter (aggregated level) df))))).
  { unfold Main.total_budget. rewrite budget_of_with_costs.
    eapply num_eq_trans.
    - apply (grouped_column_sum Project.total_budget Grouped.total_budget
               (fun _ _ _ => eq_refl) (fun _ => eq_refl) df level
               (record_finite_budget df Hfin)).
    - apply nansum_num_eq, members_finite, record_finite_budget, Hfin. }
  eapply num_eq_trans.
  - exact (guarded_div_compat _ _ _ _ Hb Hk).
  - apply overall_cost_guarded.
Qed.

Lemma aggregated_all (df : DataFrame) (level : string) :
  Forall (fun r => has_domain r = true /\ is_some (Project.programme r) = true) df ->
  filter (aggregated level) df = df.
Proof.
  intro H. rewrite <- (filter_all df) at 2.
  apply filter_ext_in. intros r Hr. rewrite Forall_forall in H.
  destruct (H r Hr) as [Hd Hp]. unfold has_domain in Hd. unfold aggregated.
  rewrite Hd, Hp. simpl.
  destruct (String.eqb level "domain"); [reflexivity|].
  destruct (String.eqb level "programme"); reflexivity.
Qed.

(** When every record has a domain and a programme and the cells are
    finite or missing, the figure "Average Cost per KPI" is the same at
    every analysis level. *)
Theorem avg_cost_per_kpi_same_at_every_level :
  forall (df : DataFrame) (level level' : string) (rows rows' : list Kpi.t),
    Forall record_finite df ->
    Forall (fun r => has_domain r = true /\ is_some (Project.programme r) = true) df ->
    process_kpi_data df level = Returns rows ->
    process_kpi_data df level' = Returns rows' ->
    num_eq (Main.avg_cost_per_kpi rows) (Main.avg_cost_per_kpi rows').
Proof.
  intros df level level' rows rows' Hfin Hkeys Hrows Hrows'.
  rewrite process_kpi_data_returns in Hrows, Hrows'.
  injection Hrows as <-. injection Hrows' as <-.
  eapply num_eq_trans; [apply avg_cost_per_kpi_value, Hfin|].
  apply num_eq_sym.
  eapply num_eq_trans; [apply avg_cost_per_kpi_value, Hfin|].
  rewrite !aggregated_all by exact Hkeys. apply num_eq_refl.
Qed.

Lemma avg_cost_per_kpi_same_at_every_level_witness :
  exists rows rows',
    process_kpi_data shared_programme_name "domain" = Returns rows /\
    process_kpi_data shared_programme_name "project" = Returns rows' /\
    num_eq (Main.avg_cost_per_kpi rows) (Main.avg_cost_per_kpi rows').
Proof.
  do 2 eexists. split; [reflexivity|]. split; [reflexivity|].
  apply (avg_cost_per_kpi_same_at_every_level shared_programme_name "domain" "project").
  - repeat (constructor;
            [split; [exact I|let k := fresh "k" in intro k; destruct k; exact I]|]).
    constructor.
  - repeat (constructor; [split; reflexivity|]). constructor.
  - reflexivity.
  - reflexivity.
Defined.

(** ** The budget shares *)

Lemma budget_score_zero_total_witness :
  exists ms m,
    domain_metrics unfunded = Returns ms /\
    In m ms /\
    forall q, Metric.budget_score m <> Fin q.
Proof.
  do 2 eexists. split; [reflexivity|]. split; [left; reflexivity|].
  eapply (budget_score_zero_total unfunded).
  - vm_compute. reflexivity.
  - reflexivity.
  - left. reflexivity.
Defined.

(** ** Frames without output *)

Lemma no_count_sum (xs : list num) :
  Forall no_count xs -> exists q, nansum xs = Fin q /\ q == 0.
Proof.
  intro H.
  assert (Hf : Forall finite_or_missing xs).
  { eapply Forall_impl; [|exact H]. intros x Hx. unfold no_count in Hx.
    destruct x; cbn [fillna num_eq finite_or_missing] in *; tauto. }
  destruct (nansum_qsum xs Hf) as [q [E Hq]].
  exists q. split; [exact E|]. rewrite Hq. clear E Hq Hf.
  induction H as [|x xs Hx Hxs IH]; simpl; [reflexivity|].
  rewrite IH. unfold no_count in Hx.
  destruct x as [p| |]; cbn [fillna num_eq qval] in *; try contradiction.
  - rewrite Hx. ring.
  - ring.
Qed.

Lemma no_count_total (gr : Grouped.t) :
  (forall k, no_count (Grouped.column k gr)) ->
  exists t, Kpi.total_kpis (with_costs gr) = Fin t /\ t == 0.
Proof.
  intro H. simpl. apply no_count_sum.
  repeat constructor.
  - exact (H JournalArticles).
  - exact (H ConferencePapers).
  - exact (H BookChapters).
  - exact (H TechnologyDemonstrators).
Qed.

Lemma no_count_grouped (df : DataFrame) (level : string) (gr : Grouped.t) :
  Forall (fun r => forall k, no_count (project_kpi k r)) df ->
  In gr (grouped df level) ->
  forall k, no_count (Grouped.column k gr).
Proof.
  intros Hdf Hgr k.
  assert (Hagg : forall dom name (p : Project.t -> bool),
            no_count (Grouped.column k (agg_sum dom name (filter p df)))).
  { intros dom name p. rewrite column_of_agg_sum.
    destruct (no_count_sum (map (project_kpi k) (filter p df))) as [q [-> Hq]].
    - apply Forall_forall. intros x Hx. apply in_map_iff in Hx.
      destruct Hx as [r [<- Hr]]. apply filter_In in Hr.
      rewrite Forall_forall in Hdf. apply Hdf, Hr.
    - exact Hq. }
  unfold grouped in Hgr. destruct (String.eqb level "domain").
  - unfold group_by_domain in Hgr. apply in_map_iff in Hgr.
    destruct Hgr as [d [<- _]]. apply Hagg.
  - destruct (String.eqb level "programme").
    + unfold group_by_programme in Hgr. apply in_map_iff in Hgr.
      destruct Hgr as [dp [<- _]]. apply Hagg.
    + apply in_map_iff in Hgr. destruct Hgr as [r [<- Hr]].
      rewrite column_of_project_columns. rewrite Forall_forall in Hdf. apply Hdf, Hr.
Qed.

Lemma zero_not_gt0 (t : Q) : t == 0 -> num_gt0 (Fin t) = false.
Proof.
  intro H. simpl. apply Qlt_bool_false. rewrite H. apply Qle_refl.
Qed.

Lemma filter_nothing {A : Type} (p : A -> bool) (l : list A) :
  (forall a, In a l -> p a = false) -> filter p l = [].
Proof.
  induction l as [|a l IH]; intro H; simpl; [reflexivity|].
  rewrite (H a (or_introl eq_refl)). apply IH. intros b Hb. apply H. right. exact Hb.
Qed.

(** On a frame whose numeric columns hold numbers, when every count of
    every record is 0 or missing, every row has a [cost_per_kpi] of 0 at
    every level, no row is named most efficient and the average cost per
    KPI is 0: nothing is divided by the absent output. *)
Theorem no_output_no_most_efficient :
  forall (df : DataFrame) (level : string) (rows : list Kpi.t),
    numeric_columns df ->
    Forall (fun r => forall k, no_count (project_kpi k r)) df ->
    process_kpi_data df level = Returns rows ->
    Forall (fun r => Kpi.cost_per_kpi r = Fin 0) rows /\
    Main.most_efficient rows = None /\
    Main.avg_cost_per_kpi rows = Fin 0.
Proof.
  intros df level rows _ Hdf Hrows.
  rewrite process_kpi_data_returns in Hrows. injection Hrows as <-.
  assert (Hrow : forall r, In r (map with_costs (grouped df level)) ->
            (exists t, Kpi.total_kpis r = Fin t /\ t == 0) /\
            Kpi.cost_per_kpi r = Fin 0).
  { intros r Hr. apply in_map_iff in Hr. destruct Hr as [gr [<- Hgr]].
    destruct (no_count_total gr (no_count_grouped df level gr Hdf Hgr)) as [t [Et Ht]].
    split; [exists t; split; assumption|].
    simpl in *. rewrite Et. unfold guarded_div.
    rewrite (zero_not_gt0 t Ht). reflexivity. }
  split; [|split].
  - apply Forall_forall. intros r Hr. apply Hrow, Hr.
  - unfold Main.most_efficient, Main.efficient_df.
    rewrite filter_nothing; [reflexivity|].
    intros r Hr. rewrite (proj2 (Hrow r Hr)). reflexivity.
  - unfold Main.avg_cost_per_kpi, Main.total_kpis.
    destruct (no_count_sum (map Kpi.total_kpis (map with_costs (grouped df level))))
      as [q [-> Hq]].
    + apply Forall_forall. intros x Hx. apply in_map_iff in Hx.
      destruct Hx as [r [<- Hr]].
      destruct (proj1 (Hrow r Hr)) as [t [-> Ht]]. exact Ht.
    + rewrite (zero_not_gt0 q Hq). reflexivity.
Qed.

Lemma no_output_no_most_efficient_witness :
  exists rows,
    process_kpi_data no_outputs "project" = Returns rows /\
    Forall (fun r => Kpi.cost_per_kpi r = Fin 0) rows /\
    Main.most_efficient rows = None /\
    Main.avg_cost_per_kpi rows = Fin 0.
Proof.
  eexists. split; [reflexivity|].
  apply (no_output_no_most_efficient no_outputs "project").
  - split.
    + eexists. split; [left; reflexivity|discriminate].
    + intro k. eexists. split; [right; left; reflexivity|].
      destruct k; discriminate.
  - constructor; [|constructor; [|constructor]];
      intro k; destruct k; vm_compute; reflexivity.
  - reflexivity.
Defined.

(** ** Integer columns within the int64 range *)

Lemma int64_fold (xs : list num) :
  Forall Typed.int64_cell xs ->
  forall acc,
    inject_Z (fold_left Z.add (map Typed.int_of xs) acc) == inject_Z acc + qsum xs.
Proof.
  induction 1 as [|x xs Hx Hxs IH]; intro acc; simpl.
  - ring.
  - destruct Hx as [z [-> _]]. rewrite IH, int_of_integer, inject_Z_plus.
    simpl. ring.
Qed.

Lemma int64_cell_finite (x : num) : Typed.int64_cell x -> finite_or_missing x.
Proof. intros [z [-> _]]. exact I. Qed.

Lemma qsum_nonneg_list (xs : list num) : Forall nonneg_or_missing xs -> 0 <= qsum xs.
Proof.
  induction 1 as [|x xs Hx Hxs IH]; simpl.
  - apply Qle_refl.
  - apply nonneg_or_missing_qval in Hx. lra.
Qed.

(** A sum that stays within the int64 range is the same in both dtypes. *)
Lemma typed_sum_refines (dt : Typed.dtype) (xs : list num) :
  Forall (Typed.cell_typed dt) xs ->
  Forall nonneg_or_missing xs ->
  qsum xs <= inject_Z Typed.int64_max ->
  num_eq (Typed.sum dt xs) (nansum xs).
Proof.
  intros Hty Hnn Hmax. destruct dt; [|apply num_eq_refl].
  assert (Hf : Forall finite_or_missing xs).
  { eapply Forall_impl; [|exact Hnn]. apply nonneg_or_missing_finite. }
  apply num_eq_sym. eapply num_eq_trans; [apply nansum_num_eq, Hf|].
  unfold Typed.sum. cbn [num_eq].
  pose proof (int64_fold xs Hty 0) as E.
  change (inject_Z 0) with 0 in E.
  pose proof (qsum_nonneg_list xs Hnn) as H0.
  assert (R : (Typed.int64_min <= fold_left Z.add (map Typed.int_of xs) 0
               <= Typed.int64_max)%Z).
  { split.
    - apply Z.le_trans with 0%Z; [unfold Typed.int64_min; lia|].
      rewrite Zle_Qle, E. change (inject_Z 0) with 0. lra.
    - rewrite Zle_Qle, E. lra. }
  rewrite (wrap_in_range _ R), E. ring.
Qed.

Lemma num_eq_qval (a b : num) : num_eq a b -> qval a == qval b.
Proof. destruct a, b; simpl; try tauto; intros; reflexivity. Qed.

Lemma num_eq_nonneg_or_missing (a b : num) :
  num_eq a b -> nonneg_or_missing b -> nonneg_or_missing a.
Proof.
  destruct a, b; simpl; try tauto. intros E H. rewrite E. exact H.
Qed.

Lemma num_eq_nonneg (a b : num) : num_eq a b -> nonneg b -> nonneg a.
Proof.
  destruct a, b; simpl; try tauto. intros E H. rewrite E. exact H.
Qed.

Lemma Forall2_num_eq_qsum (xs ys : list num) :
  Forall2 num_eq xs ys -> qsum xs == qsum ys.
Proof.
  induction 1 as [|x y xs ys Hxy H IH]; simpl; [reflexivity|].
  rewrite IH, (num_eq_qval x y Hxy). reflexivity.
Qed.

Lemma Forall2_num_eq_nansum (xs ys : list num) :
  Forall2 num_eq xs ys -> num_eq (nansum xs) (nansum ys).
Proof.
  intro H. apply nansum_compat.
  induction H as [|x y xs ys Hxy H IH]; constructor; [|exact IH].
  apply fillna_compat. exact Hxy.
Qed.

Lemma Forall2_num_eq_nonneg (xs ys : list num) :
  Forall2 num_eq xs ys -> Forall nonneg_or_missing ys -> Forall nonneg_or_missing xs.
Proof.
  induction 1 as [|x y xs ys Hxy H IH]; intro Hy; constructor;
    inversion Hy; subst.
  - eapply num_eq_nonneg_or_missing; eassumption.
  - apply IH. assumption.
Qed.

(** The typed sum of a list against the float sum of an equal list. *)
Lemma typed_sum_compat (dt : Typed.dtype) (xs ys : list num) :
  Forall2 num_eq xs ys ->
  Forall (Typed.cell_typed dt) xs ->
  Forall nonneg_or_missing ys ->
  qsum ys <= inject_Z Typed.int64_max ->
  num_eq (Typed.sum dt xs) (nansum ys).
Proof.
  intros Hxy Hty Hnn Hmax.
  eapply num_eq_trans; [|apply Forall2_num_eq_nansum; exact Hxy].
  apply typed_sum_refines.
  - exact Hty.
  - eapply Forall2_num_eq_nonneg; eassumption.
  - rewrite (Forall2_num_eq_qsum xs ys Hxy). exact Hmax.
Qed.

Lemma Forall2_refl_num_eq (xs : list num) : Forall2 num_eq xs xs.
Proof. induction xs; constructor; auto using num_eq_refl. Qed.

Lemma output_total_filter_le (p : Project.t -> bool) (df : DataFrame) :
  Forall record_nonneg df ->
  0 <= output_total (filter p df) /\ output_total (filter p df) <= output_total df.
Proof.
  intro H. unfold output_total.
  destruct (qsum_filter_le Project.journal_articles p df
              (record_nonneg_kpi JournalArticles df H)) as [A1 B1].
  destruct (qsum_filter_le Project.conference_papers p df
              (record_nonneg_kpi ConferencePapers df H)) as [A2 B2].
  destruct (qsum_filter_le Project.book_chapters p df
              (record_nonneg_kpi BookChapters df H)) as [A3 B3].
  destruct (qsum_filter_le Project.technology_demonstrators p df
              (record_nonneg_kpi TechnologyDemonstrators df H)) as [A4 B4].
  split; lra.
Qed.

Lemma kpi_column_le_output_total (k : kpi) (df : DataFrame) :
  Forall record_nonneg df ->
  qsum (map (project_kpi k) df) <= output_total df.
Proof.
  intro H. unfold output_total.
  pose proof (qsum_nonneg Project.journal_articles df
                (record_nonneg_kpi JournalArticles df H)) as A1.
  pose proof (qsum_nonneg Project.conference_papers df
                (record_nonneg_kpi ConferencePapers df H)) as A2.
  pose proof (qsum_nonneg Project.book_chapters df
                (record_nonneg_kpi BookChapters df H)) as A3.
  pose proof (qsum_nonneg Project.technology_demonstrators df
                (record_nonneg_kpi TechnologyDemonstrators df H)) as A4.
  destruct k.
  - change (project_kpi JournalArticles) with Project.journal_articles. lra.
  - change (project_kpi ConferencePapers) with Project.conference_papers. lra.
  - change (project_kpi BookChapters) with Project.book_chapters. lra.
  - change (project_kpi TechnologyDemonstrators) with Project.technology_demonstrators.
    lra.
Qed.

Lemma well_typed_budget (dt : Typed.dtypes) (p : Project.t -> bool) (df : DataFrame) :
  Typed.well_typed dt df ->
  Forall (Typed.cell_typed (Typed.total_budget dt))
         (map Project.total_budget (filter p df)).
Proof.
  intro H. unfold Typed.well_typed in H. rewrite Forall_forall in H.
  apply Forall_forall. intros x Hx. apply in_map_iff in Hx.
  destruct Hx as [r [<- Hr]]. apply filter_In in Hr. apply (H r), Hr.
Qed.

Lemma well_typed_kpi (dt : Typed.dtypes) (k : kpi) (p : Project.t -> bool)
    (df : DataFrame) :
  Typed.well_typed dt df ->
  Forall (Typed.cell_typed (Typed.kpi_dtype k dt))
         (map (project_kpi k) (filter p df)).
Proof.
  intro H. unfold Typed.well_typed in H. rewrite Forall_forall in H.
  apply Forall_forall. intros x Hx. apply in_map_iff in Hx.
  destruct Hx as [r [<- Hr]]. apply filter_In in Hr. apply (H r), Hr.
Qed.

Lemma members_nonneg (f : Project.t -> num) (p : Project.t -> bool) (df : DataFrame) :
  Forall (fun r => nonneg_or_missing (f r)) df ->
  Forall nonneg_or_missing (map f (filter p df)).
Proof.
  intro H. rewrite Forall_forall in H.
  apply Forall_forall. intros x Hx. apply in_map_iff in Hx.
  destruct Hx as [r [<- Hr]]. apply filter_In in Hr. apply H, Hr.
Qed.

(** The sums of a group are the same in both models when the sums of the
    frame stay within the int64 range. *)
Lemma typed_agg_sum_refines (dt : Typed.dtypes) (dom name : option string)
    (p : Project.t -> bool) (df : DataFrame) :
  Typed.well_typed dt df ->
  Forall record_nonneg df ->
  within_int64 df ->
  Grouped_eq (Typed.agg_sum dt dom name (filter p df))
             (agg_sum dom name (filter p df)).
Proof.
  intros Hwt Hnn [HB HK].
  split; [reflexivity|]. split; [reflexivity|]. split.
  - simpl. apply typed_sum_refines.
    + apply well_typed_budget. exact Hwt.
    + apply members_nonneg, record_nonneg_budget, Hnn.
    + destruct (qsum_filter_le Project.total_budget p df
                  (record_nonneg_budget df Hnn)) as [_ L].
      eapply Qle_trans; eassumption.
  - intro k. rewrite typed_column_of_agg_sum, column_of_agg_sum.
    apply typed_sum_refines.
    + apply well_typed_kpi. exact Hwt.
    + apply members_nonneg, record_nonneg_kpi, Hnn.
    + destruct (qsum_filter_le (project_kpi k) p df (record_nonneg_kpi k df Hnn))
        as [_ L].
      eapply Qle_trans; [exact L|].
      eapply Qle_trans; [apply kpi_column_le_output_total, Hnn|exact HK].
Qed.

Lemma typed_row_refines (dt : Typed.dtypes) (g g' : Grouped.t) :
  Grouped_eq g g' ->
  (Typed.kpi_block_dtype dt = Typed.int64 ->
   forall k, Typed.int64_cell (Grouped.column k g)) ->
  (forall k, nonneg_or_missing (Grouped.column k g')) ->
  qval (Grouped.journal_articles g') + qval (Grouped.conference_papers g') +
  qval (Grouped.book_chapters g') + qval (Grouped.technology_demonstrators g')
    <= inject_Z Typed.int64_max ->
  Kpi_eq (Typed.with_costs dt g) (with_costs g').
Proof.
  intros [Hd [Hn [Hb Hc]]] Hcells Hnn Hmax.
  assert (Ht : num_eq (Kpi.total_kpis (Typed.with_costs dt g))
                      (Kpi.total_kpis (with_costs g'))).
  { cbn [Typed.with_costs with_costs Kpi.total_kpis kpi_columns map Grouped.column].
    apply typed_sum_compat.
    - repeat constructor.
      + exact (Hc JournalArticles).
      + exact (Hc ConferencePapers).
      + exact (Hc BookChapters).
      + exact (Hc TechnologyDemonstrators).
    - destruct (Typed.kpi_block_dtype dt) eqn:B.
      + specialize (Hcells eq_refl). repeat constructor.
        * exact (Hcells JournalArticles).
        * exact (Hcells ConferencePapers).
        * exact (Hcells BookChapters).
        * exact (Hcells TechnologyDemonstrators).
      + repeat constructor.
    - repeat constructor.
      + exact (Hnn JournalArticles).
      + exact (Hnn ConferencePapers).
      + exact (Hnn BookChapters).
      + exact (Hnn TechnologyDemonstrators).
    - cbn [qsum fold_right]. lra. }
  split; [|split; [|split]].
  - repeat split; assumption.
  - intro k. rewrite typed_with_costs_cost, with_costs_cost.
    apply guarded_div_compat; [exact Hb|apply Hc].
  - exact Ht.
  - cbn [Typed.with_costs with_costs Kpi.cost_per_kpi].
    apply guarded_div_compat; [exact Hb|exact Ht].
Qed.

Lemma typed_agg_row_refines (dt : Typed.dtypes) (dom name : option string)
    (p : Project.t -> bool) (df : DataFrame) :
  Typed.well_typed dt df ->
  Forall record_nonneg df ->
  within_int64 df ->
  Kpi_eq (Typed.with_costs dt (Typed.agg_sum dt dom name (filter p df)))
         (with_costs (agg_sum dom name (filter p df))).
Proof.
  intros Hwt Hnn Hin. apply typed_row_refines.
  - apply typed_agg_sum_refines; assumption.
  - intros B k. rewrite typed_column_of_agg_sum. apply typed_sum_cell.
    apply kpi_block_int64. exact B.
  - intro k. rewrite column_of_agg_sum.
    destruct (column_sum_nonneg (project_kpi k) (filter p df)
                (Forall_filter_keep _ p df (record_nonneg_kpi k df Hnn)))
      as [q [-> Hq]].
    exact Hq.
  - pose proof (Forall_filter_keep _ p df Hnn) as Hp.
    cbn [agg_sum Grouped.journal_articles Grouped.conference_papers
         Grouped.book_chapters Grouped.technology_demonstrators].
    destruct (column_sum_value Project.journal_articles _
                (record_nonneg_kpi JournalArticles _ Hp)) as [q1 [E1 Q1]].
    destruct (column_sum_value Project.conference_papers _
                (record_nonneg_kpi ConferencePapers _ Hp)) as [q2 [E2 Q2]].
    destruct (column_sum_value Project.book_chapters _
                (record_nonneg_kpi BookChapters _ Hp)) as [q3 [E3 Q3]].
    destruct (column_sum_value Project.technology_demonstrators _
                (record_nonneg_kpi TechnologyDemonstrators _ Hp)) as [q4 [E4 Q4]].
    unfold column_sum in E1, E2, E3, E4. rewrite E1, E2, E3, E4. cbn [qval].
    destruct (output_total_filter_le p df Hnn) as [_ L].
    unfold output_total in L at 1. destruct Hin as [_ HK].
    rewrite Q1, Q2, Q3, Q4. eapply Qle_trans; eassumption.
Qed.

Lemma qval_le_qsum (f : Project.t -> num) (r : Project.t) (df : DataFrame) :
  Forall (fun x => nonneg_or_missing (f x)) df ->
  In r df -> qval (f r) <= qsum (map f df).
Proof.
  induction 1 as [|x l Hx Hl IH]; intro Hr; [contradiction|].
  simpl. pose proof (qsum_nonneg f l Hl) as H0.
  apply nonneg_or_missing_qval in Hx.
  destruct Hr as [->|Hr]; [lra|]. specialize (IH Hr). lra.
Qed.

Lemma typed_project_row_refines (dt : Typed.dtypes) (r : Project.t) (df : DataFrame) :
  Typed.well_typed dt df ->
  Forall record_nonneg df ->
  within_int64 df ->
  In r df ->
  Kpi_eq (Typed.with_costs dt (project_columns r)) (with_costs (project_columns r)).
Proof.
  intros Hwt Hnn [_ HK] Hr. apply typed_row_refines.
  - split; [reflexivity|]. split; [reflexivity|].
    split; [apply num_eq_refl|]. intro k. apply num_eq_refl.
  - intros B k. rewrite column_of_project_columns.
    unfold Typed.well_typed in Hwt. rewrite Forall_forall in Hwt.
    destruct (Hwt r Hr) as [_ H]. specialize (H k).
    rewrite (kpi_block_int64 dt B k) in H. exact H.
  - intro k. rewrite column_of_project_columns.
    rewrite Forall_forall in Hnn. apply (Hnn r Hr).
  - cbn [project_columns Grouped.journal_articles Grouped.conference_papers
         Grouped.book_chapters Grouped.technology_demonstrators].
    pose proof (qval_le_qsum Project.journal_articles r df
                  (record_nonneg_kpi JournalArticles df Hnn) Hr) as L1.
    pose proof (qval_le_qsum Project.conference_papers r df
                  (record_nonneg_kpi ConferencePapers df Hnn) Hr) as L2.
    pose proof (qval_le_qsum Project.book_chapters r df
                  (record_nonneg_kpi BookChapters df Hnn) Hr) as L3.
    pose proof (qval_le_qsum Project.technology_demonstrators r df
                  (record_nonneg_kpi TechnologyDemonstrators df Hnn) Hr) as L4.
    unfold output_total in HK. lra.
Qed.

Lemma Forall2_map_same_in {A B C : Type} (R : B -> C -> Prop) (f : A -> B) (g : A -> C)
    (l : list A) :
  (forall a, In a l -> R (f a) (g a)) -> Forall2 R (map f l) (map g l).
Proof.
  induction l as [|a l IH]; intro H; simpl; constructor.
  - apply H. left. reflexivity.
  - apply IH. intros b Hb. apply H. right. exact Hb.
Qed.

Lemma typed_rows_refine (dt : Typed.dtypes) (df : DataFrame) (level : string) :
  Typed.well_typed dt df ->
  Forall record_nonneg df ->
  within_int64 df ->
  Forall2 Kpi_eq (map (Typed.with_costs dt) (Typed.grouped dt df level))
                 (map with_costs (grouped df level)).
Proof.
  intros Hwt Hnn Hin. unfold Typed.grouped, grouped.
  destruct (String.eqb level "domain").
  - unfold Typed.group_by_domain, group_by_domain. rewrite !map_map.
    apply Forall2_map_same. intro d. apply typed_agg_row_refines; assumption.
  - destruct (String.eqb level "programme").
    + unfold Typed.group_by_programme, group_by_programme. rewrite !map_map.
      apply Forall2_map_same. intro dp. apply typed_agg_row_refines; assumption.
    + rewrite !map_map. apply Forall2_map_same_in. intros r Hr.
      apply (typed_project_row_refines dt r df); assumption.
Qed.


Lemma int_cells_two_records : Typed.well_typed Typed.int_dtypes two_records.
Proof.
  repeat constructor; try (intro k; destruct k);
    simpl; (eexists; split; [reflexivity|]);
    unfold Typed.int64_min, Typed.int64_max; lia.
Qed.

Lemma int_cells_shared_programme_name :
  Typed.well_typed Typed.int_dtypes shared_programme_name.
Proof.
  repeat constructor; try (intro k; destruct k);
    simpl; (eexists; split; [reflexivity|]);
    unfold Typed.int64_min, Typed.int64_max; lia.
Qed.

Lemma within_int64_shared_programme_name : within_int64 shared_programme_name.
Proof. split; vm_compute; discriminate. Qed.


(** ** What the rows of the KPI frame keep, with integer columns *)

Lemma rollups_nonneg_float (df : DataFrame) (level : string) :
  Forall record_nonneg df ->
  level = "domain"%string \/ level = "programme"%string ->
  Forall row_nonneg (map with_costs (grouped df level)).
Proof.
  intros Hdf Hlevel.
  apply Forall_forall. intros r Hr. apply in_map_iff in Hr.
  destruct Hr as [g [<- Hg]].
  destruct Hlevel as [-> | ->].
  - rewrite grouped_domain in Hg. unfold group_by_domain in Hg.
    apply in_map_iff in Hg. destruct Hg as [d [<- _]].
    apply agg_sum_nonneg, Forall_filter_rows, Hdf.
  - rewrite grouped_programme in Hg. unfold group_by_programme in Hg.
    apply in_map_iff in Hg. destruct Hg as [dp [<- _]].
    apply agg_sum_nonneg, Forall_filter_rows, Hdf.
Qed.

Lemma row_nonneg_compat (r r' : Kpi.t) : Kpi_eq r r' -> row_nonneg r' -> row_nonneg r.
Proof.
  intros [[_ [_ [Hb Hc]]] [Hk [Ht Hp]]] [N1 [N2 [N3 [N4 N5]]]].
  unfold row_nonneg, Kpi.total_budget, Kpi.column in *.
  split; [|split; [|split; [|split]]].
  - eapply num_eq_nonneg; eassumption.
  - intro k. eapply num_eq_nonneg; [apply Hc|apply N2].
  - intro k. eapply num_eq_nonneg; [apply Hk|apply N3].
  - eapply num_eq_nonneg; eassumption.
  - eapply num_eq_nonneg; eassumption.
Qed.

Lemma Forall2_Forall_left {A B : Type} (R : A -> B -> Prop) (P : A -> Prop)
    (Q : B -> Prop) (l : list A) (l' : list B) :
  (forall a b, R a b -> Q b -> P a) -> Forall2 R l l' -> Forall Q l' -> Forall P l.
Proof.
  intros H F. induction F as [|a b l l' Hab F IH]; intro HQ; constructor;
    inversion HQ; subst.
  - eapply H; eassumption.
  - apply IH. assumption.
Qed.

(** At the domain and the programme level, records that are not negative
    and whose budgets and counts add up within the int64 range give rows
    in which the budget, the four counts, the four costs, [total_kpis] and
    [cost_per_kpi] are all finite numbers that are not negative, whatever
    the dtypes of the columns: a missing cell of the input never reaches a
    row. *)
Theorem rollups_nonneg :
  forall (dt : Typed.dtypes) (df : DataFrame) (level : string) (rows : list Kpi.t),
    Typed.well_typed dt df ->
    Forall record_nonneg df ->
    within_int64 df ->
    level = "domain"%string \/ level = "programme"%string ->
    Typed.process_kpi_data dt df level = Returns rows ->
    Forall row_nonneg rows.
Proof.
  intros dt df level rows Hwt Hnn Hin Hlevel Hrows.
  rewrite typed_process_kpi_data_returns in Hrows. injection Hrows as <-.
  apply (Forall2_Forall_left Kpi_eq row_nonneg row_nonneg _
           (map with_costs (grouped df level)) row_nonneg_compat).
  - apply typed_rows_refine; assumption.
  - apply rollups_nonneg_float; assumption.
Qed.

Lemma rollups_nonneg_witness :
  exists rows,
    Typed.process_kpi_data Typed.float_dtypes missing_budget "programme"
      = Returns rows /\
    Forall row_nonneg rows.
Proof.
  eexists. split; [reflexivity|].
  apply (rollups_nonneg Typed.float_dtypes missing_budget "programme").
  - apply Forall_forall. intros r _. split; [exact I|].
    intro k. destruct k; exact I.
  - repeat (constructor;
            [split; [simpl; try exact I; discriminate
                    |intro k; destruct k; simpl; try exact I; discriminate]|]).
    constructor.
  - split; vm_compute; discriminate.
  - right. reflexivity.
  - reflexivity.
Defined.

(** ** The average cost per KPI, with integer columns *)

Lemma record_nonneg_finite (df : DataFrame) :
  Forall record_nonneg df -> Forall record_finite df.
Proof.
  apply Forall_impl. intros r [H1 H2]. split.
  - apply nonneg_or_missing_finite, H1.
  - intro k. apply nonneg_or_missing_finite, H2.
Qed.

Lemma grouped_budget_nonneg (df : DataFrame) (level : string) :
  Forall record_nonneg df ->
  Forall nonneg_or_missing (map Grouped.total_budget (grouped df level)).
Proof.
  intro Hnn.
  assert (Hagg : forall dom name (p : Project.t -> bool),
            nonneg_or_missing (Grouped.total_budget (agg_sum dom name (filter p df)))).
  { intros dom name p. simpl.
    destruct (column_sum_nonneg Project.total_budget (filter p df)
                (Forall_filter_keep _ p df (record_nonneg_budget df Hnn)))
      as [q [-> Hq]].
    exact Hq. }
  apply Forall_forall. intros x Hx. apply in_map_iff in Hx.
  destruct Hx as [g [<- Hg]]. unfold grouped in Hg.
  destruct (String.eqb level "domain").
  - unfold group_by_domain in Hg. apply in_map_iff in Hg.
    destruct Hg as [d [<- _]]. apply Hagg.
  - destruct (String.eqb level "programme").
    + unfold group_by_programme in Hg. apply in_map_iff in Hg.
      destruct Hg as [dp [<- _]]. apply Hagg.
    + apply in_map_iff in Hg. destruct Hg as [r [<- Hr]].
      rewrite Forall_forall in Hnn. apply (Hnn r Hr).
Qed.

Lemma typed_grouped_budget_cells (dt : Typed.dtypes) (df : DataFrame) (level : string) :
  Typed.well_typed dt df ->
  Forall (Typed.cell_typed (Typed.total_budget dt))
         (map Grouped.total_budget (Typed.grouped dt df level)).
Proof.
  intro Hwt.
  assert (Hagg : forall dom name l,
            Typed.cell_typed (Typed.total_budget dt)
              (Grouped.total_budget (Typed.agg_sum dt dom name l))).
  { intros dom name l. simpl.
    destruct (Typed.total_budget dt) eqn:E; [|exact I].
    exact (typed_sum_cell Typed.int64 _ eq_refl). }
  apply Forall_forall. intros x Hx. apply in_map_iff in Hx.
  destruct Hx as [g [<- Hg]]. unfold Typed.grouped in Hg.
  destruct (String.eqb level "domain").
  - unfold Typed.group_by_domain in Hg. apply in_map_iff in Hg.
    destruct Hg as [d [<- _]]. apply Hagg.
  - destruct (String.eqb level "programme").
    + unfold Typed.group_by_programme in Hg. apply in_map_iff in Hg.
      destruct Hg as [dp [<- _]]. apply Hagg.
    + apply in_map_iff in Hg. destruct Hg as [r [<- Hr]].
      unfold Typed.well_typed in Hwt. rewrite Forall_forall in Hwt.
      apply (Hwt r Hr).
Qed.

Lemma typed_total_kpis_cells (dt : Typed.dtypes) (gs : list Grouped.t) :
  Forall (Typed.cell_typed (Typed.kpi_block_dtype dt))
         (map Kpi.total_kpis (map (Typed.with_costs dt) gs)).
Proof.
  apply Forall_forall. intros x Hx. rewrite map_map in Hx.
  apply in_map_iff in Hx. destruct Hx as [g [<- _]]. simpl.
  destruct (Typed.kpi_block_dtype dt) eqn:E; [|exact I].
  exact (typed_sum_cell Typed.int64 _ eq_refl).
Qed.

Lemma total_kpis_column (df : DataFrame) (level : string) :
  Forall record_finite df ->
  Forall finite_or_missing (map Kpi.total_kpis (map with_costs (grouped df level))) /\
  qsum (map Kpi.total_kpis (map with_costs (grouped df level))) ==
  output_total (filter (aggregated level) df).
Proof.
  intro Hfin.
  destruct (total_kpis_qsum _ (grouped_cells_finite df level Hfin)) as [Hf Hq].
  split; [exact Hf|]. rewrite Hq. unfold output_total.
  rewrite (grouped_column_qsum Project.journal_articles Grouped.journal_articles
             (fun _ _ _ => eq_refl) (fun _ => eq_refl) df level
             (record_finite_kpi JournalArticles df Hfin)).
  rewrite (grouped_column_qsum Project.conference_papers Grouped.conference_papers
             (fun _ _ _ => eq_refl) (fun _ => eq_refl) df level
             (record_finite_kpi ConferencePapers df Hfin)).
  rewrite (grouped_column_qsum Project.book_chapters Grouped.book_chapters
             (fun _ _ _ => eq_refl) (fun _ => eq_refl) df level
             (record_finite_kpi BookChapters df Hfin)).
  rewrite (grouped_column_qsum Project.technology_demonstrators
             Grouped.technology_demonstrators
             (fun _ _ _ => eq_refl) (fun _ => eq_refl) df level
             (record_finite_kpi TechnologyDemonstrators df Hfin)).
  reflexivity.
Qed.

Lemma total_kpis_nonneg (df : DataFrame) (level : string) :
  Forall record_nonneg df ->
  Forall nonneg_or_missing (map Kpi.total_kpis (map with_costs (grouped df level))).
Proof.
  intro Hnn. pose proof (record_nonneg_finite df Hnn) as Hfin.
  pose proof (grouped_cells_finite df level Hfin) as Hcells.
  rewrite Forall_forall in Hcells.
  apply Forall_forall. intros x Hx. rewrite map_map in Hx.
  apply in_map_iff in Hx. destruct Hx as [g [<- Hg]].
  destruct (total_kpis_value g (Hcells g Hg)) as [t [-> Ht]].
  simpl. rewrite Ht.
  assert (Hc : forall k, 0 <= qval (Grouped.column k g)).
  { intro k. apply nonneg_or_missing_qval.
    unfold grouped in Hg. destruct (String.eqb level "domain").
    - unfold group_by_domain in Hg. apply in_map_iff in Hg.
      destruct Hg as [d [<- _]]. rewrite column_of_agg_sum.
      destruct (column_sum_nonneg (project_kpi k) _
                  (Forall_filter_keep _ (in_domain d) df (record_nonneg_kpi k df Hnn)))
        as [q [-> Hq]]. exact Hq.
    - destruct (String.eqb level "programme").
      + unfold group_by_programme in Hg. apply in_map_iff in Hg.
        destruct Hg as [dp [<- _]]. rewrite column_of_agg_sum.
        destruct (column_sum_nonneg (project_kpi k) _
                    (Forall_filter_keep _ (in_programme dp) df
                       (record_nonneg_kpi k df Hnn)))
          as [q [-> Hq]]. exact Hq.
      + apply in_map_iff in Hg. destruct Hg as [r [<- Hr]].
        rewrite column_of_project_columns. rewrite Forall_forall in Hnn.
        apply (Hnn r Hr). }
  pose proof (Hc JournalArticles) as C1. pose proof (Hc ConferencePapers) as C2.
  pose proof (Hc BookChapters) as C3. pose proof (Hc TechnologyDemonstrators) as C4.
  cbn [Grouped.column] in C1, C2, C3, C4. lra.
Qed.

Lemma Forall2_Kpi_eq_budget (rows rows' : list Kpi.t) :
  Forall2 Kpi_eq rows rows' ->
  Forall2 num_eq (map Kpi.total_budget rows) (map Kpi.total_budget rows').
Proof.
  induction 1 as [|r r' l l' H F IH]; simpl; constructor; [|exact IH].
  destruct H as [[_ [_ [Hb _]]] _]. exact Hb.
Qed.

Lemma Forall2_Kpi_eq_total_kpis (rows rows' : list Kpi.t) :
  Forall2 Kpi_eq rows rows' ->
  Forall2 num_eq (map Kpi.total_kpis rows) (map Kpi.total_kpis rows').
Proof.
  induction 1 as [|r r' l l' H F IH]; simpl; constructor; [|exact IH].
  destruct H as [_ [_ [Ht _]]]. exact Ht.
Qed.

(** With records that are not negative and whose budgets and counts add
    up within the int64 range, the figure "Average Cost per KPI" computed
    from the KPI frame is the total budget over the total output of the
    records the level puts into a group, and 0 when they have no output,
    whatever the dtypes of the columns. *)
Theorem avg_cost_per_kpi_of_grouped_records :
  forall (dt : Typed.dtypes) (df : DataFrame) (level : string) (rows : list Kpi.t),
    Typed.well_typed dt df ->
    Forall record_nonneg df ->
    within_int64 df ->
    Typed.process_kpi_data dt df level = Returns rows ->
    num_eq (Typed.avg_cost_per_kpi dt rows)
           (overall_cost (filter (aggregated level) df)).
Proof.
  intros dt df level rows Hwt Hnn Hin Hrows.
  rewrite typed_process_kpi_data_returns in Hrows. injection Hrows as <-.
  pose proof (record_nonneg_finite df Hnn) as Hfin.
  pose proof (typed_rows_refine dt df level Hwt Hnn Hin) as F2.
  destruct Hin as [HB HK].
  eapply num_eq_trans; [|apply avg_cost_per_kpi_value; exact Hfin].
  change (Typed.avg_cost_per_kpi dt
            (map (Typed.with_costs dt) (Typed.grouped dt df level)))
    with (guarded_div
            (Typed.sum (Typed.total_budget dt)
               (map Kpi.total_budget
                    (map (Typed.with_costs dt) (Typed.grouped dt df level))))
            (Typed.sum (Typed.kpi_block_dtype dt)
               (map Kpi.total_kpis
                    (map (Typed.with_costs dt) (Typed.grouped dt df level))))).
  apply guarded_div_compat.
  - apply typed_sum_compat.
    + apply Forall2_Kpi_eq_budget. exact F2.
    + rewrite map_map. apply (typed_grouped_budget_cells dt df level Hwt).
    + rewrite budget_of_with_costs. apply grouped_budget_nonneg. exact Hnn.
    + rewrite budget_of_with_costs.
      rewrite (grouped_column_qsum Project.total_budget Grouped.total_budget
                 (fun _ _ _ => eq_refl) (fun _ => eq_refl) df level
                 (record_finite_budget df Hfin)).
      destruct (qsum_filter_le Project.total_budget (aggregated level) df
                  (record_nonneg_budget df Hnn)) as [_ L].
      eapply Qle_trans; eassumption.
  - apply typed_sum_compat.
    + apply Forall2_Kpi_eq_total_kpis. exact F2.
    + apply typed_total_kpis_cells.
    + apply total_kpis_nonneg. exact Hnn.
    + rewrite (proj2 (total_kpis_column df level Hfin)).
      destruct (output_total_filter_le (aggregated level) df Hnn) as [_ L].
      eapply Qle_trans; eassumption.
Qed.

Lemma avg_cost_per_kpi_of_grouped_records_witness :
  exists rows,
    Typed.process_kpi_data Typed.int_dtypes shared_programme_name "domain"
      = Returns rows /\
    num_eq (Typed.avg_cost_per_kpi Typed.int_dtypes rows)
           (overall_cost (filter (aggregated "domain") shared_programme_name)).
Proof.
  eexists. split; [reflexivity|].
  apply (avg_cost_per_kpi_of_grouped_records Typed.int_dtypes shared_programme_name
           "domain").
  - exact int_cells_shared_programme_name.
  - records_nonneg.
  - exact within_int64_shared_programme_name.
  - reflexivity.
Defined.

(** ** The scores, with integer columns *)

Lemma object_column_numeric (f : Project.t -> num) (df : DataFrame) :
  object_column f df = false <-> numeric_column f df.
Proof.
  unfold object_column, numeric_column. split.
  - intro H. induction df as [|r df IH]; simpl in H; [discriminate|].
    destruct (f r) eqn:E.
    + exists r. split; [left; reflexivity|]. rewrite E. discriminate.
    + exists r. split; [left; reflexivity|]. rewrite E. discriminate.
    + destruct (IH H) as [r' [Hr' Hn]]. exists r'. split; [right; exact Hr'|exact Hn].
  - intros [r [Hr Hn]]. destruct (forallb _ df) eqn:E; [|reflexivity].
    rewrite forallb_forall in E. specialize (E r Hr).
    destruct (f r); [discriminate|discriminate|contradiction Hn; reflexivity].
Qed.

Lemma typed_domain_metric_returns (dt : Typed.dtypes) (df : DataFrame)
    (d : option string) :
  numeric_column Project.total_budget df ->
  TypedScore.domain_metric dt df d = Returns (TypedScore.domain_metric_value dt df d).
Proof.
  intro Hn. apply object_column_numeric in Hn.
  unfold TypedScore.domain_metric, TypedScore.domain_metric_value, py_truediv.
  rewrite Hn. cbn [bind].
  destruct (Nat.ltb 0 (List.length (filter (domain_mask d) df))) eqn:E.
  - rewrite (of_nat_not_zero _ E). reflexivity.
  - reflexivity.
Qed.

Lemma typed_domain_metrics_returns (dt : Typed.dtypes) (df : DataFrame) :
  numeric_column Project.total_budget df ->
  TypedScore.domain_metrics dt df =
  Returns (map (TypedScore.domain_metric_value dt df) (unique (map Project.domain df))).
Proof.
  intro Hn. unfold TypedScore.domain_metrics. apply mapM_returns.
  intro d. apply typed_domain_metric_returns. exact Hn.
Qed.

Lemma positive_sum_numeric (f : Project.t -> num) (df : DataFrame) :
  num_gt0 (column_sum f df) = true -> numeric_column f df.
Proof.
  intro H. apply object_column_numeric.
  destruct (object_column f df) eqn:E; [|reflexivity].
  assert (Z : column_sum f df = Fin 0).
  { unfold column_sum, nansum. unfold object_column in E.
    generalize (Fin 0) as acc. clear H.
    induction df as [|r df IH]; intro acc; simpl in *; [reflexivity|].
    apply andb_prop in E. destruct E as [E1 E2].
    destruct (f r); try discriminate. simpl. apply IH, E2. }
  rewrite Z in H. discriminate H.
Qed.

Lemma num_mul_compat (a a' b b' : num) :
  num_eq a a' -> num_eq b b' -> num_eq (num_mul a b) (num_mul a' b').
Proof.
  destruct a as [p|s|], a' as [p'|s'|], b as [q|t|], b' as [q'|t'|];
    simpl; try tauto; try congruence.
  - intros H1 H2. rewrite H1, H2. reflexivity.
  - intros H1 ->. rewrite (Qeq_bool_compat p p' 0 H1).
    rewrite (Qlt_bool_compat p p' 0 0 H1 (Qeq_refl 0)).
    destruct (Qeq_bool p' 0); simpl; auto.
  - intros -> H2. rewrite (Qeq_bool_compat q q' 0 H2).
    rewrite (Qlt_bool_compat q q' 0 0 H2 (Qeq_refl 0)).
    destruct (Qeq_bool q' 0); simpl; auto.
Qed.

Lemma weighted_score_compat (b b' a a' o o' : num) :
  num_eq b b' -> num_eq a a' -> num_eq o o' ->
  num_eq (weighted_score b a o) (weighted_score b' a' o').
Proof.
  intros Hb Ha Ho. unfold weighted_score.
  repeat apply num_add_compat; apply num_mul_compat;
    try assumption; apply num_eq_refl.
Qed.

Lemma in_0_100_compat (a b : num) : num_eq a b -> in_0_100 b -> in_0_100 a.
Proof.
  destruct a, b; simpl; try tauto. intros E H. rewrite E. exact H.
Qed.

Lemma typed_add_refines (x y : TypedScore.scalar) (a b : Q) :
  num_eq (fst x) (Fin a) -> num_eq (fst y) (Fin b) ->
  Typed.cell_typed (snd x) (fst x) -> Typed.cell_typed (snd y) (fst y) ->
  0 <= a -> 0 <= b -> a + b <= inject_Z Typed.int64_max ->
  num_eq (fst (TypedScore.add x y)) (Fin (a + b)) /\
  Typed.cell_typed (snd (TypedScore.add x y)) (fst (TypedScore.add x y)).
Proof.
  destruct x as [x dx], y as [y dy]. cbn [fst snd].
  intros Hx Hy Tx Ty Ha Hb Hmax. unfold TypedScore.add. cbn [fst snd].
  assert (Float : num_eq (num_add x y) (Fin (a + b))).
  { exact (num_add_compat _ _ _ _ Hx Hy). }
  destruct dx, dy; cbn [fst snd]; try (split; [exact Float|exact I]).
  destruct Tx as [zx [-> _]]. destruct Ty as [zy [-> _]].
  cbn [num_eq] in Hx, Hy. rewrite !int_of_integer.
  assert (R : (Typed.int64_min <= zx + zy <= Typed.int64_max)%Z).
  { rewrite <- Hx, <- Hy in Hmax. rewrite <- Hx in Ha. rewrite <- Hy in Hb.
    rewrite <- inject_Z_plus, <- Zle_Qle in Hmax.
    rewrite <- (Zle_Qle 0) in Ha, Hb.
    unfold Typed.int64_min. lia. }
  rewrite (wrap_in_range _ R). split.
  - cbn [num_eq]. rewrite inject_Z_plus, Hx, Hy. reflexivity.
  - eexists. split; [reflexivity|exact R].
Qed.

Lemma typed_column_sum_refines (dt : Typed.dtype) (f : Project.t -> num) (l : DataFrame) :
  Forall (fun r => Typed.cell_typed dt (f r)) l ->
  Forall (fun r => nonneg_or_missing (f r)) l ->
  qsum (map f l) <= inject_Z Typed.int64_max ->
  num_eq (fst (TypedScore.column_sum dt f l)) (Fin (qsum (map f l))) /\
  Typed.cell_typed (snd (TypedScore.column_sum dt f l))
                   (fst (TypedScore.column_sum dt f l)).
Proof.
  intros Hty Hnn Hmax. unfold TypedScore.column_sum. cbn [fst snd]. split.
  - eapply num_eq_trans.
    + apply typed_sum_refines; try assumption.
      * apply Forall_forall. intros x Hx. apply in_map_iff in Hx.
        destruct Hx as [r [<- Hr]]. rewrite Forall_forall in Hty. apply Hty, Hr.
      * apply Forall_forall. intros x Hx. apply in_map_iff in Hx.
        destruct Hx as [r [<- Hr]]. rewrite Forall_forall in Hnn. apply Hnn, Hr.
    + apply nansum_num_eq.
      apply Forall_forall. intros x Hx. apply in_map_iff in Hx.
      destruct Hx as [r [<- Hr]]. rewrite Forall_forall in Hnn.
      apply nonneg_or_missing_finite, Hnn, Hr.
  - destruct dt; [|exact I]. exact (typed_sum_cell Typed.int64 _ eq_refl).
Qed.

Lemma well_typed_kpi_cells (dt : Typed.dtypes) (k : kpi) (l : DataFrame) :
  Typed.well_typed dt l ->
  Forall (fun r => Typed.cell_typed (Typed.kpi_dtype k dt) (project_kpi k r)) l.
Proof. apply Forall_impl. intros r [_ H]. apply H. Qed.

Lemma well_typed_budget_cells (dt : Typed.dtypes) (l : DataFrame) :
  Typed.well_typed dt l ->
  Forall (fun r => Typed.cell_typed (Typed.total_budget dt) (Project.total_budget r)) l.
Proof. apply Forall_impl. intros r [H _]. exact H. Qed.

Lemma research_output_float (l : DataFrame) :
  Forall record_nonneg l ->
  num_eq (research_output_of l) (Fin (output_total l)).
Proof.
  intro H. unfold research_output_of, output_total.
  destruct (column_sum_value Project.journal_articles l
              (record_nonneg_kpi JournalArticles l H)) as [q1 [-> E1]].
  destruct (column_sum_value Project.conference_papers l
              (record_nonneg_kpi ConferencePapers l H)) as [q2 [-> E2]].
  destruct (column_sum_value Project.book_chapters l
              (record_nonneg_kpi BookChapters l H)) as [q3 [-> E3]].
  destruct (column_sum_value Project.technology_demonstrators l
              (record_nonneg_kpi TechnologyDemonstrators l H)) as [q4 [-> E4]].
  cbn [num_add num_eq]. rewrite E1, E2, E3, E4. reflexivity.
Qed.

Lemma typed_research_output_refines (dt : Typed.dtypes) (l : DataFrame) :
  Typed.well_typed dt l ->
  Forall record_nonneg l ->
  output_total l <= inject_Z Typed.int64_max ->
  num_eq (fst (TypedScore.research_output_of dt l)) (research_output_of l).
Proof.
  intros Hwt Hnn Hmax.
  eapply num_eq_trans; [|apply num_eq_sym, research_output_float; exact Hnn].
  pose proof (qsum_nonneg Project.journal_articles l
                (record_nonneg_kpi JournalArticles l Hnn)) as N1.
  pose proof (qsum_nonneg Project.conference_papers l
                (record_nonneg_kpi ConferencePapers l Hnn)) as N2.
  pose proof (qsum_nonneg Project.book_chapters l
                (record_nonneg_kpi BookChapters l Hnn)) as N3.
  pose proof (qsum_nonneg Project.technology_demonstrators l
                (record_nonneg_kpi TechnologyDemonstrators l Hnn)) as N4.
  unfold output_total in *.
  destruct (typed_column_sum_refines (Typed.journal_articles dt)
              Project.journal_articles l
              (well_typed_kpi_cells dt JournalArticles l Hwt)
              (record_nonneg_kpi JournalArticles l Hnn)) as [A1 T1]; [lra|].
  destruct (typed_column_sum_refines (Typed.conference_papers dt)
              Project.conference_papers l
              (well_typed_kpi_cells dt ConferencePapers l Hwt)
              (record_nonneg_kpi ConferencePapers l Hnn)) as [A2 T2]; [lra|].
  destruct (typed_column_sum_refines (Typed.book_chapters dt)
              Project.book_chapters l
              (well_typed_kpi_cells dt BookChapters l Hwt)
              (record_nonneg_kpi BookChapters l Hnn)) as [A3 T3]; [lra|].
  destruct (typed_column_sum_refines (Typed.technology_demonstrators dt)
              Project.technology_demonstrators l
              (well_typed_kpi_cells dt TechnologyDemonstrators l Hwt)
              (record_nonneg_kpi TechnologyDemonstrators l Hnn)) as [A4 T4]; [lra|].
  unfold TypedScore.research_output_of.
  destruct (typed_add_refines _ _ _ _ A1 A2 T1 T2 N1 N2) as [B1 U1]; [lra|].
  destruct (typed_add_refines _ _ _ _ B1 A3 U1 T3) as [B2 U2]; [lra|lra|lra|].
  destruct (typed_add_refines _ _ _ _ B2 A4 U2 T4) as [B3 _]; [lra|lra|lra|].
  exact B3.
Qed.

Lemma typed_budget_sum_refines (dt : Typed.dtypes) (l : DataFrame) :
  Typed.well_typed dt l ->
  Forall record_nonneg l ->
  qsum (map Project.total_budget l) <= inject_Z Typed.int64_max ->
  num_eq (fst (TypedScore.column_sum (Typed.total_budget dt) Project.total_budget l))
         (column_sum Project.total_budget l).
Proof.
  intros Hwt Hnn Hmax. unfold TypedScore.column_sum, column_sum. cbn [fst].
  apply typed_sum_refines; try assumption.
  - apply Forall_forall. intros x Hx. apply in_map_iff in Hx.
    destruct Hx as [r [<- Hr]]. unfold Typed.well_typed in Hwt.
    rewrite Forall_forall in Hwt. apply (Hwt r Hr).
  - apply Forall_forall. intros x Hx. apply in_map_iff in Hx.
    destruct Hx as [r [<- Hr]]. rewrite Forall_forall in Hnn. apply (Hnn r Hr).
Qed.

(** An entry of the scores is the same in both models when the sums of
    the frame stay within the int64 range. *)
Lemma typed_domain_metric_refines (dt : Typed.dtypes) (df : DataFrame)
    (d : option string) :
  Typed.well_typed dt df ->
  Forall record_nonneg df ->
  within_int64 df ->
  Metric_eq (TypedScore.domain_metric_value dt df d) (domain_metric_value df d).
Proof.
  intros Hwt Hnn [HB HK].
  pose proof (Forall_filter_rows _ (domain_mask d) df Hwt) as Hwt'.
  pose proof (Forall_filter_keep _ (domain_mask d) df Hnn) as Hnn'.
  destruct (qsum_filter_le Project.total_budget (domain_mask d) df
              (record_nonneg_budget df Hnn)) as [_ LB].
  destruct (output_total_filter_le (domain_mask d) df Hnn) as [_ LK].
  assert (Eb : num_eq
            (fst (TypedScore.column_sum (Typed.total_budget dt) Project.total_budget
                    (filter (domain_mask d) df)))
            (column_sum Project.total_budget (filter (domain_mask d) df))).
  { apply typed_budget_sum_refines; try assumption. eapply Qle_trans; eassumption. }
  assert (EB : num_eq
            (fst (TypedScore.column_sum (Typed.total_budget dt) Project.total_budget df))
            (column_sum Project.total_budget df)).
  { apply typed_budget_sum_refines; assumption. }
  assert (Eo : num_eq (fst (TypedScore.research_output_of dt (filter (domain_mask d) df)))
                      (research_output_of (filter (domain_mask d) df))).
  { apply typed_research_output_refines; try assumption.
    eapply Qle_trans; eassumption. }
  assert (EO : num_eq (fst (TypedScore.research_output_of dt df))
                      (research_output_of df)).
  { apply typed_research_output_refines; assumption. }
  assert (Sb : num_eq (Metric.budget_score (TypedScore.domain_metric_value dt df d))
                      (Metric.budget_score (domain_metric_value df d))).
  { cbn [TypedScore.domain_metric_value domain_metric_value Metric.budget_score].
    apply num_mul_compat; [|apply num_eq_refl].
    apply num_div_compat; assumption. }
  assert (Sa : num_eq (Metric.activity_score (TypedScore.domain_metric_value dt df d))
                      (Metric.activity_score (domain_metric_value df d))).
  { apply num_eq_refl. }
  assert (So : num_eq (Metric.output_score (TypedScore.domain_metric_value dt df d))
                      (Metric.output_score (domain_metric_value df d))).
  { cbn [TypedScore.domain_metric_value domain_metric_value Metric.output_score].
    rewrite (num_gt0_compat _ _ Eo).
    destruct (num_gt0 (research_output_of (filter (domain_mask d) df)));
      [|apply num_eq_refl].
    apply num_mul_compat; [|apply num_eq_refl].
    apply num_div_compat; assumption. }
  split; [reflexivity|]. split; [|split; [exact Sb|split; [exact Sa|exact So]]].
  cbn [TypedScore.domain_metric_value domain_metric_value Metric.performance_score].
  apply weighted_score_compat; assumption.
Qed.

(** With records that are not negative, whose budgets and counts add up
    within the int64 range, and a positive total budget, the budget,
    activity, output and performance scores of every domain lie within 0
    to 100, whatever the dtypes of the columns. *)
Theorem scores_in_range_funded :
  forall (dt : Typed.dtypes) (df : DataFrame) (ms : list Metric.t) (m : Metric.t),
    Typed.well_typed dt df ->
    Forall record_nonneg df ->
    within_int64 df ->
    num_gt0 (column_sum Project.total_budget df) = true ->
    TypedScore.domain_metrics dt df = Returns ms ->
    In m ms ->
    in_0_100 (Metric.budget_score m) /\
    in_0_100 (Metric.activity_score m) /\
    in_0_100 (Metric.output_score m) /\
    in_0_100 (Metric.performance_score m).
Proof.
  intros dt df ms m Hwt Hnn Hin Hpos Hms Hm.
  rewrite (typed_domain_metrics_returns dt df (positive_sum_numeric _ df Hpos)) in Hms.
  injection Hms as <-.
  apply in_map_iff in Hm. destruct Hm as [d [<- Hd]].
  destruct (typed_domain_metric_refines dt df d Hwt Hnn Hin)
    as [_ [Ep [Eb [Ea Eo]]]].
  destruct (scores_in_range_float df _ (domain_metric_value df d) Hnn Hpos
              (domain_metrics_returns df) (in_map _ _ _ Hd))
    as [Rb [Ra [Ro Rp]]].
  split; [|split; [|split]]; eapply in_0_100_compat; eassumption.
Qed.

Lemma scores_in_range_funded_witness :
  exists ms m,
    TypedScore.domain_metrics Typed.int_dtypes shared_programme_name = Returns ms /\
    In m ms /\
    Metric.domain m = Some "Space"%string /\
    in_0_100 (Metric.performance_score m).
Proof.
  do 2 eexists. split; [reflexivity|]. split; [left; reflexivity|].
  split; [reflexivity|].
  assert (Hn : Forall record_nonneg shared_programme_name) by records_nonneg.
  exact (proj2 (proj2 (proj2
    (scores_in_range_funded Typed.int_dtypes shared_programme_name _ _
       int_cells_shared_programme_name Hn within_int64_shared_programme_name
       eq_refl eq_refl (or_introl eq_refl))))).
Defined.

(** ** The budget column of the scores *)

Lemma typed_sum_all_missing (dt : Typed.dtype) (f : Project.t -> num) (df : DataFrame) :
  object_column f df = true ->
  num_is_zero (Typed.sum dt (map f df)) = true.
Proof.
  intro H. unfold object_column in H. destruct dt.
  - assert (Z : forall acc, fold_left Z.add (map Typed.int_of (map f df)) acc = acc).
    { induction df as [|r df IH]; intro acc; simpl in *; [reflexivity|].
      apply andb_prop in H. destruct H as [H1 H2].
      destruct (f r); try discriminate. simpl. rewrite Z.add_0_r. apply IH, H2. }
    simpl. rewrite Z. reflexivity.
  - assert (Z : forall acc, fold_left nanadd (map f df) acc = acc).
    { induction df as [|r df IH]; intro acc; simpl in *; [reflexivity|].
      apply andb_prop in H. destruct H as [H1 H2].
      destruct (f r); try discriminate. simpl. apply IH, H2. }
    simpl. unfold nansum. rewrite Z. reflexivity.
Qed.

(** When the total_budget column holds a number in some record, the
    scores are returned whatever the dtypes and the other cells are, and
    the activity score of every entry lies within 0 to 100: the quotient
    of the two counts is taken only for a domain that has records. *)
Theorem activity_score_always_in_range :
  forall (dt : Typed.dtypes) (df : DataFrame),
    numeric_column Project.total_budget df ->
    exists ms,
      TypedScore.domain_metrics dt df = Returns ms /\
      Forall (fun m => in_0_100 (Metric.activity_score m)) ms.
Proof.
  intros dt df Hn. eexists.
  split; [apply typed_domain_metrics_returns; exact Hn|].
  apply Forall_forall. intros m Hm. apply in_map_iff in Hm.
  destruct Hm as [d [<- _]]. simpl.
  apply activity_in_range. apply filter_length_le.
Qed.

Lemma activity_score_always_in_range_witness :
  exists ms,
    TypedScore.domain_metrics Typed.float_dtypes missing_budget = Returns ms /\
    Forall (fun m => in_0_100 (Metric.activity_score m)) ms.
Proof.
  apply (activity_score_always_in_range Typed.float_dtypes missing_budget).
  eexists. split; [right; left; reflexivity|discriminate].
Defined.

(** When total_budget is missing in every record of a frame that has
    records, the two budget sums of line 532 are the Python int 0 and the
    scores raise ZeroDivisionError, whatever the other cells are. *)
Theorem scores_raise_without_budgets :
  forall (dt : Typed.dtypes) (df : DataFrame),
    df <> [] ->
    object_column Project.total_budget df = true ->
    TypedScore.domain_metrics dt df = Raises ZeroDivisionError.
Proof.
  intros dt df Hne Hobj. destruct df as [|r df]; [contradiction Hne; reflexivity|].
  unfold TypedScore.domain_metrics. cbn [map unique mapM].
  assert (E : TypedScore.domain_metric dt (r :: df) (Project.domain r) =
              Raises ZeroDivisionError).
  { unfold TypedScore.domain_metric. rewrite Hobj.
    unfold py_truediv at 1. unfold TypedScore.column_sum. cbn [fst].
    rewrite (typed_sum_all_missing (Typed.total_budget dt) Project.total_budget
               (r :: df) Hobj).
    reflexivity. }
  rewrite E. reflexivity.
Qed.

Lemma scores_raise_without_budgets_witness :
  TypedScore.domain_metrics Typed.float_dtypes no_budgets = Raises ZeroDivisionError.
Proof.
  apply (scores_raise_without_budgets Typed.float_dtypes no_budgets).
  - discriminate.
  - reflexivity.
Defined.

(** ** The project level on object columns *)









